(** * Shallow embedding of the caching, normalisation, deduplication,
      aggregation and period-comparison code of Dashboard-recaudo-cartera
      ([src/utils/data_loader.py], [src/pages/2_Cartera.py]). *)

From Stdlib Require Import Bool ZArith List String Ascii QArith Lia Reals Lra.
From Stdlib Require Import Sorting.Sorted Sorting.Permutation Qreals Qround.
From Stdlib Require Floats.
Import ListNotations.
Close Scope Q_scope.
Open Scope string_scope.

(* ------------------------------------------------------------------ *)
(** ** The Parquet cache: [is_cache_valid] and [load_excel_with_cache] *)

Module Cache.

Section CacheModel.

(** The contents of a table are left abstract: the cache layer never looks
    inside them. *)
Variable table : Type.

(** A cache file on disk: its modification time and what [pd.read_parquet]
    makes of it ([None]: the file is corrupt or unreadable). *)
Record cache_file := mkCacheFile {
  c_mtime : Z;
  c_data : option table
}.

(** The part of the file system the loader touches: the Excel source (its
    mtime and what [pd.read_excel] makes of it, [None] when it raises) and
    the cache path [cache_dir / (stem + ".parquet")], possibly absent. *)
Record fs := mkFs {
  src_mtime : Z;
  src_data : option table;
  cache : option cache_file
}.

(** What the environment decides for one call: whether [df.to_parquet]
    succeeds, and the clock that stamps a freshly written cache file. *)
Record env := mkEnv {
  write_ok : bool;
  now : Z
}.

(** Observable effects of a call, in order. *)
Inductive event :=
| ReadCache        (* pd.read_parquet(cache_path) *)
| ReadSource       (* pd.read_excel(excel_path) *)
| WriteCache       (* df.to_parquet(cache_path) succeeded *)
| Warning          (* st.warning *)
| Error.           (* st.error *)

(** [processing_func]: [None] when the caller passes none; the function
    itself returns [None] when it raises. *)
Definition apply_processing (processing_func : option (table -> option table))
    (df : table) : option table :=
  match processing_func with
  | None => Some df
  | Some f => f df
  end.

(** [is_cache_valid(raw_file, cache_file)] *)
Definition is_cache_valid (s : fs) : bool :=
  match cache s with
  | None => false
  | Some c => (src_mtime s <=? c_mtime c)%Z
  end.

(** The [# Cargar desde Excel] part of [load_excel_with_cache]: parse,
    process, try to persist, return; any exception of [read_excel] or of
    [processing_func] ends in [st.error] and [None]. *)
Definition load_from_excel (e : env) (processing_func : option (table -> option table))
    (s : fs) : option table * fs * list event :=
  match src_data s with
  | None => (None, s, [ReadSource; Error])
  | Some raw =>
      match apply_processing processing_func raw with
      | None => (None, s, [ReadSource; Error])
      | Some df =>
          if write_ok e
          then (Some df,
                mkFs (src_mtime s) (src_data s) (Some (mkCacheFile (now e) (Some df))),
                [ReadSource; WriteCache])
          else (Some df, s, [ReadSource; Warning])
      end
  end.

(** [load_excel_with_cache(excel_path, cache_dir, processing_func)]: the
    cache branch is taken when [is_cache_valid]; an exception while reading
    the Parquet file or while processing it is turned into [st.warning] and
    the call falls through to the Excel branch. *)
Definition load_excel_with_cache (e : env)
    (processing_func : option (table -> option table)) (s : fs)
    : option table * fs * list event :=
  let excel := load_from_excel e processing_func s in
  if is_cache_valid s then
    match cache s with
    | Some c =>
        match c_data c with
        | Some cached =>
            match apply_processing processing_func cached with
            | Some df => (Some df, s, [ReadCache])
            | None =>
                let '(r, s', ev) := excel in (r, s', ReadCache :: Warning :: ev)
            end
        | None =>
            let '(r, s', ev) := excel in (r, s', ReadCache :: Warning :: ev)
        end
    | None => excel
    end
  else excel.

End CacheModel.

Arguments mkCacheFile {table}.
Arguments mkFs {table}.
Arguments c_mtime {table}.
Arguments c_data {table}.
Arguments src_mtime {table}.
Arguments src_data {table}.
Arguments cache {table}.
Arguments apply_processing {table}.
Arguments is_cache_valid {table}.
Arguments load_from_excel {table}.
Arguments load_excel_with_cache {table}.

End Cache.

(* ------------------------------------------------------------------ *)
(** ** Cells and the Python string operations the code applies to them *)

Module Py.

(** A cell of a pandas column as the code meets it: missing ([None], [NaN],
    [NaT]), a finite or infinite float, an int, a text, or a timestamp
    (year, month, day). *)
Inductive cell :=
| CNull
| CFloat (q : Q)
| CFloatInf
| CInt (z : Z)
| CStr (s : string)
| CDate (y m d : Z).

(** [pd.isna] *)
Definition isna (c : cell) : bool :=
  match c with CNull => true | _ => false end.

(** Texts are Python [str] values held as their UTF-8 bytes. *)

(** A text given by its bytes. *)
Definition u (l : list nat) : string := string_of_list_ascii (map ascii_of_nat l).

(** A continuation byte [10xxxxxx]. *)
Definition cont (a : ascii) : bool :=
  let n := nat_of_ascii a in Nat.leb 128 n && Nat.ltb n 192.

(** The characters of a text, each as its UTF-8 bytes (a byte that does not
    begin a well-formed sequence stands alone). *)
Fixpoint utf8_chars (s : string) : list string :=
  match s with
  | EmptyString => []
  | String a r =>
      let n := nat_of_ascii a in
      if Nat.ltb n 192 then String a EmptyString :: utf8_chars r
      else if Nat.ltb n 224 then
        match r with
        | String b r1 =>
            if cont b then String a (String b EmptyString) :: utf8_chars r1
            else String a EmptyString :: utf8_chars r
        | EmptyString => [String a EmptyString]
        end
      else if Nat.ltb n 240 then
        match r with
        | String b (String c r2) =>
            if cont b && cont c then String a (String b (String c EmptyString)) :: utf8_chars r2
            else String a EmptyString :: utf8_chars r
        | _ => String a EmptyString :: utf8_chars r
        end
      else
        match r with
        | String b (String c (String d r3)) =>
            if cont b && cont c && cont d
            then String a (String b (String c (String d EmptyString))) :: utf8_chars r3
            else String a EmptyString :: utf8_chars r
        | _ => String a EmptyString :: utf8_chars r
        end
  end.

(** The characters for which Python's [str.isspace] holds (Python 3.11,
    Unicode 14.0), as UTF-8. *)
Definition espacios : list string :=
  [u [9]; u [10]; u [11]; u [12]; u [13]; u [28]; u [29]; u [30]; u [31]; u [32];
   u [194;133]; u [194;160]; u [225;154;128]; u [226;128;128]; u [226;128;129];
   u [226;128;130]; u [226;128;131]; u [226;128;132]; u [226;128;133]; u [226;128;134];
   u [226;128;135]; u [226;128;136]; u [226;128;137]; u [226;128;138]; u [226;128;168];
   u [226;128;169]; u [226;128;175]; u [226;129;159]; u [227;128;128]].

Definition is_space (ch : string) : bool := existsb (String.eqb ch) espacios.

Fixpoint quitar_espacios (l : list string) : list string :=
  match l with
  | [] => []
  | ch :: r => if is_space ch then quitar_espacios r else l
  end.

Definition rev_string (s : string) : string :=
  string_of_list_ascii (rev (list_ascii_of_string s)).

(** [str.strip()] *)
Definition strip (s : string) : string :=
  String.concat "" (rev (quitar_espacios (rev (quitar_espacios (utf8_chars s))))).

(** The full upper-case mapping of [str.upper] for the characters outside
    ASCII that it changes (Python 3.11, Unicode 14.0), as UTF-8: the
    character and its upper case, which may be several characters. *)
Definition tabla_mayusculas : list (string * string) := [
  (u [194;181], u [206;156]);
  (u [195;159], u [83;83]);
  (u [195;160], u [195;128]);
  (u [195;161], u [195;129]);
  (u [195;162], u [195;130]);
  (u [195;163], u [195;131]);
  (u [195;164], u [195;132]);
  (u [195;165], u [195;133]);
  (u [195;166], u [195;134]);
  (u [195;167], u [195;135]);
  (u [195;168], u [195;136]);
  (u [195;169], u [195;137]);
  (u [195;170], u [195;138]);
  (u [195;171], u [195;139]);
  (u [195;172], u [195;140]);
  (u [195;173], u [195;141]);
  (u [195;174], u [195;142]);
  (u [195;175], u [195;143]);
  (u [195;176], u [195;144]);
  (u [195;177], u [195;145]);
  (u [195;178], u [195;146]);
  (u [195;179], u [195;147]);
  (u [195;180], u [195;148]);
  (u [195;181], u [195;149]);
  (u [195;182], u [195;150]);
  (u [195;184], u [195;152]);
  (u [195;185], u [195;153]);
  (u [195;186], u [195;154]);
  (u [195;187], u [195;155]);
  (u [195;188], u [195;156]);
  (u [195;189], u [195;157]);
  (u [195;190], u [195;158]);
  (u [195;191], u [197;184]);
  (u [196;129], u [196;128]);
  (u [196;131], u [196;130]);
  (u [196;133], u [196;132]);
  (u [196;135], u [196;134]);
  (u [196;137], u [196;136]);
  (u [196;139], u [196;138]);
  (u [196;141], u [196;140]);
  (u [196;143], u [196;142]);
  (u [196;145], u [196;144]);
  (u [196;147], u [196;146]);
  (u [196;149], u [196;148]);
  (u [196;151], u [196;150]);
  (u [196;153], u [196;152]);
  (u [196;155], u [196;154]);
  (u [196;157], u [196;156]);
  (u [196;159], u [196;158]);
  (u [196;161], u [196;160]);
  (u [196;163], u [196;162]);
  (u [196;165], u [196;164]);
  (u [196;167], u [196;166]);
  (u [196;169], u [196;168]);
  (u [196;171], u [196;170]);
  (u [196;173], u [196;172]);
  (u [196;175], u [196;174]);
  (u [196;177], u [73]);
  (u [196;179], u [196;178]);
  (u [196;181], u [196;180]);
  (u [196;183], u [196;182]);
  (u [196;186], u [196;185]);
  (u [196;188], u [196;187]);
  (u [196;190], u [196;189]);
  (u [197;128], u [196;191]);
  (u [197;130], u [197;129]);
  (u [197;132], u [197;131]);
  (u [197;134], u [197;133]);
  (u [197;136], u [197;135]);
  (u [197;137], u [202;188;78]);
  (u [197;139], u [197;138]);
  (u [197;141], u [197;140]);
  (u [197;143], u [197;142]);
  (u [197;145], u [197;144]);
  (u [197;147], u [197;146]);
  (u [197;149], u [197;148]);
  (u [197;151], u [197;150]);
  (u [197;153], u [197;152]);
  (u [197;155], u [197;154]);
  (u [197;157], u [197;156]);
  (u [197;159], u [197;158]);
  (u [197;161], u [197;160]);
  (u [197;163], u [197;162]);
  (u [197;165], u [197;164]);
  (u [197;167], u [197;166]);
  (u [197;169], u [197;168]);
  (u [197;171], u [197;170]);
  (u [197;173], u [197;172]);
  (u [197;175], u [197;174]);
  (u [197;177], u [197;176]);
  (u [197;179], u [197;178]);
  (u [197;181], u [197;180]);
  (u [197;183], u [197;182]);
  (u [197;186], u [197;185]);
  (u [197;188], u [197;187]);
  (u [197;190], u [197;189]);
  (u [197;191], u [83]);
  (u [198;128], u [201;131]);
  (u [198;131], u [198;130]);
  (u [198;133], u [198;132]);
  (u [198;136], u [198;135]);
  (u [198;140], u [198;139]);
  (u [198;146], u [198;145]);
  (u [198;149], u [199;182]);
  (u [198;153], u [198;152]);
  (u [198;154], u [200;189]);
  (u [198;158], u [200;160]);
  (u [198;161], u [198;160]);
  (u [198;163], u [198;162]);
  (u [198;165], u [198;164]);
  (u [198;168], u [198;167]);
  (u [198;173], u [198;172]);
  (u [198;176], u [198;175]);
  (u [198;180], u [198;179]);
  (u [198;182], u [198;181]);
  (u [198;185], u [198;184]);
  (u [198;189], u [198;188]);
  (u [198;191], u [199;183]);
  (u [199;133], u [199;132]);
  (u [199;134], u [199;132]);
  (u [199;136], u [199;135]);
  (u [199;137], u [199;135]);
  (u [199;139], u [199;138]);
  (u [199;140], u [199;138]);
  (u [199;142], u [199;141]);
  (u [199;144], u [199;143]);
  (u [199;146], u [199;145]);
  (u [199;148], u [199;147]);
  (u [199;150], u [199;149]);
  (u [199;152], u [199;151]);
  (u [199;154], u [199;153]);
  (u [199;156], u [199;155]);
  (u [199;157], u [198;142]);
  (u [199;159], u [199;158]);
  (u [199;161], u [199;160]);
  (u [199;163], u [199;162]);
  (u [199;165], u [199;164]);
  (u [199;167], u [199;166]);
  (u [199;169], u [199;168]);
  (u [199;171], u [199;170]);
  (u [199;173], u [199;172]);
  (u [199;175], u [199;174]);
  (u [199;176], u [74;204;140]);
  (u [199;178], u [199;177]);
  (u [199;179], u [199;177]);
  (u [199;181], u [199;180]);
  (u [199;185], u [199;184]);
  (u [199;187], u [199;186]);
  (u [199;189], u [199;188]);
  (u [199;191], u [199;190]);
  (u [200;129], u [200;128]);
  (u [200;131], u [200;130]);
  (u [200;133], u [200;132]);
  (u [200;135], u [200;134]);
  (u [200;137], u [200;136]);
  (u [200;139], u [200;138]);
  (u [200;141], u [200;140]);
  (u [200;143], u [200;142]);
  (u [200;145], u [200;144]);
  (u [200;147], u [200;146]);
  (u [200;149], u [200;148]);
  (u [200;151], u [200;150]);
  (u [200;153], u [200;152]);
  (u [200;155], u [200;154]);
  (u [200;157], u [200;156]);
  (u [200;159], u [200;158]);
  (u [200;163], u [200;162]);
  (u [200;165], u [200;164]);
  (u [200;167], u [200;166]);
  (u [200;169], u [200;168]);
  (u [200;171], u [200;170]);
  (u [200;173], u [200;172]);
  (u [200;175], u [200;174]);
  (u [200;177], u [200;176]);
  (u [200;179], u [200;178]);
  (u [200;188], u [200;187]);
  (u [200;191], u [226;177;190]);
  (u [201;128], u [226;177;191]);
  (u [201;130], u [201;129]);
  (u [201;135], u [201;134]);
  (u [201;137], u [201;136]);
  (u [201;139], u [201;138]);
  (u [201;141], u [201;140]);
  (u [201;143], u [201;142]);
  (u [201;144], u [226;177;175]);
  (u [201;145], u [226;177;173]);
  (u [201;146], u [226;177;176]);
  (u [201;147], u [198;129]);
  (u [201;148], u [198;134]);
  (u [201;150], u [198;137]);
  (u [201;151], u [198;138]);
  (u [201;153], u [198;143]);
  (u [201;155], u [198;144]);
  (u [201;156], u [234;158;171]);
  (u [201;160], u [198;147]);
  (u [201;161], u [234;158;172]);
  (u [201;163], u [198;148]);
  (u [201;165], u [234;158;141]);
  (u [201;166], u [234;158;170]);
  (u [201;168], u [198;151]);
  (u [201;169], u [198;150]);
  (u [201;170], u [234;158;174]);
  (u [201;171], u [226;177;162]);
  (u [201;172], u [234;158;173]);
  (u [201;175], u [198;156]);
  (u [201;177], u [226;177;174]);
  (u [201;178], u [198;157]);
  (u [201;181], u [198;159]);
  (u [201;189], u [226;177;164]);
  (u [202;128], u [198;166]);
  (u [202;130], u [234;159;133]);
  (u [202;131], u [198;169]);
  (u [202;135], u [234;158;177]);
  (u [202;136], u [198;174]);
  (u [202;137], u [201;132]);
  (u [202;138], u [198;177]);
  (u [202;139], u [198;178]);
  (u [202;140], u [201;133]);
  (u [202;146], u [198;183]);
  (u [202;157], u [234;158;178]);
  (u [202;158], u [234;158;176]);
  (u [205;133], u [206;153]);
  (u [205;177], u [205;176]);
  (u [205;179], u [205;178]);
  (u [205;183], u [205;182]);
  (u [205;187], u [207;189]);
  (u [205;188], u [207;190]);
  (u [205;189], u [207;191]);
  (u [206;144], u [206;153;204;136;204;129]);
  (u [206;172], u [206;134]);
  (u [206;173], u [206;136]);
  (u [206;174], u [206;137]);
  (u [206;175], u [206;138]);
  (u [206;176], u [206;165;204;136;204;129]);
  (u [206;177], u [206;145]);
  (u [206;178], u [206;146]);
  (u [206;179], u [206;147]);
  (u [206;180], u [206;148]);
  (u [206;181], u [206;149]);
  (u [206;182], u [206;150]);
  (u [206;183], u [206;151]);
  (u [206;184], u [206;152]);
  (u [206;185], u [206;153]);
  (u [206;186], u [206;154]);
  (u [206;187], u [206;155]);
  (u [206;188], u [206;156]);
  (u [206;189], u [206;157]);
  (u [206;190], u [206;158]);
  (u [206;191], u [206;159]);
  (u [207;128], u [206;160]);
  (u [207;129], u [206;161]);
  (u [207;130], u [206;163]);
  (u [207;131], u [206;163]);
  (u [207;132], u [206;164]);
  (u [207;133], u [206;165]);
  (u [207;134], u [206;166]);
  (u [207;135], u [206;167]);
  (u [207;136], u [206;168]);
  (u [207;137], u [206;169]);
  (u [207;138], u [206;170]);
  (u [207;139], u [206;171]);
  (u [207;140], u [206;140]);
  (u [207;141], u [206;142]);
  (u [207;142], u [206;143]);
  (u [207;144], u [206;146]);
  (u [207;145], u [206;152]);
  (u [207;149], u [206;166]);
  (u [207;150], u [206;160]);
  (u [207;151], u [207;143]);
  (u [207;153], u [207;152]);
  (u [207;155], u [207;154]);
  (u [207;157], u [207;156]);
  (u [207;159], u [207;158]);
  (u [207;161], u [207;160]);
  (u [207;163], u [207;162]);
  (u [207;165], u [207;164]);
  (u [207;167], u [207;166]);
  (u [207;169], u [207;168]);
  (u [207;171], u [207;170]);
  (u [207;173], u [207;172]);
  (u [207;175], u [207;174]);
  (u [207;176], u [206;154]);
  (u [207;177], u [206;161]);
  (u [207;178], u [207;185]);
  (u [207;179], u [205;191]);
  (u [207;181], u [206;149]);
  (u [207;184], u [207;183]);
  (u [207;187], u [207;186]);
  (u [208;176], u [208;144]);
  (u [208;177], u [208;145]);
  (u [208;178], u [208;146]);
  (u [208;179], u [208;147]);
  (u [208;180], u [208;148]);
  (u [208;181], u [208;149]);
  (u [208;182], u [208;150]);
  (u [208;183], u [208;151]);
  (u [208;184], u [208;152]);
  (u [208;185], u [208;153]);
  (u [208;186], u [208;154]);
  (u [208;187], u [208;155]);
  (u [208;188], u [208;156]);
  (u [208;189], u [208;157]);
  (u [208;190], u [208;158]);
  (u [208;191], u [208;159]);
  (u [209;128], u [208;160]);
  (u [209;129], u [208;161]);
  (u [209;130], u [208;162]);
  (u [209;131], u [208;163]);
  (u [209;132], u [208;164]);
  (u [209;133], u [208;165]);
  (u [209;134], u [208;166]);
  (u [209;135], u [208;167]);
  (u [209;136], u [208;168]);
  (u [209;137], u [208;169]);
  (u [209;138], u [208;170]);
  (u [209;139], u [208;171]);
  (u [209;140], u [208;172]);
  (u [209;141], u [208;173]);
  (u [209;142], u [208;174]);
  (u [209;143], u [208;175]);
  (u [209;144], u [208;128]);
  (u [209;145], u [208;129]);
  (u [209;146], u [208;130]);
  (u [209;147], u [208;131]);
  (u [209;148], u [208;132]);
  (u [209;149], u [208;133]);
  (u [209;150], u [208;134]);
  (u [209;151], u [208;135]);
  (u [209;152], u [208;136]);
  (u [209;153], u [208;137]);
  (u [209;154], u [208;138]);
  (u [209;155], u [208;139]);
  (u [209;156], u [208;140]);
  (u [209;157], u [208;141]);
  (u [209;158], u [208;142]);
  (u [209;159], u [208;143]);
  (u [209;161], u [209;160]);
  (u [209;163], u [209;162]);
  (u [209;165], u [209;164]);
  (u [209;167], u [209;166]);
  (u [209;169], u [209;168]);
  (u [209;171], u [209;170]);
  (u [209;173], u [209;172]);
  (u [209;175], u [209;174]);
  (u [209;177], u [209;176]);
  (u [209;179], u [209;178]);
  (u [209;181], u [209;180]);
  (u [209;183], u [209;182]);
  (u [209;185], u [209;184]);
  (u [209;187], u [209;186]);
  (u [209;189], u [209;188]);
  (u [209;191], u [209;190]);
  (u [210;129], u [210;128]);
  (u [210;139], u [210;138]);
  (u [210;141], u [210;140]);
  (u [210;143], u [210;142]);
  (u [210;145], u [210;144]);
  (u [210;147], u [210;146]);
  (u [210;149], u [210;148]);
  (u [210;151], u [210;150]);
  (u [210;153], u [210;152]);
  (u [210;155], u [210;154]);
  (u [210;157], u [210;156]);
  (u [210;159], u [210;158]);
  (u [210;161], u [210;160]);
  (u [210;163], u [210;162]);
  (u [210;165], u [210;164]);
  (u [210;167], u [210;166]);
  (u [210;169], u [210;168]);
  (u [210;171], u [210;170]);
  (u [210;173], u [210;172]);
  (u [210;175], u [210;174]);
  (u [210;177], u [210;176]);
  (u [210;179], u [210;178]);
  (u [210;181], u [210;180]);
  (u [210;183], u [210;182]);
  (u [210;185], u [210;184]);
  (u [210;187], u [210;186]);
  (u [210;189], u [210;188]);
  (u [210;191], u [210;190]);
  (u [211;130], u [211;129]);
  (u [211;132], u [211;131]);
  (u [211;134], u [211;133]);
  (u [211;136], u [211;135]);
  (u [211;138], u [211;137]);
  (u [211;140], u [211;139]);
  (u [211;142], u [211;141]);
  (u [211;143], u [211;128]);
  (u [211;145], u [211;144]);
  (u [211;147], u [211;146]);
  (u [211;149], u [211;148]);
  (u [211;151], u [211;150]);
  (u [211;153], u [211;152]);
  (u [211;155], u [211;154]);
  (u [211;157], u [211;156]);
  (u [211;159], u [211;158]);
  (u [211;161], u [211;160]);
  (u [211;163], u [211;162]);
  (u [211;165], u [211;164]);
  (u [211;167], u [211;166]);
  (u [211;169], u [211;168]);
  (u [211;171], u [211;170]);
  (u [211;173], u [211;172]);
  (u [211;175], u [211;174]);
  (u [211;177], u [211;176]);
  (u [211;179], u [211;178]);
  (u [211;181], u [211;180]);
  (u [211;183], u [211;182]);
  (u [211;185], u [211;184]);
  (u [211;187], u [211;186]);
  (u [211;189], u [211;188]);
  (u [211;191], u [211;190]);
  (u [212;129], u [212;128]);
  (u [212;131], u [212;130]);
  (u [212;133], u [212;132]);
  (u [212;135], u [212;134]);
  (u [212;137], u [212;136]);
  (u [212;139], u [212;138]);
  (u [212;141], u [212;140]);
  (u [212;143], u [212;142]);
  (u [212;145], u [212;144]);
  (u [212;147], u [212;146]);
  (u [212;149], u [212;148]);
  (u [212;151], u [212;150]);
  (u [212;153], u [212;152]);
  (u [212;155], u [212;154]);
  (u [212;157], u [212;156]);
  (u [212;159], u [212;158]);
  (u [212;161], u [212;160]);
  (u [212;163], u [212;162]);
  (u [212;165], u [212;164]);
  (u [212;167], u [212;166]);
  (u [212;169], u [212;168]);
  (u [212;171], u [212;170]);
  (u [212;173], u [212;172]);
  (u [212;175], u [212;174]);
  (u [213;161], u [212;177]);
  (u [213;162], u [212;178]);
  (u [213;163], u [212;179]);
  (u [213;164], u [212;180]);
  (u [213;165], u [212;181]);
  (u [213;166], u [212;182]);
  (u [213;167], u [212;183]);
  (u [213;168], u [212;184]);
  (u [213;169], u [212;185]);
  (u [213;170], u [212;186]);
  (u [213;171], u [212;187]);
  (u [213;172], u [212;188]);
  (u [213;173], u [212;189]);
  (u [213;174], u [212;190]);
  (u [213;175], u [212;191]);
  (u [213;176], u [213;128]);
  (u [213;177], u [213;129]);
  (u [213;178], u [213;130]);
  (u [213;179], u [213;131]);
  (u [213;180], u [213;132]);
  (u [213;181], u [213;133]);
  (u [213;182], u [213;134]);
  (u [213;183], u [213;135]);
  (u [213;184], u [213;136]);
  (u [213;185], u [213;137]);
  (u [213;186], u [213;138]);
  (u [213;187], u [213;139]);
  (u [213;188], u [213;140]);
  (u [213;189], u [213;141]);
  (u [213;190], u [213;142]);
  (u [213;191], u [213;143]);
  (u [214;128], u [213;144]);
  (u [214;129], u [213;145]);
  (u [214;130], u [213;146]);
  (u [214;131], u [213;147]);
  (u [214;132], u [213;148]);
  (u [214;133], u [213;149]);
  (u [214;134], u [213;150]);
  (u [214;135], u [212;181;213;146]);
  (u [225;131;144], u [225;178;144]);
  (u [225;131;145], u [225;178;145]);
  (u [225;131;146], u [225;178;146]);
  (u [225;131;147], u [225;178;147]);
  (u [225;131;148], u [225;178;148]);
  (u [225;131;149], u [225;178;149]);
  (u [225;131;150], u [225;178;150]);
  (u [225;131;151], u [225;178;151]);
  (u [225;131;152], u [225;178;152]);
  (u [225;131;153], u [225;178;153]);
  (u [225;131;154], u [225;178;154]);
  (u [225;131;155], u [225;178;155]);
  (u [225;131;156], u [225;178;156]);
  (u [225;131;157], u [225;178;157]);
  (u [225;131;158], u [225;178;158]);
  (u [225;131;159], u [225;178;159]);
  (u [225;131;160], u [225;178;160]);
  (u [225;131;161], u [225;178;161]);
  (u [225;131;162], u [225;178;162]);
  (u [225;131;163], u [225;178;163]);
  (u [225;131;164], u [225;178;164]);
  (u [225;131;165], u [225;178;165]);
  (u [225;131;166], u [225;178;166]);
  (u [225;131;167], u [225;178;167]);
  (u [225;131;168], u [225;178;168]);
  (u [225;131;169], u [225;178;169]);
  (u [225;131;170], u [225;178;170]);
  (u [225;131;171], u [225;178;171]);
  (u [225;131;172], u [225;178;172]);
  (u [225;131;173], u [225;178;173]);
  (u [225;131;174], u [225;178;174]);
  (u [225;131;175], u [225;178;175]);
  (u [225;131;176], u [225;178;176]);
  (u [225;131;177], u [225;178;177]);
  (u [225;131;178], u [225;178;178]);
  (u [225;131;179], u [225;178;179]);
  (u [225;131;180], u [225;178;180]);
  (u [225;131;181], u [225;178;181]);
  (u [225;131;182], u [225;178;182]);
  (u [225;131;183], u [225;178;183]);
  (u [225;131;184], u [225;178;184]);
  (u [225;131;185], u [225;178;185]);
  (u [225;131;186], u [225;178;186]);
  (u [225;131;189], u [225;178;189]);
  (u [225;131;190], u [225;178;190]);
  (u [225;131;191], u [225;178;191]);
  (u [225;143;184], u [225;143;176]);
  (u [225;143;185], u [225;143;177]);
  (u [225;143;186], u [225;143;178]);
  (u [225;143;187], u [225;143;179]);
  (u [225;143;188], u [225;143;180]);
  (u [225;143;189], u [225;143;181]);
  (u [225;178;128], u [208;146]);
  (u [225;178;129], u [208;148]);
  (u [225;178;130], u [208;158]);
  (u [225;178;131], u [208;161]);
  (u [225;178;132], u [208;162]);
  (u [225;178;133], u [208;162]);
  (u [225;178;134], u [208;170]);
  (u [225;178;135], u [209;162]);
  (u [225;178;136], u [234;153;138]);
  (u [225;181;185], u [234;157;189]);
  (u [225;181;189], u [226;177;163]);
  (u [225;182;142], u [234;159;134]);
  (u [225;184;129], u [225;184;128]);
  (u [225;184;131], u [225;184;130]);
  (u [225;184;133], u [225;184;132]);
  (u [225;184;135], u [225;184;134]);
  (u [225;184;137], u [225;184;136]);
  (u [225;184;139], u [225;184;138]);
  (u [225;184;141], u [225;184;140]);
  (u [225;184;143], u [225;184;142]);
  (u [225;184;145], u [225;184;144]);
  (u [225;184;147], u [225;184;146]);
  (u [225;184;149], u [225;184;148]);
  (u [225;184;151], u [225;184;150]);
  (u [225;184;153], u [225;184;152]);
  (u [225;184;155], u [225;184;154]);
  (u [225;184;157], u [225;184;156]);
  (u [225;184;159], u [225;184;158]);
  (u [225;184;161], u [225;184;160]);
  (u [225;184;163], u [225;184;162]);
  (u [225;184;165], u [225;184;164]);
  (u [225;184;167], u [225;184;166]);
  (u [225;184;169], u [225;184;168]);
  (u [225;184;171], u [225;184;170]);
  (u [225;184;173], u [225;184;172]);
  (u [225;184;175], u [225;184;174]);
  (u [225;184;177], u [225;184;176]);
  (u [225;184;179], u [225;184;178]);
  (u [225;184;181], u [225;184;180]);
  (u [225;184;183], u [225;184;182]);
  (u [225;184;185], u [225;184;184]);
  (u [225;184;187], u [225;184;186]);
  (u [225;184;189], u [225;184;188]);
  (u [225;184;191], u [225;184;190]);
  (u [225;185;129], u [225;185;128]);
  (u [225;185;131], u [225;185;130]);
  (u [225;185;133], u [225;185;132]);
  (u [225;185;135], u [225;185;134]);
  (u [225;185;137], u [225;185;136]);
  (u [225;185;139], u [225;185;138]);
  (u [225;185;141], u [225;185;140]);
  (u [225;185;143], u [225;185;142]);
  (u [225;185;145], u [225;185;144]);
  (u [225;185;147], u [225;185;146]);
  (u [225;185;149], u [225;185;148]);
  (u [225;185;151], u [225;185;150]);
  (u [225;185;153], u [225;185;152]);
  (u [225;185;155], u [225;185;154]);
  (u [225;185;157], u [225;185;156]);
  (u [225;185;159], u [225;185;158]);
  (u [225;185;161], u [225;185;160]);
  (u [225;185;163], u [225;185;162]);
  (u [225;185;165], u [225;185;164]);
  (u [225;185;167], u [225;185;166]);
  (u [225;185;169], u [225;185;168]);
  (u [225;185;171], u [225;185;170]);
  (u [225;185;173], u [225;185;172]);
  (u [225;185;175], u [225;185;174]);
  (u [225;185;177], u [225;185;176]);
  (u [225;185;179], u [225;185;178]);
  (u [225;185;181], u [225;185;180]);
  (u [225;185;183], u [225;185;182]);
  (u [225;185;185], u [225;185;184]);
  (u [225;185;187], u [225;185;186]);
  (u [225;185;189], u [225;185;188]);
  (u [225;185;191], u [225;185;190]);
  (u [225;186;129], u [225;186;128]);
  (u [225;186;131], u [225;186;130]);
  (u [225;186;133], u [225;186;132]);
  (u [225;186;135], u [225;186;134]);
  (u [225;186;137], u [225;186;136]);
  (u [225;186;139], u [225;186;138]);
  (u [225;186;141], u [225;186;140]);
  (u [225;186;143], u [225;186;142]);
  (u [225;186;145], u [225;186;144]);
  (u [225;186;147], u [225;186;146]);
  (u [225;186;149], u [225;186;148]);
  (u [225;186;150], u [72;204;177]);
  (u [225;186;151], u [84;204;136]);
  (u [225;186;152], u [87;204;138]);
  (u [225;186;153], u [89;204;138]);
  (u [225;186;154], u [65;202;190]);
  (u [225;186;155], u [225;185;160]);
  (u [225;186;161], u [225;186;160]);
  (u [225;186;163], u [225;186;162]);
  (u [225;186;165], u [225;186;164]);
  (u [225;186;167], u [225;186;166]);
  (u [225;186;169], u [225;186;168]);
  (u [225;186;171], u [225;186;170]);
  (u [225;186;173], u [225;186;172]);
  (u [225;186;175], u [225;186;174]);
  (u [225;186;177], u [225;186;176]);
  (u [225;186;179], u [225;186;178]);
  (u [225;186;181], u [225;186;180]);
  (u [225;186;183], u [225;186;182]);
  (u [225;186;185], u [225;186;184]);
  (u [225;186;187], u [225;186;186]);
  (u [225;186;189], u [225;186;188]);
  (u [225;186;191], u [225;186;190]);
  (u [225;187;129], u [225;187;128]);
  (u [225;187;131], u [225;187;130]);
  (u [225;187;133], u [225;187;132]);
  (u [225;187;135], u [225;187;134]);
  (u [225;187;137], u [225;187;136]);
  (u [225;187;139], u [225;187;138]);
  (u [225;187;141], u [225;187;140]);
  (u [225;187;143], u [225;187;142]);
  (u [225;187;145], u [225;187;144]);
  (u [225;187;147], u [225;187;146]);
  (u [225;187;149], u [225;187;148]);
  (u [225;187;151], u [225;187;150]);
  (u [225;187;153], u [225;187;152]);
  (u [225;187;155], u [225;187;154]);
  (u [225;187;157], u [225;187;156]);
  (u [225;187;159], u [225;187;158]);
  (u [225;187;161], u [225;187;160]);
  (u [225;187;163], u [225;187;162]);
  (u [225;187;165], u [225;187;164]);
  (u [225;187;167], u [225;187;166]);
  (u [225;187;169], u [225;187;168]);
  (u [225;187;171], u [225;187;170]);
  (u [225;187;173], u [225;187;172]);
  (u [225;187;175], u [225;187;174]);
  (u [225;187;177], u [225;187;176]);
  (u [225;187;179], u [225;187;178]);
  (u [225;187;181], u [225;187;180]);
  (u [225;187;183], u [225;187;182]);
  (u [225;187;185], u [225;187;184]);
  (u [225;187;187], u [225;187;186]);
  (u [225;187;189], u [225;187;188]);
  (u [225;187;191], u [225;187;190]);
  (u [225;188;128], u [225;188;136]);
  (u [225;188;129], u [225;188;137]);
  (u [225;188;130], u [225;188;138]);
  (u [225;188;131], u [225;188;139]);
  (u [225;188;132], u [225;188;140]);
  (u [225;188;133], u [225;188;141]);
  (u [225;188;134], u [225;188;142]);
  (u [225;188;135], u [225;188;143]);
  (u [225;188;144], u [225;188;152]);
  (u [225;188;145], u [225;188;153]);
  (u [225;188;146], u [225;188;154]);
  (u [225;188;147], u [225;188;155]);
  (u [225;188;148], u [225;188;156]);
  (u [225;188;149], u [225;188;157]);
  (u [225;188;160], u [225;188;168]);
  (u [225;188;161], u [225;188;169]);
  (u [225;188;162], u [225;188;170]);
  (u [225;188;163], u [225;188;171]);
  (u [225;188;164], u [225;188;172]);
  (u [225;188;165], u [225;188;173]);
  (u [225;188;166], u [225;188;174]);
  (u [225;188;167], u [225;188;175]);
  (u [225;188;176], u [225;188;184]);
  (u [225;188;177], u [225;188;185]);
  (u [225;188;178], u [225;188;186]);
  (u [225;188;179], u [225;188;187]);
  (u [225;188;180], u [225;188;188]);
  (u [225;188;181], u [225;188;189]);
  (u [225;188;182], u [225;188;190]);
  (u [225;188;183], u [225;188;191]);
  (u [225;189;128], u [225;189;136]);
  (u [225;189;129], u [225;189;137]);
  (u [225;189;130], u [225;189;138]);
  (u [225;189;131], u [225;189;139]);
  (u [225;189;132], u [225;189;140]);
  (u [225;189;133], u [225;189;141]);
  (u [225;189;144], u [206;165;204;147]);
  (u [225;189;145], u [225;189;153]);
  (u [225;189;146], u [206;165;204;147;204;128]);
  (u [225;189;147], u [225;189;155]);
  (u [225;189;148], u [206;165;204;147;204;129]);
  (u [225;189;149], u [225;189;157]);
  (u [225;189;150], u [206;165;204;147;205;130]);
  (u [225;189;151], u [225;189;159]);
  (u [225;189;160], u [225;189;168]);
  (u [225;189;161], u [225;189;169]);
  (u [225;189;162], u [225;189;170]);
  (u [225;189;163], u [225;189;171]);
  (u [225;189;164], u [225;189;172]);
  (u [225;189;165], u [225;189;173]);
  (u [225;189;166], u [225;189;174]);
  (u [225;189;167], u [225;189;175]);
  (u [225;189;176], u [225;190;186]);
  (u [225;189;177], u [225;190;187]);
  (u [225;189;178], u [225;191;136]);
  (u [225;189;179], u [225;191;137]);
  (u [225;189;180], u [225;191;138]);
  (u [225;189;181], u [225;191;139]);
  (u [225;189;182], u [225;191;154]);
  (u [225;189;183], u [225;191;155]);
  (u [225;189;184], u [225;191;184]);
  (u [225;189;185], u [225;191;185]);
  (u [225;189;186], u [225;191;170]);
  (u [225;189;187], u [225;191;171]);
  (u [225;189;188], u [225;191;186]);
  (u [225;189;189], u [225;191;187]);
  (u [225;190;128], u [225;188;136;206;153]);
  (u [225;190;129], u [225;188;137;206;153]);
  (u [225;190;130], u [225;188;138;206;153]);
  (u [225;190;131], u [225;188;139;206;153]);
  (u [225;190;132], u [225;188;140;206;153]);
  (u [225;190;133], u [225;188;141;206;153]);
  (u [225;190;134], u [225;188;142;206;153]);
  (u [225;190;135], u [225;188;143;206;153]);
  (u [225;190;136], u [225;188;136;206;153]);
  (u [225;190;137], u [225;188;137;206;153]);
  (u [225;190;138], u [225;188;138;206;153]);
  (u [225;190;139], u [225;188;139;206;153]);
  (u [225;190;140], u [225;188;140;206;153]);
  (u [225;190;141], u [225;188;141;206;153]);
  (u [225;190;142], u [225;188;142;206;153]);
  (u [225;190;143], u [225;188;143;206;153]);
  (u [225;190;144], u [225;188;168;206;153]);
  (u [225;190;145], u [225;188;169;206;153]);
  (u [225;190;146], u [225;188;170;206;153]);
  (u [225;190;147], u [225;188;171;206;153]);
  (u [225;190;148], u [225;188;172;206;153]);
  (u [225;190;149], u [225;188;173;206;153]);
  (u [225;190;150], u [225;188;174;206;153]);
  (u [225;190;151], u [225;188;175;206;153]);
  (u [225;190;152], u [225;188;168;206;153]);
  (u [225;190;153], u [225;188;169;206;153]);
  (u [225;190;154], u [225;188;170;206;153]);
  (u [225;190;155], u [225;188;171;206;153]);
  (u [225;190;156], u [225;188;172;206;153]);
  (u [225;190;157], u [225;188;173;206;153]);
  (u [225;190;158], u [225;188;174;206;153]);
  (u [225;190;159], u [225;188;175;206;153]);
  (u [225;190;160], u [225;189;168;206;153]);
  (u [225;190;161], u [225;189;169;206;153]);
  (u [225;190;162], u [225;189;170;206;153]);
  (u [225;190;163], u [225;189;171;206;153]);
  (u [225;190;164], u [225;189;172;206;153]);
  (u [225;190;165], u [225;189;173;206;153]);
  (u [225;190;166], u [225;189;174;206;153]);
  (u [225;190;167], u [225;189;175;206;153]);
  (u [225;190;168], u [225;189;168;206;153]);
  (u [225;190;169], u [225;189;169;206;153]);
  (u [225;190;170], u [225;189;170;206;153]);
  (u [225;190;171], u [225;189;171;206;153]);
  (u [225;190;172], u [225;189;172;206;153]);
  (u [225;190;173], u [225;189;173;206;153]);
  (u [225;190;174], u [225;189;174;206;153]);
  (u [225;190;175], u [225;189;175;206;153]);
  (u [225;190;176], u [225;190;184]);
  (u [225;190;177], u [225;190;185]);
  (u [225;190;178], u [225;190;186;206;153]);
  (u [225;190;179], u [206;145;206;153]);
  (u [225;190;180], u [206;134;206;153]);
  (u [225;190;182], u [206;145;205;130]);
  (u [225;190;183], u [206;145;205;130;206;153]);
  (u [225;190;188], u [206;145;206;153]);
  (u [225;190;190], u [206;153]);
  (u [225;191;130], u [225;191;138;206;153]);
  (u [225;191;131], u [206;151;206;153]);
  (u [225;191;132], u [206;137;206;153]);
  (u [225;191;134], u [206;151;205;130]);
  (u [225;191;135], u [206;151;205;130;206;153]);
  (u [225;191;140], u [206;151;206;153]);
  (u [225;191;144], u [225;191;152]);
  (u [225;191;145], u [225;191;153]);
  (u [225;191;146], u [206;153;204;136;204;128]);
  (u [225;191;147], u [206;153;204;136;204;129]);
  (u [225;191;150], u [206;153;205;130]);
  (u [225;191;151], u [206;153;204;136;205;130]);
  (u [225;191;160], u [225;191;168]);
  (u [225;191;161], u [225;191;169]);
  (u [225;191;162], u [206;165;204;136;204;128]);
  (u [225;191;163], u [206;165;204;136;204;129]);
  (u [225;191;164], u [206;161;204;147]);
  (u [225;191;165], u [225;191;172]);
  (u [225;191;166], u [206;165;205;130]);
  (u [225;191;167], u [206;165;204;136;205;130]);
  (u [225;191;178], u [225;191;186;206;153]);
  (u [225;191;179], u [206;169;206;153]);
  (u [225;191;180], u [206;143;206;153]);
  (u [225;191;182], u [206;169;205;130]);
  (u [225;191;183], u [206;169;205;130;206;153]);
  (u [225;191;188], u [206;169;206;153]);
  (u [226;133;142], u [226;132;178]);
  (u [226;133;176], u [226;133;160]);
  (u [226;133;177], u [226;133;161]);
  (u [226;133;178], u [226;133;162]);
  (u [226;133;179], u [226;133;163]);
  (u [226;133;180], u [226;133;164]);
  (u [226;133;181], u [226;133;165]);
  (u [226;133;182], u [226;133;166]);
  (u [226;133;183], u [226;133;167]);
  (u [226;133;184], u [226;133;168]);
  (u [226;133;185], u [226;133;169]);
  (u [226;133;186], u [226;133;170]);
  (u [226;133;187], u [226;133;171]);
  (u [226;133;188], u [226;133;172]);
  (u [226;133;189], u [226;133;173]);
  (u [226;133;190], u [226;133;174]);
  (u [226;133;191], u [226;133;175]);
  (u [226;134;132], u [226;134;131]);
  (u [226;147;144], u [226;146;182]);
  (u [226;147;145], u [226;146;183]);
  (u [226;147;146], u [226;146;184]);
  (u [226;147;147], u [226;146;185]);
  (u [226;147;148], u [226;146;186]);
  (u [226;147;149], u [226;146;187]);
  (u [226;147;150], u [226;146;188]);
  (u [226;147;151], u [226;146;189]);
  (u [226;147;152], u [226;146;190]);
  (u [226;147;153], u [226;146;191]);
  (u [226;147;154], u [226;147;128]);
  (u [226;147;155], u [226;147;129]);
  (u [226;147;156], u [226;147;130]);
  (u [226;147;157], u [226;147;131]);
  (u [226;147;158], u [226;147;132]);
  (u [226;147;159], u [226;147;133]);
  (u [226;147;160], u [226;147;134]);
  (u [226;147;161], u [226;147;135]);
  (u [226;147;162], u [226;147;136]);
  (u [226;147;163], u [226;147;137]);
  (u [226;147;164], u [226;147;138]);
  (u [226;147;165], u [226;147;139]);
  (u [226;147;166], u [226;147;140]);
  (u [226;147;167], u [226;147;141]);
  (u [226;147;168], u [226;147;142]);
  (u [226;147;169], u [226;147;143]);
  (u [226;176;176], u [226;176;128]);
  (u [226;176;177], u [226;176;129]);
  (u [226;176;178], u [226;176;130]);
  (u [226;176;179], u [226;176;131]);
  (u [226;176;180], u [226;176;132]);
  (u [226;176;181], u [226;176;133]);
  (u [226;176;182], u [226;176;134]);
  (u [226;176;183], u [226;176;135]);
  (u [226;176;184], u [226;176;136]);
  (u [226;176;185], u [226;176;137]);
  (u [226;176;186], u [226;176;138]);
  (u [226;176;187], u [226;176;139]);
  (u [226;176;188], u [226;176;140]);
  (u [226;176;189], u [226;176;141]);
  (u [226;176;190], u [226;176;142]);
  (u [226;176;191], u [226;176;143]);
  (u [226;177;128], u [226;176;144]);
  (u [226;177;129], u [226;176;145]);
  (u [226;177;130], u [226;176;146]);
  (u [226;177;131], u [226;176;147]);
  (u [226;177;132], u [226;176;148]);
  (u [226;177;133], u [226;176;149]);
  (u [226;177;134], u [226;176;150]);
  (u [226;177;135], u [226;176;151]);
  (u [226;177;136], u [226;176;152]);
  (u [226;177;137], u [226;176;153]);
  (u [226;177;138], u [226;176;154]);
  (u [226;177;139], u [226;176;155]);
  (u [226;177;140], u [226;176;156]);
  (u [226;177;141], u [226;176;157]);
  (u [226;177;142], u [226;176;158]);
  (u [226;177;143], u [226;176;159]);
  (u [226;177;144], u [226;176;160]);
  (u [226;177;145], u [226;176;161]);
  (u [226;177;146], u [226;176;162]);
  (u [226;177;147], u [226;176;163]);
  (u [226;177;148], u [226;176;164]);
  (u [226;177;149], u [226;176;165]);
  (u [226;177;150], u [226;176;166]);
  (u [226;177;151], u [226;176;167]);
  (u [226;177;152], u [226;176;168]);
  (u [226;177;153], u [226;176;169]);
  (u [226;177;154], u [226;176;170]);
  (u [226;177;155], u [226;176;171]);
  (u [226;177;156], u [226;176;172]);
  (u [226;177;157], u [226;176;173]);
  (u [226;177;158], u [226;176;174]);
  (u [226;177;159], u [226;176;175]);
  (u [226;177;161], u [226;177;160]);
  (u [226;177;165], u [200;186]);
  (u [226;177;166], u [200;190]);
  (u [226;177;168], u [226;177;167]);
  (u [226;177;170], u [226;177;169]);
  (u [226;177;172], u [226;177;171]);
  (u [226;177;179], u [226;177;178]);
  (u [226;177;182], u [226;177;181]);
  (u [226;178;129], u [226;178;128]);
  (u [226;178;131], u [226;178;130]);
  (u [226;178;133], u [226;178;132]);
  (u [226;178;135], u [226;178;134]);
  (u [226;178;137], u [226;178;136]);
  (u [226;178;139], u [226;178;138]);
  (u [226;178;141], u [226;178;140]);
  (u [226;178;143], u [226;178;142]);
  (u [226;178;145], u [226;178;144]);
  (u [226;178;147], u [226;178;146]);
  (u [226;178;149], u [226;178;148]);
  (u [226;178;151], u [226;178;150]);
  (u [226;178;153], u [226;178;152]);
  (u [226;178;155], u [226;178;154]);
  (u [226;178;157], u [226;178;156]);
  (u [226;178;159], u [226;178;158]);
  (u [226;178;161], u [226;178;160]);
  (u [226;178;163], u [226;178;162]);
  (u [226;178;165], u [226;178;164]);
  (u [226;178;167], u [226;178;166]);
  (u [226;178;169], u [226;178;168]);
  (u [226;178;171], u [226;178;170]);
  (u [226;178;173], u [226;178;172]);
  (u [226;178;175], u [226;178;174]);
  (u [226;178;177], u [226;178;176]);
  (u [226;178;179], u [226;178;178]);
  (u [226;178;181], u [226;178;180]);
  (u [226;178;183], u [226;178;182]);
  (u [226;178;185], u [226;178;184]);
  (u [226;178;187], u [226;178;186]);
  (u [226;178;189], u [226;178;188]);
  (u [226;178;191], u [226;178;190]);
  (u [226;179;129], u [226;179;128]);
  (u [226;179;131], u [226;179;130]);
  (u [226;179;133], u [226;179;132]);
  (u [226;179;135], u [226;179;134]);
  (u [226;179;137], u [226;179;136]);
  (u [226;179;139], u [226;179;138]);
  (u [226;179;141], u [226;179;140]);
  (u [226;179;143], u [226;179;142]);
  (u [226;179;145], u [226;179;144]);
  (u [226;179;147], u [226;179;146]);
  (u [226;179;149], u [226;179;148]);
  (u [226;179;151], u [226;179;150]);
  (u [226;179;153], u [226;179;152]);
  (u [226;179;155], u [226;179;154]);
  (u [226;179;157], u [226;179;156]);
  (u [226;179;159], u [226;179;158]);
  (u [226;179;161], u [226;179;160]);
  (u [226;179;163], u [226;179;162]);
  (u [226;179;172], u [226;179;171]);
  (u [226;179;174], u [226;179;173]);
  (u [226;179;179], u [226;179;178]);
  (u [226;180;128], u [225;130;160]);
  (u [226;180;129], u [225;130;161]);
  (u [226;180;130], u [225;130;162]);
  (u [226;180;131], u [225;130;163]);
  (u [226;180;132], u [225;130;164]);
  (u [226;180;133], u [225;130;165]);
  (u [226;180;134], u [225;130;166]);
  (u [226;180;135], u [225;130;167]);
  (u [226;180;136], u [225;130;168]);
  (u [226;180;137], u [225;130;169]);
  (u [226;180;138], u [225;130;170]);
  (u [226;180;139], u [225;130;171]);
  (u [226;180;140], u [225;130;172]);
  (u [226;180;141], u [225;130;173]);
  (u [226;180;142], u [225;130;174]);
  (u [226;180;143], u [225;130;175]);
  (u [226;180;144], u [225;130;176]);
  (u [226;180;145], u [225;130;177]);
  (u [226;180;146], u [225;130;178]);
  (u [226;180;147], u [225;130;179]);
  (u [226;180;148], u [225;130;180]);
  (u [226;180;149], u [225;130;181]);
  (u [226;180;150], u [225;130;182]);
  (u [226;180;151], u [225;130;183]);
  (u [226;180;152], u [225;130;184]);
  (u [226;180;153], u [225;130;185]);
  (u [226;180;154], u [225;130;186]);
  (u [226;180;155], u [225;130;187]);
  (u [226;180;156], u [225;130;188]);
  (u [226;180;157], u [225;130;189]);
  (u [226;180;158], u [225;130;190]);
  (u [226;180;159], u [225;130;191]);
  (u [226;180;160], u [225;131;128]);
  (u [226;180;161], u [225;131;129]);
  (u [226;180;162], u [225;131;130]);
  (u [226;180;163], u [225;131;131]);
  (u [226;180;164], u [225;131;132]);
  (u [226;180;165], u [225;131;133]);
  (u [226;180;167], u [225;131;135]);
  (u [226;180;173], u [225;131;141]);
  (u [234;153;129], u [234;153;128]);
  (u [234;153;131], u [234;153;130]);
  (u [234;153;133], u [234;153;132]);
  (u [234;153;135], u [234;153;134]);
  (u [234;153;137], u [234;153;136]);
  (u [234;153;139], u [234;153;138]);
  (u [234;153;141], u [234;153;140]);
  (u [234;153;143], u [234;153;142]);
  (u [234;153;145], u [234;153;144]);
  (u [234;153;147], u [234;153;146]);
  (u [234;153;149], u [234;153;148]);
  (u [234;153;151], u [234;153;150]);
  (u [234;153;153], u [234;153;152]);
  (u [234;153;155], u [234;153;154]);
  (u [234;153;157], u [234;153;156]);
  (u [234;153;159], u [234;153;158]);
  (u [234;153;161], u [234;153;160]);
  (u [234;153;163], u [234;153;162]);
  (u [234;153;165], u [234;153;164]);
  (u [234;153;167], u [234;153;166]);
  (u [234;153;169], u [234;153;168]);
  (u [234;153;171], u [234;153;170]);
  (u [234;153;173], u [234;153;172]);
  (u [234;154;129], u [234;154;128]);
  (u [234;154;131], u [234;154;130]);
  (u [234;154;133], u [234;154;132]);
  (u [234;154;135], u [234;154;134]);
  (u [234;154;137], u [234;154;136]);
  (u [234;154;139], u [234;154;138]);
  (u [234;154;141], u [234;154;140]);
  (u [234;154;143], u [234;154;142]);
  (u [234;154;145], u [234;154;144]);
  (u [234;154;147], u [234;154;146]);
  (u [234;154;149], u [234;154;148]);
  (u [234;154;151], u [234;154;150]);
  (u [234;154;153], u [234;154;152]);
  (u [234;154;155], u [234;154;154]);
  (u [234;156;163], u [234;156;162]);
  (u [234;156;165], u [234;156;164]);
  (u [234;156;167], u [234;156;166]);
  (u [234;156;169], u [234;156;168]);
  (u [234;156;171], u [234;156;170]);
  (u [234;156;173], u [234;156;172]);
  (u [234;156;175], u [234;156;174]);
  (u [234;156;179], u [234;156;178]);
  (u [234;156;181], u [234;156;180]);
  (u [234;156;183], u [234;156;182]);
  (u [234;156;185], u [234;156;184]);
  (u [234;156;187], u [234;156;186]);
  (u [234;156;189], u [234;156;188]);
  (u [234;156;191], u [234;156;190]);
  (u [234;157;129], u [234;157;128]);
  (u [234;157;131], u [234;157;130]);
  (u [234;157;133], u [234;157;132]);
  (u [234;157;135], u [234;157;134]);
  (u [234;157;137], u [234;157;136]);
  (u [234;157;139], u [234;157;138]);
  (u [234;157;141], u [234;157;140]);
  (u [234;157;143], u [234;157;142]);
  (u [234;157;145], u [234;157;144]);
  (u [234;157;147], u [234;157;146]);
  (u [234;157;149], u [234;157;148]);
  (u [234;157;151], u [234;157;150]);
  (u [234;157;153], u [234;157;152]);
  (u [234;157;155], u [234;157;154]);
  (u [234;157;157], u [234;157;156]);
  (u [234;157;159], u [234;157;158]);
  (u [234;157;161], u [234;157;160]);
  (u [234;157;163], u [234;157;162]);
  (u [234;157;165], u [234;157;164]);
  (u [234;157;167], u [234;157;166]);
  (u [234;157;169], u [234;157;168]);
  (u [234;157;171], u [234;157;170]);
  (u [234;157;173], u [234;157;172]);
  (u [234;157;175], u [234;157;174]);
  (u [234;157;186], u [234;157;185]);
  (u [234;157;188], u [234;157;187]);
  (u [234;157;191], u [234;157;190]);
  (u [234;158;129], u [234;158;128]);
  (u [234;158;131], u [234;158;130]);
  (u [234;158;133], u [234;158;132]);
  (u [234;158;135], u [234;158;134]);
  (u [234;158;140], u [234;158;139]);
  (u [234;158;145], u [234;158;144]);
  (u [234;158;147], u [234;158;146]);
  (u [234;158;148], u [234;159;132]);
  (u [234;158;151], u [234;158;150]);
  (u [234;158;153], u [234;158;152]);
  (u [234;158;155], u [234;158;154]);
  (u [234;158;157], u [234;158;156]);
  (u [234;158;159], u [234;158;158]);
  (u [234;158;161], u [234;158;160]);
  (u [234;158;163], u [234;158;162]);
  (u [234;158;165], u [234;158;164]);
  (u [234;158;167], u [234;158;166]);
  (u [234;158;169], u [234;158;168]);
  (u [234;158;181], u [234;158;180]);
  (u [234;158;183], u [234;158;182]);
  (u [234;158;185], u [234;158;184]);
  (u [234;158;187], u [234;158;186]);
  (u [234;158;189], u [234;158;188]);
  (u [234;158;191], u [234;158;190]);
  (u [234;159;129], u [234;159;128]);
  (u [234;159;131], u [234;159;130]);
  (u [234;159;136], u [234;159;135]);
  (u [234;159;138], u [234;159;137]);
  (u [234;159;145], u [234;159;144]);
  (u [234;159;151], u [234;159;150]);
  (u [234;159;153], u [234;159;152]);
  (u [234;159;182], u [234;159;181]);
  (u [234;173;147], u [234;158;179]);
  (u [234;173;176], u [225;142;160]);
  (u [234;173;177], u [225;142;161]);
  (u [234;173;178], u [225;142;162]);
  (u [234;173;179], u [225;142;163]);
  (u [234;173;180], u [225;142;164]);
  (u [234;173;181], u [225;142;165]);
  (u [234;173;182], u [225;142;166]);
  (u [234;173;183], u [225;142;167]);
  (u [234;173;184], u [225;142;168]);
  (u [234;173;185], u [225;142;169]);
  (u [234;173;186], u [225;142;170]);
  (u [234;173;187], u [225;142;171]);
  (u [234;173;188], u [225;142;172]);
  (u [234;173;189], u [225;142;173]);
  (u [234;173;190], u [225;142;174]);
  (u [234;173;191], u [225;142;175]);
  (u [234;174;128], u [225;142;176]);
  (u [234;174;129], u [225;142;177]);
  (u [234;174;130], u [225;142;178]);
  (u [234;174;131], u [225;142;179]);
  (u [234;174;132], u [225;142;180]);
  (u [234;174;133], u [225;142;181]);
  (u [234;174;134], u [225;142;182]);
  (u [234;174;135], u [225;142;183]);
  (u [234;174;136], u [225;142;184]);
  (u [234;174;137], u [225;142;185]);
  (u [234;174;138], u [225;142;186]);
  (u [234;174;139], u [225;142;187]);
  (u [234;174;140], u [225;142;188]);
  (u [234;174;141], u [225;142;189]);
  (u [234;174;142], u [225;142;190]);
  (u [234;174;143], u [225;142;191]);
  (u [234;174;144], u [225;143;128]);
  (u [234;174;145], u [225;143;129]);
  (u [234;174;146], u [225;143;130]);
  (u [234;174;147], u [225;143;131]);
  (u [234;174;148], u [225;143;132]);
  (u [234;174;149], u [225;143;133]);
  (u [234;174;150], u [225;143;134]);
  (u [234;174;151], u [225;143;135]);
  (u [234;174;152], u [225;143;136]);
  (u [234;174;153], u [225;143;137]);
  (u [234;174;154], u [225;143;138]);
  (u [234;174;155], u [225;143;139]);
  (u [234;174;156], u [225;143;140]);
  (u [234;174;157], u [225;143;141]);
  (u [234;174;158], u [225;143;142]);
  (u [234;174;159], u [225;143;143]);
  (u [234;174;160], u [225;143;144]);
  (u [234;174;161], u [225;143;145]);
  (u [234;174;162], u [225;143;146]);
  (u [234;174;163], u [225;143;147]);
  (u [234;174;164], u [225;143;148]);
  (u [234;174;165], u [225;143;149]);
  (u [234;174;166], u [225;143;150]);
  (u [234;174;167], u [225;143;151]);
  (u [234;174;168], u [225;143;152]);
  (u [234;174;169], u [225;143;153]);
  (u [234;174;170], u [225;143;154]);
  (u [234;174;171], u [225;143;155]);
  (u [234;174;172], u [225;143;156]);
  (u [234;174;173], u [225;143;157]);
  (u [234;174;174], u [225;143;158]);
  (u [234;174;175], u [225;143;159]);
  (u [234;174;176], u [225;143;160]);
  (u [234;174;177], u [225;143;161]);
  (u [234;174;178], u [225;143;162]);
  (u [234;174;179], u [225;143;163]);
  (u [234;174;180], u [225;143;164]);
  (u [234;174;181], u [225;143;165]);
  (u [234;174;182], u [225;143;166]);
  (u [234;174;183], u [225;143;167]);
  (u [234;174;184], u [225;143;168]);
  (u [234;174;185], u [225;143;169]);
  (u [234;174;186], u [225;143;170]);
  (u [234;174;187], u [225;143;171]);
  (u [234;174;188], u [225;143;172]);
  (u [234;174;189], u [225;143;173]);
  (u [234;174;190], u [225;143;174]);
  (u [234;174;191], u [225;143;175]);
  (u [239;172;128], u [70;70]);
  (u [239;172;129], u [70;73]);
  (u [239;172;130], u [70;76]);
  (u [239;172;131], u [70;70;73]);
  (u [239;172;132], u [70;70;76]);
  (u [239;172;133], u [83;84]);
  (u [239;172;134], u [83;84]);
  (u [239;172;147], u [213;132;213;134]);
  (u [239;172;148], u [213;132;212;181]);
  (u [239;172;149], u [213;132;212;187]);
  (u [239;172;150], u [213;142;213;134]);
  (u [239;172;151], u [213;132;212;189]);
  (u [239;189;129], u [239;188;161]);
  (u [239;189;130], u [239;188;162]);
  (u [239;189;131], u [239;188;163]);
  (u [239;189;132], u [239;188;164]);
  (u [239;189;133], u [239;188;165]);
  (u [239;189;134], u [239;188;166]);
  (u [239;189;135], u [239;188;167]);
  (u [239;189;136], u [239;188;168]);
  (u [239;189;137], u [239;188;169]);
  (u [239;189;138], u [239;188;170]);
  (u [239;189;139], u [239;188;171]);
  (u [239;189;140], u [239;188;172]);
  (u [239;189;141], u [239;188;173]);
  (u [239;189;142], u [239;188;174]);
  (u [239;189;143], u [239;188;175]);
  (u [239;189;144], u [239;188;176]);
  (u [239;189;145], u [239;188;177]);
  (u [239;189;146], u [239;188;178]);
  (u [239;189;147], u [239;188;179]);
  (u [239;189;148], u [239;188;180]);
  (u [239;189;149], u [239;188;181]);
  (u [239;189;150], u [239;188;182]);
  (u [239;189;151], u [239;188;183]);
  (u [239;189;152], u [239;188;184]);
  (u [239;189;153], u [239;188;185]);
  (u [239;189;154], u [239;188;186]);
  (u [240;144;144;168], u [240;144;144;128]);
  (u [240;144;144;169], u [240;144;144;129]);
  (u [240;144;144;170], u [240;144;144;130]);
  (u [240;144;144;171], u [240;144;144;131]);
  (u [240;144;144;172], u [240;144;144;132]);
  (u [240;144;144;173], u [240;144;144;133]);
  (u [240;144;144;174], u [240;144;144;134]);
  (u [240;144;144;175], u [240;144;144;135]);
  (u [240;144;144;176], u [240;144;144;136]);
  (u [240;144;144;177], u [240;144;144;137]);
  (u [240;144;144;178], u [240;144;144;138]);
  (u [240;144;144;179], u [240;144;144;139]);
  (u [240;144;144;180], u [240;144;144;140]);
  (u [240;144;144;181], u [240;144;144;141]);
  (u [240;144;144;182], u [240;144;144;142]);
  (u [240;144;144;183], u [240;144;144;143]);
  (u [240;144;144;184], u [240;144;144;144]);
  (u [240;144;144;185], u [240;144;144;145]);
  (u [240;144;144;186], u [240;144;144;146]);
  (u [240;144;144;187], u [240;144;144;147]);
  (u [240;144;144;188], u [240;144;144;148]);
  (u [240;144;144;189], u [240;144;144;149]);
  (u [240;144;144;190], u [240;144;144;150]);
  (u [240;144;144;191], u [240;144;144;151]);
  (u [240;144;145;128], u [240;144;144;152]);
  (u [240;144;145;129], u [240;144;144;153]);
  (u [240;144;145;130], u [240;144;144;154]);
  (u [240;144;145;131], u [240;144;144;155]);
  (u [240;144;145;132], u [240;144;144;156]);
  (u [240;144;145;133], u [240;144;144;157]);
  (u [240;144;145;134], u [240;144;144;158]);
  (u [240;144;145;135], u [240;144;144;159]);
  (u [240;144;145;136], u [240;144;144;160]);
  (u [240;144;145;137], u [240;144;144;161]);
  (u [240;144;145;138], u [240;144;144;162]);
  (u [240;144;145;139], u [240;144;144;163]);
  (u [240;144;145;140], u [240;144;144;164]);
  (u [240;144;145;141], u [240;144;144;165]);
  (u [240;144;145;142], u [240;144;144;166]);
  (u [240;144;145;143], u [240;144;144;167]);
  (u [240;144;147;152], u [240;144;146;176]);
  (u [240;144;147;153], u [240;144;146;177]);
  (u [240;144;147;154], u [240;144;146;178]);
  (u [240;144;147;155], u [240;144;146;179]);
  (u [240;144;147;156], u [240;144;146;180]);
  (u [240;144;147;157], u [240;144;146;181]);
  (u [240;144;147;158], u [240;144;146;182]);
  (u [240;144;147;159], u [240;144;146;183]);
  (u [240;144;147;160], u [240;144;146;184]);
  (u [240;144;147;161], u [240;144;146;185]);
  (u [240;144;147;162], u [240;144;146;186]);
  (u [240;144;147;163], u [240;144;146;187]);
  (u [240;144;147;164], u [240;144;146;188]);
  (u [240;144;147;165], u [240;144;146;189]);
  (u [240;144;147;166], u [240;144;146;190]);
  (u [240;144;147;167], u [240;144;146;191]);
  (u [240;144;147;168], u [240;144;147;128]);
  (u [240;144;147;169], u [240;144;147;129]);
  (u [240;144;147;170], u [240;144;147;130]);
  (u [240;144;147;171], u [240;144;147;131]);
  (u [240;144;147;172], u [240;144;147;132]);
  (u [240;144;147;173], u [240;144;147;133]);
  (u [240;144;147;174], u [240;144;147;134]);
  (u [240;144;147;175], u [240;144;147;135]);
  (u [240;144;147;176], u [240;144;147;136]);
  (u [240;144;147;177], u [240;144;147;137]);
  (u [240;144;147;178], u [240;144;147;138]);
  (u [240;144;147;179], u [240;144;147;139]);
  (u [240;144;147;180], u [240;144;147;140]);
  (u [240;144;147;181], u [240;144;147;141]);
  (u [240;144;147;182], u [240;144;147;142]);
  (u [240;144;147;183], u [240;144;147;143]);
  (u [240;144;147;184], u [240;144;147;144]);
  (u [240;144;147;185], u [240;144;147;145]);
  (u [240;144;147;186], u [240;144;147;146]);
  (u [240;144;147;187], u [240;144;147;147]);
  (u [240;144;150;151], u [240;144;149;176]);
  (u [240;144;150;152], u [240;144;149;177]);
  (u [240;144;150;153], u [240;144;149;178]);
  (u [240;144;150;154], u [240;144;149;179]);
  (u [240;144;150;155], u [240;144;149;180]);
  (u [240;144;150;156], u [240;144;149;181]);
  (u [240;144;150;157], u [240;144;149;182]);
  (u [240;144;150;158], u [240;144;149;183]);
  (u [240;144;150;159], u [240;144;149;184]);
  (u [240;144;150;160], u [240;144;149;185]);
  (u [240;144;150;161], u [240;144;149;186]);
  (u [240;144;150;163], u [240;144;149;188]);
  (u [240;144;150;164], u [240;144;149;189]);
  (u [240;144;150;165], u [240;144;149;190]);
  (u [240;144;150;166], u [240;144;149;191]);
  (u [240;144;150;167], u [240;144;150;128]);
  (u [240;144;150;168], u [240;144;150;129]);
  (u [240;144;150;169], u [240;144;150;130]);
  (u [240;144;150;170], u [240;144;150;131]);
  (u [240;144;150;171], u [240;144;150;132]);
  (u [240;144;150;172], u [240;144;150;133]);
  (u [240;144;150;173], u [240;144;150;134]);
  (u [240;144;150;174], u [240;144;150;135]);
  (u [240;144;150;175], u [240;144;150;136]);
  (u [240;144;150;176], u [240;144;150;137]);
  (u [240;144;150;177], u [240;144;150;138]);
  (u [240;144;150;179], u [240;144;150;140]);
  (u [240;144;150;180], u [240;144;150;141]);
  (u [240;144;150;181], u [240;144;150;142]);
  (u [240;144;150;182], u [240;144;150;143]);
  (u [240;144;150;183], u [240;144;150;144]);
  (u [240;144;150;184], u [240;144;150;145]);
  (u [240;144;150;185], u [240;144;150;146]);
  (u [240;144;150;187], u [240;144;150;148]);
  (u [240;144;150;188], u [240;144;150;149]);
  (u [240;144;179;128], u [240;144;178;128]);
  (u [240;144;179;129], u [240;144;178;129]);
  (u [240;144;179;130], u [240;144;178;130]);
  (u [240;144;179;131], u [240;144;178;131]);
  (u [240;144;179;132], u [240;144;178;132]);
  (u [240;144;179;133], u [240;144;178;133]);
  (u [240;144;179;134], u [240;144;178;134]);
  (u [240;144;179;135], u [240;144;178;135]);
  (u [240;144;179;136], u [240;144;178;136]);
  (u [240;144;179;137], u [240;144;178;137]);
  (u [240;144;179;138], u [240;144;178;138]);
  (u [240;144;179;139], u [240;144;178;139]);
  (u [240;144;179;140], u [240;144;178;140]);
  (u [240;144;179;141], u [240;144;178;141]);
  (u [240;144;179;142], u [240;144;178;142]);
  (u [240;144;179;143], u [240;144;178;143]);
  (u [240;144;179;144], u [240;144;178;144]);
  (u [240;144;179;145], u [240;144;178;145]);
  (u [240;144;179;146], u [240;144;178;146]);
  (u [240;144;179;147], u [240;144;178;147]);
  (u [240;144;179;148], u [240;144;178;148]);
  (u [240;144;179;149], u [240;144;178;149]);
  (u [240;144;179;150], u [240;144;178;150]);
  (u [240;144;179;151], u [240;144;178;151]);
  (u [240;144;179;152], u [240;144;178;152]);
  (u [240;144;179;153], u [240;144;178;153]);
  (u [240;144;179;154], u [240;144;178;154]);
  (u [240;144;179;155], u [240;144;178;155]);
  (u [240;144;179;156], u [240;144;178;156]);
  (u [240;144;179;157], u [240;144;178;157]);
  (u [240;144;179;158], u [240;144;178;158]);
  (u [240;144;179;159], u [240;144;178;159]);
  (u [240;144;179;160], u [240;144;178;160]);
  (u [240;144;179;161], u [240;144;178;161]);
  (u [240;144;179;162], u [240;144;178;162]);
  (u [240;144;179;163], u [240;144;178;163]);
  (u [240;144;179;164], u [240;144;178;164]);
  (u [240;144;179;165], u [240;144;178;165]);
  (u [240;144;179;166], u [240;144;178;166]);
  (u [240;144;179;167], u [240;144;178;167]);
  (u [240;144;179;168], u [240;144;178;168]);
  (u [240;144;179;169], u [240;144;178;169]);
  (u [240;144;179;170], u [240;144;178;170]);
  (u [240;144;179;171], u [240;144;178;171]);
  (u [240;144;179;172], u [240;144;178;172]);
  (u [240;144;179;173], u [240;144;178;173]);
  (u [240;144;179;174], u [240;144;178;174]);
  (u [240;144;179;175], u [240;144;178;175]);
  (u [240;144;179;176], u [240;144;178;176]);
  (u [240;144;179;177], u [240;144;178;177]);
  (u [240;144;179;178], u [240;144;178;178]);
  (u [240;145;163;128], u [240;145;162;160]);
  (u [240;145;163;129], u [240;145;162;161]);
  (u [240;145;163;130], u [240;145;162;162]);
  (u [240;145;163;131], u [240;145;162;163]);
  (u [240;145;163;132], u [240;145;162;164]);
  (u [240;145;163;133], u [240;145;162;165]);
  (u [240;145;163;134], u [240;145;162;166]);
  (u [240;145;163;135], u [240;145;162;167]);
  (u [240;145;163;136], u [240;145;162;168]);
  (u [240;145;163;137], u [240;145;162;169]);
  (u [240;145;163;138], u [240;145;162;170]);
  (u [240;145;163;139], u [240;145;162;171]);
  (u [240;145;163;140], u [240;145;162;172]);
  (u [240;145;163;141], u [240;145;162;173]);
  (u [240;145;163;142], u [240;145;162;174]);
  (u [240;145;163;143], u [240;145;162;175]);
  (u [240;145;163;144], u [240;145;162;176]);
  (u [240;145;163;145], u [240;145;162;177]);
  (u [240;145;163;146], u [240;145;162;178]);
  (u [240;145;163;147], u [240;145;162;179]);
  (u [240;145;163;148], u [240;145;162;180]);
  (u [240;145;163;149], u [240;145;162;181]);
  (u [240;145;163;150], u [240;145;162;182]);
  (u [240;145;163;151], u [240;145;162;183]);
  (u [240;145;163;152], u [240;145;162;184]);
  (u [240;145;163;153], u [240;145;162;185]);
  (u [240;145;163;154], u [240;145;162;186]);
  (u [240;145;163;155], u [240;145;162;187]);
  (u [240;145;163;156], u [240;145;162;188]);
  (u [240;145;163;157], u [240;145;162;189]);
  (u [240;145;163;158], u [240;145;162;190]);
  (u [240;145;163;159], u [240;145;162;191]);
  (u [240;150;185;160], u [240;150;185;128]);
  (u [240;150;185;161], u [240;150;185;129]);
  (u [240;150;185;162], u [240;150;185;130]);
  (u [240;150;185;163], u [240;150;185;131]);
  (u [240;150;185;164], u [240;150;185;132]);
  (u [240;150;185;165], u [240;150;185;133]);
  (u [240;150;185;166], u [240;150;185;134]);
  (u [240;150;185;167], u [240;150;185;135]);
  (u [240;150;185;168], u [240;150;185;136]);
  (u [240;150;185;169], u [240;150;185;137]);
  (u [240;150;185;170], u [240;150;185;138]);
  (u [240;150;185;171], u [240;150;185;139]);
  (u [240;150;185;172], u [240;150;185;140]);
  (u [240;150;185;173], u [240;150;185;141]);
  (u [240;150;185;174], u [240;150;185;142]);
  (u [240;150;185;175], u [240;150;185;143]);
  (u [240;150;185;176], u [240;150;185;144]);
  (u [240;150;185;177], u [240;150;185;145]);
  (u [240;150;185;178], u [240;150;185;146]);
  (u [240;150;185;179], u [240;150;185;147]);
  (u [240;150;185;180], u [240;150;185;148]);
  (u [240;150;185;181], u [240;150;185;149]);
  (u [240;150;185;182], u [240;150;185;150]);
  (u [240;150;185;183], u [240;150;185;151]);
  (u [240;150;185;184], u [240;150;185;152]);
  (u [240;150;185;185], u [240;150;185;153]);
  (u [240;150;185;186], u [240;150;185;154]);
  (u [240;150;185;187], u [240;150;185;155]);
  (u [240;150;185;188], u [240;150;185;156]);
  (u [240;150;185;189], u [240;150;185;157]);
  (u [240;150;185;190], u [240;150;185;158]);
  (u [240;150;185;191], u [240;150;185;159]);
  (u [240;158;164;162], u [240;158;164;128]);
  (u [240;158;164;163], u [240;158;164;129]);
  (u [240;158;164;164], u [240;158;164;130]);
  (u [240;158;164;165], u [240;158;164;131]);
  (u [240;158;164;166], u [240;158;164;132]);
  (u [240;158;164;167], u [240;158;164;133]);
  (u [240;158;164;168], u [240;158;164;134]);
  (u [240;158;164;169], u [240;158;164;135]);
  (u [240;158;164;170], u [240;158;164;136]);
  (u [240;158;164;171], u [240;158;164;137]);
  (u [240;158;164;172], u [240;158;164;138]);
  (u [240;158;164;173], u [240;158;164;139]);
  (u [240;158;164;174], u [240;158;164;140]);
  (u [240;158;164;175], u [240;158;164;141]);
  (u [240;158;164;176], u [240;158;164;142]);
  (u [240;158;164;177], u [240;158;164;143]);
  (u [240;158;164;178], u [240;158;164;144]);
  (u [240;158;164;179], u [240;158;164;145]);
  (u [240;158;164;180], u [240;158;164;146]);
  (u [240;158;164;181], u [240;158;164;147]);
  (u [240;158;164;182], u [240;158;164;148]);
  (u [240;158;164;183], u [240;158;164;149]);
  (u [240;158;164;184], u [240;158;164;150]);
  (u [240;158;164;185], u [240;158;164;151]);
  (u [240;158;164;186], u [240;158;164;152]);
  (u [240;158;164;187], u [240;158;164;153]);
  (u [240;158;164;188], u [240;158;164;154]);
  (u [240;158;164;189], u [240;158;164;155]);
  (u [240;158;164;190], u [240;158;164;156]);
  (u [240;158;164;191], u [240;158;164;157]);
  (u [240;158;165;128], u [240;158;164;158]);
  (u [240;158;165;129], u [240;158;164;159]);
  (u [240;158;165;130], u [240;158;164;160]);
  (u [240;158;165;131], u [240;158;164;161])
].

(** [str.upper()] of one character: on ASCII only [a]..[z] change. *)
Definition upper_char (ch : string) : string :=
  match ch with
  | String a EmptyString =>
      let n := nat_of_ascii a in
      if Nat.leb 97 n && Nat.leb n 122 then String (ascii_of_nat (n - 32)) EmptyString else ch
  | _ =>
      match find (fun p => String.eqb (fst p) ch) tabla_mayusculas with
      | Some p => snd p
      | None => ch
      end
  end.

(** [str.upper()] *)
Definition upper (s : string) : string :=
  String.concat "" (map upper_char (utf8_chars s)).

(** [s.replace(c, '')] for a one-character [c]. *)
Fixpoint remove_char (c : ascii) (s : string) : string :=
  match s with
  | EmptyString => EmptyString
  | String a r => if Ascii.eqb a c then remove_char c r else String a (remove_char c r)
  end.

Definition digit_char (d : Z) : ascii := ascii_of_nat (48 + Z.to_nat d).

Fixpoint digits_aux (fuel : nat) (n : Z) (acc : string) : string :=
  match fuel with
  | O => acc
  | S f =>
      let acc' := String (digit_char (n mod 10)) acc in
      if (n <? 10)%Z then acc' else digits_aux f (n / 10)%Z acc'
  end.

(** [str(n)] for a Python int. *)
Definition string_of_Z (z : Z) : string :=
  let n := Z.abs z in
  let ds := digits_aux (S (Z.to_nat (Z.log2 n))) n EmptyString in
  if (z <? 0)%Z then String "-" ds else ds.

Definition pad2 (z : Z) : string :=
  if (z <? 10)%Z then String "0" (string_of_Z z) else string_of_Z z.

(** [str()] of a timestamp without a time part, [YYYY-MM-DD]. *)
Definition date_str (y m d : Z) : string :=
  string_of_Z y ++ "-" ++ pad2 m ++ "-" ++ pad2 d.

(** [int(x)] on a finite float truncates toward zero. *)
Definition float_trunc (q : Q) : Z := Z.quot (Qnum q) (Zpos (Qden q)).

(** The number of decimal places of a fraction with denominator [den],
    when it has a finite decimal expansion. *)
Fixpoint dec_places (fuel k : nat) (den : Z) : option nat :=
  if (10 ^ Z.of_nat k mod den =? 0)%Z then Some k
  else match fuel with O => None | S f => dec_places f (S k) den end.

Fixpoint pad_left (k : nat) (s : string) : string :=
  match k with
  | O => s
  | S k' => if Nat.leb (S k') (String.length s) then s else pad_left k' (String "0" s)
  end.

(** [str(x)] of a float: integral values print as [n.0], values with a
    finite decimal expansion as that expansion (Python's shortest repr
    coincides with it below 1e16); other values are rendered as the fraction
    they denote. *)
Definition float_str (q0 : Q) : string :=
  let q := Qred q0 in
  let n := Qnum q in
  let d := Zpos (Qden q) in
  match dec_places 40 0 d with
  | Some O => string_of_Z n ++ ".0"
  | Some k =>
      let scaled := (Z.abs n * 10 ^ Z.of_nat k / d)%Z in
      let ip := (scaled / 10 ^ Z.of_nat k)%Z in
      let fp := (scaled mod 10 ^ Z.of_nat k)%Z in
      (if (n <? 0)%Z then "-" else "") ++ string_of_Z ip ++ "." ++ pad_left k (string_of_Z fp)
  | None => string_of_Z n ++ "/" ++ string_of_Z d
  end.

(** [astype(str)] of a cell in an object column. *)
Definition cell_str (c : cell) : string :=
  match c with
  | CNull => "nan"
  | CFloat q => float_str q
  | CFloatInf => "inf"
  | CInt z => string_of_Z z
  | CStr s => s
  | CDate y m d => date_str y m d
  end.

Definition is_digit (a : ascii) : bool :=
  let n := nat_of_ascii a in Nat.leb 48 n && Nat.leb n 57.

Definition digit_val (a : ascii) : Z := Z.of_nat (nat_of_ascii a - 48).

(** Digits of a Python integer literal: at least one digit, single
    underscores allowed between digits.  [prev_digit] records whether the
    previous character was a digit. *)
Fixpoint py_digits (prev_digit : bool) (acc : Z) (s : string) : option Z :=
  match s with
  | EmptyString => if prev_digit then Some acc else None
  | String a r =>
      if is_digit a then py_digits true (acc * 10 + digit_val a)%Z r
      else if Ascii.eqb a "_" then
        match r with
        | String b _ => if prev_digit && is_digit b then py_digits false acc r else None
        | EmptyString => None
        end
      else None
  end.

(** [int(s)] on a text: surrounding whitespace, an optional sign, then the
    digits; [None] when Python raises [ValueError]. *)
Definition py_int (s : string) : option Z :=
  match strip s with
  | String "+" r => py_digits false 0 r
  | String "-" r => option_map Z.opp (py_digits false 0 r)
  | t => py_digits false 0 t
  end.

End Py.

(* ------------------------------------------------------------------ *)
(** ** [clasificar_empresa] (src/pages/2_Cartera.py) *)

Module Clasificacion.
Import Py.

Definition soluciones_integrales_codes : list string :=
  ["137010001"; "137010002"; "137010003"; "137010004"; "137010005";
   "137010006"; "137010999"].

(** The cleaning step: [cuenta_str.replace('.', '').replace(' ', '').replace(',', '')]. *)
Definition limpiar (s : string) : string :=
  remove_char "," (remove_char " " (remove_char "." s)).

(** The rules applied to the cleaned account text. *)
Definition clasificar_str (cuenta_str : string) : string :=
  if existsb (String.eqb cuenta_str) soluciones_integrales_codes then "Soluciones Integrales"
  else if String.eqb cuenta_str "130505010" then "Grupo Estrategico"
  else if String.eqb cuenta_str "130505011" then "Finaliados"
  else if String.eqb cuenta_str "130505012" then "AGM"
  else if String.eqb cuenta_str "130505013" then "Motofacil"
  else if String.eqb cuenta_str "130505014" then "Motored"
  else match py_int cuenta_str with
       | Some n => if (139905000 <=? n)%Z && (n <=? 139905005)%Z
                   then "Cartera Castigada" else "Otras"
       | None => "Otras"
       end.

(** [clasificar_empresa(cuenta)]: a null is unclassified; an infinite float
    makes [int()] raise, which the outer [except] turns into "Otras". *)
Definition clasificar_empresa (cuenta : cell) : string :=
  if isna cuenta then "Sin Clasificar"
  else match cuenta with
       | CFloat q => clasificar_str (limpiar (string_of_Z (float_trunc q)))
       | CFloatInf => "Otras"
       | c => clasificar_str (limpiar (strip (cell_str c)))
       end.

(** The categories the function can return. *)
Definition categorias : list string :=
  ["Soluciones Integrales"; "Grupo Estrategico"; "Finaliados"; "AGM"; "Motofacil";
   "Motored"; "Cartera Castigada"; "Otras"; "Sin Clasificar"].

End Clasificacion.

(* ------------------------------------------------------------------ *)
(** ** Processed cartera frames, aging indices and period comparison
       ([obtener_metricas] and the zone aggregation of 2_Cartera.py,
       [compare_cartera_periods] of data_loader.py).  Money is modelled
       with exact rationals. *)

Module Cartera.
Import Py.

(** One processed cartera record: the account, the derived company, the
    zone, and the monetary columns after numeric coercion. *)
Record row := mkRow {
  cuenta : cell;
  empresa : string;
  zona : option string;
  total_cuota : Q;
  por_vencer : Q;
  dias30 : Q;
  dias60 : Q;
  dias90 : Q;
  dias_mas90 : Q
}.

(** A DataFrame: its column names and its records. *)
Record frame := mkFrame {
  cols : list string;
  rows : list row
}.

Definition empty_frame : frame := mkFrame [] [].

Definition has_col (df : frame) (name : string) : bool :=
  existsb (String.eqb name) (cols df).

Definition is_empty (df : frame) : bool :=
  match rows df with [] => true | _ => false end.

(** Amounts, their sums and the indices are exact rationals here.  The
    program computes them in binary64 floats (pandas' column sums, Python's
    [/] and [*]), so its numbers are these up to rounding.  What is proved
    about them states which sums, quotients and products the code forms,
    which holds in either reading, or uses amounts on which every float
    operation is exact ([CarteraFloat] below computes the indices in
    binary64 for such a check). *)
Definition sum_Q (l : list Q) : Q := fold_right Qplus 0%Q l.

(** [df[name].sum() if name in df.columns else 0] *)
Definition sum_col (df : frame) (name : string) (sel : row -> Q) : Q :=
  if has_col df name then sum_Q (map sel (rows df)) else 0%Q.

Definition filter_rows (df : frame) (p : row -> bool) : frame :=
  mkFrame (cols df) (filter p (rows df)).

(** [x > 0] *)
Definition Qpos_b (q : Q) : bool := negb (Qle_bool q 0).

Record metricas := mkMetricas {
  m_total : Q;
  m_por_vencer : Q;
  m_dias30 : Q;
  m_dias60 : Q;
  m_dias90 : Q;
  m_dias_mas90 : Q;
  (** Índice Corriente, Tipo B, Tipo C, Tipo D, Tipo E *)
  m_indices : list Q
}.

(** [obtener_metricas(df_empresa)] *)
Definition obtener_metricas (df_empresa : frame) : metricas :=
  let total := sum_col df_empresa "Total Cuota" total_cuota in
  let pv := sum_col df_empresa "Por Vencer" por_vencer in
  let d30 := sum_col df_empresa "Dias30" dias30 in
  let d60 := sum_col df_empresa "Dias60" dias60 in
  let d90 := sum_col df_empresa "Dias90" dias90 in
  let dm90 := sum_col df_empresa "Dias Mas90" dias_mas90 in
  let indices :=
    if Qpos_b total
    then [(pv / total) * 100; (d30 / total) * 100; (d60 / total) * 100;
          (d90 / total) * 100; (dm90 / total) * 100]%Q
    else [0; 0; 0; 0; 0]%Q in
  mkMetricas total pv d30 d60 d90 dm90 indices.

(** [df_filtered[df_filtered['Empresa'] == empresa]] handed to [obtener_metricas]. *)
Definition metricas_empresa (df_filtered : frame) (e : string) : metricas :=
  obtener_metricas (filter_rows df_filtered (fun r => String.eqb (empresa r) e)).

Definition empresas_excluidas : list string := ["Cartera Castigada"; "Otras"; "Sin Clasificar"].

Fixpoint unique_strings (l : list string) : list string :=
  match l with
  | [] => []
  | x :: r => x :: filter (fun y => negb (String.eqb x y)) (unique_strings r)
  end.

(** One entry of [zonas_data]: the zone, its summed Total Cuota, the five
    indices and the total delinquency index. *)
Record zona_row := mkZonaRow {
  z_zona : string;
  z_total : Q;
  z_indices : list Q;
  z_mora_total : Q
}.

(** The body of the [for zona in ...] loop of the zone ranking. *)
Definition filtro_zona (df_sin_castigada : frame) (z : string) : frame :=
  filter_rows df_sin_castigada
    (fun r => match zona r with Some z' => String.eqb z' z | None => false end).

Definition zona_metricas (df_sin_castigada : frame) (z : string) : option zona_row :=
  let df_zona := filtro_zona df_sin_castigada z in
  if is_empty df_zona then None else
  let total := sum_col df_zona "Total Cuota" total_cuota in
  let pv := sum_col df_zona "Por Vencer" por_vencer in
  let d30 := sum_col df_zona "Dias30" dias30 in
  let d60 := sum_col df_zona "Dias60" dias60 in
  let d90 := sum_col df_zona "Dias90" dias90 in
  let dm90 := sum_col df_zona "Dias Mas90" dias_mas90 in
  if Qpos_b total
  then Some (mkZonaRow z total
               [(pv / total) * 100; (d30 / total) * 100; (d60 / total) * 100;
                (d90 / total) * 100; (dm90 / total) * 100]%Q
               (((d30 + d60 + d90 + dm90) / total) * 100)%Q)
  else Some (mkZonaRow z total [0; 0; 0; 0; 0]%Q 0%Q).

(** [zonas_data]: companies outside the three excluded ones, one entry per
    distinct non-null zone. *)
Definition zonas_data (df_filtered : frame) : list zona_row :=
  let df_sin_castigada :=
    filter_rows df_filtered (fun r => negb (existsb (String.eqb (empresa r)) empresas_excluidas)) in
  if has_col df_sin_castigada "Zona" && negb (is_empty df_sin_castigada) then
    let zonas := unique_strings
                   (flat_map (fun r => match zona r with Some z => [z] | None => [] end)
                             (rows df_sin_castigada)) in
    flat_map (fun z => match zona_metricas df_sin_castigada z with
                       | Some zr => [zr] | None => [] end) zonas
  else [].

(** Python's [sorted] on strings. *)
Fixpoint insert_sorted (x : string) (l : list string) : list string :=
  match l with
  | [] => [x]
  | y :: r => if String.leb x y then x :: l else y :: insert_sorted x r
  end.

Definition sort_strings (l : list string) : list string :=
  fold_right insert_sorted [] l.

(** [df['Empresa'] = df['Cuenta'].apply(clasificar_empresa_func)] when the
    function is given, [Cuenta] exists and [Empresa] does not. *)
Definition add_empresa (clasificar_empresa_func : option (cell -> string)) (df : frame) : frame :=
  match clasificar_empresa_func with
  | Some g =>
      if has_col df "Cuenta" && negb (has_col df "Empresa")
      then mkFrame (cols df ++ ["Empresa"])
             (map (fun r => mkRow (cuenta r) (g (cuenta r)) (zona r) (total_cuota r)
                              (por_vencer r) (dias30 r) (dias60 r) (dias90 r) (dias_mas90 r))
                  (rows df))
      else df
  | None => df
  end.

Record comparacion := mkComparacion {
  c_empresa : string;
  c_total1 : Q;
  c_total2 : Q;
  c_var_total : Q;
  c_var_porcentaje : Q;
  c_indice_corriente1 : Q;
  c_indice_corriente2 : Q;
  c_indice_mora1 : Q;
  c_indice_mora2 : Q
}.

(** [df[name].sum() if name in df.columns and not df.empty else 0] *)
Definition sum_col_ne (df : frame) (name : string) (sel : row -> Q) : Q :=
  if has_col df name && negb (is_empty df) then sum_Q (map sel (rows df)) else 0%Q.

Definition grupo (df : frame) (e : string) : frame :=
  if has_col df "Empresa" then filter_rows df (fun r => String.eqb (empresa r) e)
  else empty_frame.

(** The body of the [for empresa in sorted(empresas)] loop. *)
Definition comparar_empresa (df1 df2 : frame) (e : string) : comparacion :=
  let df1_emp := grupo df1 e in
  let df2_emp := grupo df2 e in
  let total1 := sum_col_ne df1_emp "Total Cuota" total_cuota in
  let por_vencer1 := sum_col_ne df1_emp "Por Vencer" por_vencer in
  let mora1 := (sum_col_ne df1_emp "Dias30" dias30 + sum_col_ne df1_emp "Dias60" dias60 +
                sum_col_ne df1_emp "Dias90" dias90 + sum_col_ne df1_emp "Dias Mas90" dias_mas90)%Q in
  let total2 := sum_col_ne df2_emp "Total Cuota" total_cuota in
  let por_vencer2 := sum_col_ne df2_emp "Por Vencer" por_vencer in
  let mora2 := (sum_col_ne df2_emp "Dias30" dias30 + sum_col_ne df2_emp "Dias60" dias60 +
                sum_col_ne df2_emp "Dias90" dias90 + sum_col_ne df2_emp "Dias Mas90" dias_mas90)%Q in
  let var_total := (total2 - total1)%Q in
  let var_porcentaje :=
    if Qpos_b total1 then (var_total / total1 * 100)%Q
    else if Qpos_b total2 then 100%Q else 0%Q in
  mkComparacion e total1 total2 var_total var_porcentaje
    (if Qpos_b total1 then (por_vencer1 / total1 * 100)%Q else 0%Q)
    (if Qpos_b total2 then (por_vencer2 / total2 * 100)%Q else 0%Q)
    (if Qpos_b total1 then (mora1 / total1 * 100)%Q else 0%Q)
    (if Qpos_b total2 then (mora2 / total2 * 100)%Q else 0%Q).

Definition empresas_de (df : frame) : list string :=
  if has_col df "Empresa" then map empresa (rows df) else [].

(** [compare_cartera_periods(df1, df2, ..., clasificar_empresa_func)];
    [None] stands for a missing DataFrame and for the function's [None]. *)
Definition compare_cartera_periods (df1 df2 : option frame)
    (clasificar_empresa_func : option (cell -> string)) : option (list comparacion) :=
  match df1, df2 with
  | Some d1, Some d2 =>
      if is_empty d1 || is_empty d2 then None else
      let d1 := add_empresa clasificar_empresa_func d1 in
      let d2 := add_empresa clasificar_empresa_func d2 in
      let empresas := sort_strings (unique_strings (empresas_de d1 ++ empresas_de d2)) in
      Some (map (comparar_empresa d1 d2) empresas)
  | _, _ => None
  end.

(** The comparison row of one company. *)
Definition buscar (e : string) (l : list comparacion) : option comparacion :=
  find (fun c => String.eqb (c_empresa c) e) l.

End Cartera.

Module CarteraFloat.
Import PrimFloat.

(** The five indices of [obtener_metricas] and of the zone loop, from the
    summed Total Cuota and the five summed buckets, in binary64 ([float]
    is IEEE 754 double precision, as Python's float):
    [(por_vencer / total_cuota) * 100] and so on when [total_cuota > 0],
    else [0]. *)
Definition indices_float (total_cuota por_vencer dias30 dias60 dias90 dias_mas90 : float)
    : list float :=
  if (0 <? total_cuota)%float
  then [(por_vencer / total_cuota) * 100; (dias30 / total_cuota) * 100;
        (dias60 / total_cuota) * 100; (dias90 / total_cuota) * 100;
        (dias_mas90 / total_cuota) * 100]%float
  else [0; 0; 0; 0; 0]%float.

End CarteraFloat.

(* ------------------------------------------------------------------ *)
(** ** [calcular_factor_confianza] (src/pages/2_Cartera.py), over the real
       numbers ([math.log10] as [ln x / ln 10]). *)

Module Confianza.

Definition log10 (x : R) : R := (ln x / ln 10)%R.

(** [calcular_factor_confianza(cantidad_registros)] *)
Definition calcular_factor_confianza (cantidad_registros : Z) : R :=
  if (cantidad_registros <=? 0)%Z then 0.3%R
  else Rmin 1 (0.3 + (log10 (IZR (cantidad_registros + 1)) / log10 100) * 0.7)%R.

End Confianza.

(* ------------------------------------------------------------------ *)
(** ** Raw DataFrames and the numeric coercion of [process_cartera_data]
       and [process_recaudo_data] (src/utils/data_loader.py) *)

Module Tabla.
Import Py.

(** A DataFrame as loaded from Excel: its column names and its records,
    each record mapping a column name to its cell. *)
Record dframe := mkDF {
  dcols : list string;
  drows : list (string -> cell)
}.

Definition has_dcol (df : dframe) (name : string) : bool :=
  existsb (String.eqb name) (dcols df).

(** [df[name] = <expression over the record>] *)
Definition set_column (df : dframe) (name : string) (f : (string -> cell) -> cell) : dframe :=
  mkDF (if has_dcol df name then dcols df else dcols df ++ [name])
       (map (fun r k => if String.eqb k name then f r else r k) (drows df)).

(** [df.columns = df.columns.str.strip()] *)
Definition strip_columns (df : dframe) : dframe :=
  mkDF (map strip (dcols df))
       (map (fun r k => match find (fun c => String.eqb (strip c) k) (dcols df) with
                        | Some c => r c
                        | None => r k
                        end) (drows df)).

(** Cells of a column whose pandas dtype is numeric (ints, floats, NaN). *)
Definition is_numeric_cell (c : cell) : bool :=
  match c with CNull | CFloat _ | CFloatInf | CInt _ => true | _ => false end.

(** [pd.api.types.is_numeric_dtype(df[col])] *)
Definition is_numeric_dtype (df : dframe) (col : string) : bool :=
  forallb (fun r => is_numeric_cell (r col)) (drows df).

(** [.astype(str).str.replace(',', '').str.replace('$', '').str.replace(' ', '').str.strip()] *)
Definition limpiar_serie (c : cell) : string :=
  strip (remove_char " " (remove_char "$" (remove_char "," (cell_str c)))).

Fixpoint take_digits (s : string) (acc : Z) (cnt : nat) : Z * nat * string :=
  match s with
  | String a r => if is_digit a then take_digits r (acc * 10 + digit_val a)%Z (S cnt)
                  else (acc, cnt, s)
  | EmptyString => (acc, cnt, s)
  end.

Definition take_sign (s : string) : bool * string :=
  match s with
  | String "-" r => (true, r)
  | String "+" r => (false, r)
  | _ => (false, s)
  end.

Definition scale10 (m e : Z) : Q :=
  if (0 <=? e)%Z then inject_Z (m * 10 ^ e) else (m # Z.to_pos (10 ^ (- e)))%Q.

(** A decimal float literal [[+-]digits[.digits][(e|E)[+-]digits]]. *)
Definition parse_num (s : string) : option Q :=
  let '(neg, s1) := take_sign s in
  let '(ip, ni, s2) := take_digits s1 0 0 in
  let '(fp, nf, s3) :=
    match s2 with
    | String "." r => take_digits r 0 0
    | _ => (0%Z, O, s2)
    end in
  let frac_ok := match s2 with String "." _ => true | _ => Nat.eqb nf 0 end in
  if Nat.eqb (ni + nf) 0 || negb frac_ok then None else
  let mant := (ip * 10 ^ Z.of_nat nf + fp)%Z in
  let mant := if neg then Z.opp mant else mant in
  let exp :=
    match s3 with
    | EmptyString => Some 0%Z
    | String e r =>
        if Ascii.eqb e "e" || Ascii.eqb e "E" then
          let '(eneg, r1) := take_sign r in
          let '(ev, ne, r2) := take_digits r1 0 0 in
          match r2 with
          | EmptyString => if Nat.eqb ne 0 then None else Some (if eneg then Z.opp ev else ev)
          | _ => None
          end
        else None
    end in
  match exp with
  | Some ex => Some (scale10 mant (ex - Z.of_nat nf))
  | None => None
  end.

(** [pd.to_numeric(x, errors='coerce')] on one text: [NaN] when it does not
    parse. *)
Definition to_numeric_coerce (s : string) : cell :=
  if String.eqb s "inf" || String.eqb s "-inf" || String.eqb s "+inf" then CFloatInf
  else match parse_num s with
       | Some q => CFloat q
       | None => CNull
       end.

(** [.fillna(0)] *)
Definition fillna0 (c : cell) : cell :=
  match c with CNull => CFloat 0 | _ => c end.

(** [.astype('float64')] *)
Definition astype_float64 (c : cell) : cell :=
  match c with CInt z => CFloat (inject_Z z) | _ => c end.

(** The [for col in numeric_columns] loop; [rellenar] tells whether the
    coerced column goes through [.fillna(0)] (cartera) or through
    [.astype('float64')] (recaudo). *)
Definition convertir_columna (rellenar : bool) (df : dframe) (col : string) : dframe :=
  if has_dcol df col && negb (is_numeric_dtype df col) then
    set_column df col (fun r =>
      let v := to_numeric_coerce (limpiar_serie (r col)) in
      if rellenar then fillna0 v else astype_float64 v)
  else df.

Definition convertir_numericas (rellenar : bool) (cols : list string) (df : dframe) : dframe :=
  fold_left (convertir_columna rellenar) cols df.

Definition numeric_columns_cartera : list string :=
  ["Por Vencer"; "Dias30"; "Dias60"; "Dias90"; "Dias Mas90"; "Total Cuota"; "Mora"; "Dias Vencidos"].

Definition numeric_columns_recaudo : list string :=
  ["POR_VENCER"; "TREINTA_DIAS"; "SESENTA_DIAS"; "NOVENTA_DIAS"; "MAS_NOVENTA"; "DIAS_VENCIDOS"].

(** [process_recaudo_data(df)]; [to_datetime] is [pd.to_datetime(.., errors='coerce')]
    on one cell. *)
Definition process_recaudo_data (to_datetime : cell -> cell) (df : dframe) : dframe :=
  let df := fold_left (fun df col =>
               if has_dcol df col then set_column df col (fun r => to_datetime (r col)) else df)
             ["FECHA_VENCIMIENTO"; "FECHA_RECAUDO"] df in
  convertir_numericas false numeric_columns_recaudo df.

End Tabla.

(* ------------------------------------------------------------------ *)
(** ** [process_cartera_data] and its deduplication (data_loader.py) *)

Module Dedup.
Import Py Tabla.

Definition possible_razon_names : list string :=
  ["Razon Social"; "Razón Social"; "RazonSocial"; "RazónSocial";
   "Razon_Social"; "Razón_Social"; "Razon Social"; "Razón Social";
   "Nombre"; "Nombre Cliente"; "Cliente"; "Nombre Completo";
   "Razon"; "Razón"; "Social"; "Nombre de Cliente"].

Definition possible_placa_names : list string :=
  ["Placa"; "PLACA"; "placa"; "Placa Vehiculo"; "Placa Vehículo";
   "Placa Vehiculo"; "Placa del Vehiculo"; "Placa del Vehículo";
   "Numero Placa"; "Número Placa"; "Numero de Placa"; "Número de Placa"].

(** The first candidate name that is a column of [df]. *)
Definition find_col (names : list string) (df : dframe) : option string :=
  find (has_dcol df) names.

(** [str.lower()] on ASCII letters.  Python's [str.lower] also maps
    letters outside ASCII, but only two of them to ASCII text: U+212A (to
    [k]) and U+0130 (to [i] followed by U+0307); every other character
    outside ASCII stays outside it.  The patterns of [date_patterns] hold no
    [k] and follow every [i] with an ASCII letter, so whether one of them
    occurs in [c.lower()] is decided by the ASCII letters of [c] alone:
    [date_cols] below gives what the code gives. *)
Definition lower_char (a : ascii) : ascii :=
  let n := nat_of_ascii a in
  if Nat.leb 65 n && Nat.leb n 90 then ascii_of_nat (n + 32) else a.

Fixpoint lower (s : string) : string :=
  match s with
  | EmptyString => EmptyString
  | String a r => String (lower_char a) (lower r)
  end.

(** [pat in s] *)
Fixpoint contains (pat s : string) : bool :=
  String.prefix pat s ||
  match s with
  | EmptyString => false
  | String _ r => contains pat r
  end.

Definition date_patterns : list string :=
  ["fecha actualiz"; "date actualiz"; "corte"; "fecha corte"; "fecha modif"].

(** The helper columns the code adds before it looks for date columns. *)
Definition columnas_temporales : list string :=
  ["_razon_social_normalized"; "_placa_normalized"; "_unique_key"].

(** [date_cols = [c for c in df.columns if any(x in c.lower() for x in [...])]] *)
Definition date_cols (df : dframe) : list string :=
  filter (fun c => existsb (fun x => contains x (lower c)) date_patterns)
         (dcols df ++ columnas_temporales)%list.

(** [astype(str)] of a cell of the [Vencimiento] column after [pd.to_datetime]. *)
Definition venc_str (c : cell) : string :=
  match c with
  | CDate y m d => date_str y m d
  | _ => "NaT"
  end.

(** [.astype(str).str.strip().str.upper()] *)
Definition norm_text (c : cell) : string := upper (strip (cell_str c)).

(** The [_unique_key] column. *)
Definition unique_key (razon placa : string) (r : string -> cell) : string :=
  venc_str (r "Vencimiento") ++ "_" ++ norm_text (r razon) ++ "_" ++ norm_text (r placa).

(** [df.duplicated(subset=[key], keep=False).sum() > 0] *)
Fixpoint hay_duplicados (key : (string -> cell) -> string) (l : list (string -> cell)) : bool :=
  match l with
  | [] => false
  | r :: rs => existsb (fun r' => String.eqb (key r) (key r')) rs || hay_duplicados key rs
  end.

(** [drop_duplicates(subset=[key], keep='first')], [seen] holding the keys
    already kept. *)
Fixpoint drop_dup_first (key : (string -> cell) -> string) (seen : list string)
    (l : list (string -> cell)) : list (string -> cell) :=
  match l with
  | [] => []
  | r :: rs =>
      if existsb (String.eqb (key r)) seen then drop_dup_first key seen rs
      else r :: drop_dup_first key (key r :: seen) rs
  end.

(** [drop_duplicates(subset=[key], keep='last')] *)
Definition drop_dup_last (key : (string -> cell) -> string) (l : list (string -> cell))
    : list (string -> cell) :=
  rev (drop_dup_first key [] (rev l)).

(** The kinds of values that pandas' [sort_values] can order against each
    other: numbers (ints, finite and infinite floats), texts and timestamps;
    missing values are set apart ([na_position]). *)
Inductive clase := Falta | Numero | Texto | Fecha.

Definition clase_de (c : cell) : clase :=
  match c with
  | CNull => Falta
  | CFloat _ | CFloatInf | CInt _ => Numero
  | CStr _ => Texto
  | CDate _ _ _ => Fecha
  end.

Definition clase_eqb (a b : clase) : bool :=
  match a, b with
  | Falta, Falta | Numero, Numero | Texto, Texto | Fecha, Fecha => true
  | _, _ => false
  end.

Definition num_val (c : cell) : Q :=
  match c with CFloat q => q | CInt z => inject_Z z | _ => 0%Q end.

(** Timestamps by (year, month, day). *)
Definition fecha_le (y m d y' m' d' : Z) : bool :=
  (y <? y')%Z || ((y =? y')%Z && ((m <? m')%Z || ((m =? m')%Z && (d <=? d')%Z))).

(** Python's [a <= b] for two values of the same kind: numbers by value
    ([inf] above every finite one), texts by code points (the order of
    their UTF-8 bytes), timestamps in time. *)
Definition menor_igual (a b : cell) : bool :=
  match a, b with
  | CFloatInf, CFloatInf => true
  | CFloatInf, (CFloat _ | CInt _) => false
  | (CFloat _ | CInt _), CFloatInf => true
  | (CFloat _ | CInt _), (CFloat _ | CInt _) => Qle_bool (num_val a) (num_val b)
  | CStr x, CStr y => String.leb x y
  | CDate y m d, CDate y' m' d' => fecha_le y m d y' m' d'
  | _, _ => false
  end.

(** [a] may come before [b] in [sort_values(ascending=False,
    na_position='last')]: the larger value first, missing values last. *)
Definition antes (a b : cell) : bool :=
  match isna a, isna b with
  | false, false => menor_igual b a
  | false, true => true
  | true, false => false
  | true, true => true
  end.

(** [sort_values(by=col)] raises [TypeError] when the column holds values
    of two kinds ([str] against [int], [Timestamp] against [str], ...): its
    non-missing values must all be of one kind. *)
Definition ordenable (col : string) (l : list (string -> cell)) : bool :=
  match filter (fun c => negb (isna c)) (map (fun r => r col) l) with
  | [] => true
  | c :: cs => forallb (fun c' => clase_eqb (clase_de c') (clase_de c)) cs
  end.

(** What [df.sort_values(by=col, ascending=False, na_position='last')] is
    known to return on a column it can sort: its records, reordered so that
    the column descends with missing values last.  The default quicksort is
    not stable, and the order it leaves among equal values depends on the
    NumPy build, so the embedding takes the sort as a parameter meeting
    this specification. *)
Definition ordena (sort_values : string -> list (string -> cell) -> list (string -> cell)) : Prop :=
  forall col l, ordenable col l = true ->
    Permutation (sort_values col l) l /\
    Sorted (fun a b => antes (a col) (b col) = true) (sort_values col l).

(** One sort meeting [ordena], used to run the definitions: insertion sort. *)
Fixpoint insert_desc (col : string) (x : string -> cell) (l : list (string -> cell))
    : list (string -> cell) :=
  match l with
  | [] => [x]
  | y :: r => if antes (x col) (y col) then x :: l else y :: insert_desc col x r
  end.

Definition sort_desc (col : string) (l : list (string -> cell)) : list (string -> cell) :=
  fold_right (insert_desc col) [] l.

(** What the function reports through Streamlit. *)
Inductive mensaje :=
| InfoDedup                      (* st.info: deduplication applied *)
| AvisoColumnas (faltan : list string)   (* st.warning: missing key columns *)
| InfoParcial.                   (* st.info: partial deduplication *)

(** The [if deduplicate:] block of [process_cartera_data]; [None] when
    [sort_values] raises [TypeError]. *)
Definition deduplicar
    (sort_values : string -> list (string -> cell) -> list (string -> cell))
    (df : dframe) : option (dframe * list mensaje) :=
  let initial_count := List.length (drows df) in
  let razon_social_col := find_col possible_razon_names df in
  let placa_col := find_col possible_placa_names df in
  let tiene_venc := has_dcol df "Vencimiento" in
  let missing_cols :=
    ((if tiene_venc then [] else ["Vencimiento"]) ++
     (match razon_social_col with Some _ => [] | None => ["Razón Social"] end) ++
     (match placa_col with Some _ => [] | None => ["Placa"] end))%list in
  match razon_social_col, placa_col, tiene_venc with
  | Some rc, Some pc, true =>
      let key := unique_key rc pc in
      if hay_duplicados key (drows df) then
        let ordenadas :=
          match date_cols df with
          | c :: _ =>
              if ordenable c (drows df) then Some (sort_values c (drows df)) else None
          | [] => Some (drows df)
          end in
        match ordenadas with
        | None => None
        | Some ordenadas =>
            let kept := drop_dup_first key [] ordenadas in
            let removed := (initial_count - List.length kept)%nat in
            Some (mkDF (dcols df) kept,
                  if Nat.ltb 0 removed && Nat.ltb initial_count (100 * removed)
                  then [InfoDedup] else [])
        end
      else Some (df, [])
  | _, _, _ =>
      let aviso := AvisoColumnas missing_cols in
      if tiene_venc then
        let vkey := fun r : string -> cell => venc_str (r "Vencimiento") in
        if hay_duplicados vkey (drows df)
        then Some (mkDF (dcols df) (drop_dup_last vkey (drows df)), [aviso; InfoParcial])
        else Some (df, [aviso])
      else Some (df, [aviso])
  end.

(** [process_cartera_data(df, deduplicate)]; [to_datetime] is
    [pd.to_datetime(.., errors='coerce')] on one cell, [sort_values] the
    sort of [ordena]; [None] when the call raises. *)
Definition process_cartera_data (to_datetime : cell -> cell)
    (sort_values : string -> list (string -> cell) -> list (string -> cell))
    (df : dframe) (deduplicate : bool) : option (dframe * list mensaje) :=
  let df := strip_columns df in
  let df := convertir_numericas true numeric_columns_cartera df in
  let df := if has_dcol df "Vencimiento"
            then set_column df "Vencimiento" (fun r => to_datetime (r "Vencimiento")) else df in
  if deduplicate then deduplicar sort_values df else Some (df, []).

End Dedup.

(* ------------------------------------------------------------------ *)
(** ** Monthly files: [parse_filename_date], [get_excel_files],
       [get_cache_path], [detect_cartera_files], [detect_recaudo_files]
       (data_loader.py) and the file choice of [load_cartera_data]
       (2_Cartera.py) and of [load_cartera_for_comparison] (data_loader.py).
       File names are texts over ASCII (the regex's [\d] is read as an
       ASCII digit). *)

Module Archivos.
Import Py.

(** A path: its directory and its final component. *)
Record ruta := mkRuta {
  carpeta : string;
  nombre : string
}.

Definition ruta_eqb (p q : ruta) : bool :=
  String.eqb (carpeta p) (carpeta q) && String.eqb (nombre p) (nombre q).

Definition CARTERA_RAW_DIR : string := "data/cartera/raw".
Definition RECAUDO_RAW_DIR : string := "data/recaudo/raw".
Definition ROOT_DIR : string := ".".

(** The position of the last ['.'] of a name, scanning from position [i]. *)
Fixpoint ultimo_punto (s : string) (i : nat) (acc : option nat) : option nat :=
  match s with
  | EmptyString => acc
  | String a r => ultimo_punto r (S i) (if Ascii.eqb a "." then Some i else acc)
  end.

(** [PurePath.stem]: the name without its last suffix, a suffix being the
    part from the last dot when that dot is neither the first nor the last
    character. *)
Definition stem (name : string) : string :=
  match ultimo_punto name 0 None with
  | Some i => if Nat.ltb 0 i && Nat.ltb i (String.length name - 1)
              then substring 0 i name else name
  | None => name
  end.

(** [re.match] of [(\d{4})-(\d{1,2})] at the start of [s]: four digits, a
    dash, then one or two digits (the quantifier is greedy). *)
Definition match_fecha (s : string) : option (Z * Z) :=
  match s with
  | String a1 (String a2 (String a3 (String a4 (String guion (String m1 r))))) =>
      if is_digit a1 && is_digit a2 && is_digit a3 && is_digit a4 && Ascii.eqb guion "-"
         && is_digit m1 then
        let año := (digit_val a1 * 1000 + digit_val a2 * 100 + digit_val a3 * 10 + digit_val a4)%Z in
        match r with
        | String m2 _ => if is_digit m2 then Some (año, digit_val m1 * 10 + digit_val m2)%Z
                         else Some (año, digit_val m1)
        | EmptyString => Some (año, digit_val m1)
        end
      else None
  | _ => None
  end.

(** [re.search]: the leftmost position where the pattern matches. *)
Fixpoint buscar_fecha (s : string) : option (Z * Z) :=
  match match_fecha s with
  | Some p => Some p
  | None => match s with
            | EmptyString => None
            | String _ r => buscar_fecha r
            end
  end.

(** The decimal digit [d] (0..9) as a character, and the four- and two-digit
    zero-padded writings [f"{año:04d}"] and [f"{mes:02d}"] of the periods in
    the file names. *)
Definition digito (d : Z) : ascii := ascii_of_nat (48 + Z.to_nat d).

Definition cuatro_digitos (y : Z) : string :=
  String (digito (y / 1000)) (String (digito (y / 100 mod 10))
    (String (digito (y / 10 mod 10)) (String (digito (y mod 10)) EmptyString))).

Definition dos_digitos (m : Z) : string :=
  String (digito (m / 10)) (String (digito (m mod 10)) EmptyString).

(** [parse_filename_date(filename)], on the file's name. *)
Definition parse_filename_date (name : string) : option (Z * Z) :=
  match buscar_fecha (stem name) with
  | Some (año, mes) => if (1 <=? mes)%Z && (mes <=? 12)%Z then Some (año, mes) else None
  | None => None
  end.

Definition sufijo (suf s : string) : bool :=
  String.prefix (rev_string suf) (rev_string s).

(** [fnmatch] of a name against [<prefijo>*<suf>]. *)
Definition glob_match (prefijo suf name : string) : bool :=
  String.prefix prefijo name && sufijo suf name &&
  Nat.leb (String.length prefijo + String.length suf) (String.length name).

(** [sorted(xs, key=k, reverse=True)] for a key compared by [ge]: a stable
    insertion sort in which each element goes after those whose key is at
    least its own. *)
Section Orden.
Context {A : Type} (ge : A -> A -> bool).

Fixpoint insertar (x : A) (l : list A) : list A :=
  match l with
  | [] => [x]
  | y :: r => if ge y x then y :: insertar x r else x :: l
  end.

Definition ordenar_desc (l : list A) : list A :=
  fold_left (fun acc x => insertar x acc) l [].

End Orden.

(** A directory listing: [None] when the directory does not exist, else
    the entries' names and modification times in the order the file system
    yields them. *)
Definition listado := option (list (string * Z)).

(** [get_excel_files(directory, pattern)] for a pattern [<prefijo>*.xlsx]. *)
Definition get_excel_files (dir : listado) (carpeta_dir prefijo : string) : list ruta :=
  match dir with
  | None => []
  | Some l =>
      map (fun e => mkRuta carpeta_dir (fst e))
          (ordenar_desc (fun a b => (snd b <=? snd a)%Z)
                        (filter (fun e => glob_match prefijo ".xlsx" (fst e)) l))
  end.

(** [get_cache_path(raw_file, cache_dir)] *)
Definition get_cache_path (raw_file : ruta) (cache_dir : string) : ruta :=
  mkRuta cache_dir (stem (nombre raw_file) ++ ".parquet").

(** An entry of the detected files: [(mes_str, año, mes_num, archivo_path)]. *)
Record entrada := mkEntrada {
  e_mes_str : string;
  e_año : Z;
  e_mes : Z;
  e_ruta : ruta
}.

Definition meses_es : list string :=
  ["Enero"; "Febrero"; "Marzo"; "Abril"; "Mayo"; "Junio";
   "Julio"; "Agosto"; "Septiembre"; "Octubre"; "Noviembre"; "Diciembre"].

(** [f"{meses_es[mes-1]} {año}"] *)
Definition mes_str_es (año mes : Z) : string :=
  nth (Z.to_nat (mes - 1)) meses_es "" ++ " " ++ string_of_Z año.

(** The key [(x[1], x[2])] compared for [reverse=True]. *)
Definition clave_ge (a b : entrada) : bool :=
  (e_año b <? e_año a)%Z || ((e_año b =? e_año a)%Z && (e_mes b <=? e_mes a)%Z).

(** The first loop: every raw-directory file whose name carries a date. *)
Definition entradas_raw (label : Z -> Z -> string) (files : list ruta) : list entrada :=
  flat_map (fun f => match parse_filename_date (nombre f) with
                     | Some (año, mes) => [mkEntrada (label año mes) año mes f]
                     | None => []
                     end) files.

(** The second loop: root-directory files, skipped when their path is
    already listed. *)
Definition agregar_raiz (label : Z -> Z -> string) (files : list entrada)
    (root_files : list ruta) : list entrada :=
  fold_left (fun acc f =>
               match parse_filename_date (nombre f) with
               | Some (año, mes) =>
                   if existsb (fun e => ruta_eqb (e_ruta e) f) acc then acc
                   else (acc ++ [mkEntrada (label año mes) año mes f])%list
               | None => acc
               end) root_files files.

(** [detect_cartera_files()], given the listings of [data/cartera/raw] and
    of the working directory. *)
Definition detect_cartera_files (raw root : listado) : list entrada :=
  let files := entradas_raw mes_str_es (get_excel_files raw CARTERA_RAW_DIR "cartera-") in
  let files := agregar_raiz mes_str_es files (get_excel_files root ROOT_DIR "cartera-") in
  ordenar_desc clave_ge files.

(** [datetime(año, mes, 1)] raises unless the year is in [1, 9999] and
    the month in [1, 12]. *)
Definition fecha_valida (año mes : Z) : bool :=
  (1 <=? año)%Z && (año <=? 9999)%Z && (1 <=? mes)%Z && (mes <=? 12)%Z.

(** [detect_recaudo_files()]; [strftime_B_Y año mes] is
    [datetime(año, mes, 1).strftime('%B %Y')] in the process locale, and
    [None] stands for the [ValueError] of [datetime]. *)
Definition detect_recaudo_files (strftime_B_Y : Z -> Z -> string) (raw root : listado)
    : option (list entrada) :=
  let files := entradas_raw mes_str_es (get_excel_files raw RECAUDO_RAW_DIR "recaudo-") in
  let files :=
    fold_left (fun acc f =>
                 match acc with
                 | None => None
                 | Some acc =>
                     match parse_filename_date (nombre f) with
                     | Some (año, mes) =>
                         if fecha_valida año mes then
                           if existsb (fun e => ruta_eqb (e_ruta e) f) acc then Some acc
                           else Some (acc ++ [mkEntrada (strftime_B_Y año mes) año mes f])%list
                         else None
                     | None => Some acc
                     end
                 end) (get_excel_files root ROOT_DIR "recaudo-") (Some files) in
  option_map (ordenar_desc clave_ge) files.

(** The file [load_cartera_data(año, mes_num)] hands to the loader, and
    whether it warns that the requested month is missing ([st.warning]);
    [None] when no file is available ([st.error]).  [None] arguments and
    zeros are falsy for [if año and mes_num]. *)
Definition load_cartera_data_archivo (available_files : list entrada) (año mes_num : option Z)
    : option (ruta * bool) :=
  match available_files with
  | [] => None
  | primero :: _ =>
      match año, mes_num with
      | Some a, Some m =>
          if negb (a =? 0)%Z && negb (m =? 0)%Z then
            match find (fun e => (e_año e =? a)%Z && (e_mes e =? m)%Z) available_files with
            | Some e => Some (e_ruta e, false)
            | None => Some (e_ruta primero, true)
            end
          else Some (e_ruta primero, false)
      | _, _ => Some (e_ruta primero, false)
      end
  end.

(** The outcome of the file choice of [load_cartera_for_comparison]: a
    period without file ([st.error], four [None]s), a [ValueError] of
    [datetime(año, mes, 1)], or the two files it loads. *)
Inductive eleccion :=
| NoEncontrado
| FechaInvalida
| Elegidos (file1 file2 : ruta).

(** The [for mes_str, año, mes, file_path in available_files] loop, which
    keeps the last match of each period, and the checks after it. *)
Definition load_cartera_for_comparison_archivos (available_files : list entrada)
    (año1 mes1 año2 mes2 : Z) : eleccion :=
  let '(file1, file2) :=
    fold_left (fun '(f1, f2) e =>
                 (if (e_año e =? año1)%Z && (e_mes e =? mes1)%Z then Some (e_ruta e) else f1,
                  if (e_año e =? año2)%Z && (e_mes e =? mes2)%Z then Some (e_ruta e) else f2))
              available_files (None, None) in
  match file1, file2 with
  | None, _ => if fecha_valida año1 mes1 then NoEncontrado else FechaInvalida
  | Some _, None => if fecha_valida año2 mes2 then NoEncontrado else FechaInvalida
  | Some p1, Some p2 =>
      if fecha_valida año1 mes1 && fecha_valida año2 mes2 then Elegidos p1 p2 else FechaInvalida
  end.

End Archivos.

(** Several Excel files sharing one cache directory: [load_excel_with_cache]
    run on a path, with the cache file at [get_cache_path(excel_path,
    cache_dir)]. *)
Module Disco.
Import Cache Archivos.

Section DiscoModel.

Variable table : Type.

(** The Excel files (mtime and what [pd.read_excel] makes of them) and the
    Parquet files, by path. *)
Record disco := mkDisco {
  excel : ruta -> option (Z * option table);
  parquet : ruta -> option (cache_file table)
}.

(** [load_excel_with_cache(excel_path, cache_dir, processing_func)] on the
    disk [d]; the new cache file, if any, is stored back at the cache path.
    A missing Excel file with no cache file ends in [st.error]
    ([pd.read_excel] raises inside the [try]); with a cache file present,
    [raw_file.stat()] of [is_cache_valid] raises outside any [try]: [None]. *)
Definition load_ruta (e : env) (processing_func : option (table -> option table))
    (cache_dir : string) (d : disco) (p : ruta) : option (option table * disco * list event) :=
  let cp := get_cache_path p cache_dir in
  match excel d p with
  | None =>
      match parquet d cp with
      | Some _ => None
      | None => Some (None, d, [ReadSource; Error])
      end
  | Some (mt, dat) =>
      let '(r, s', ev) := load_excel_with_cache e processing_func (mkFs mt dat (parquet d cp)) in
      Some (r, mkDisco (excel d) (fun q => if ruta_eqb q cp then cache s' else parquet d q), ev)
  end.

End DiscoModel.

Arguments mkDisco {table}.
Arguments excel {table}.
Arguments parquet {table}.
Arguments load_ruta {table}.

End Disco.

(* ------------------------------------------------------------------ *)
(** ** Presentation helpers of 2_Cartera.py: the order of the company
       cards, the zone risk score, [format_currency] and [hex_to_rgb] *)

Module Presentacion.
Import Py Cartera Confianza.

Definition orden_preferido : list string :=
  ["Soluciones Integrales"; "Finaliados"; "Grupo Estrategico"; "AGM"; "Motofacil";
   "Motored"; "Cartera Castigada"; "Otras"; "Sin Clasificar"].

(** [empresas_ordenadas]: [df_filtered['Empresa'].unique()] (first
    occurrences, in order), the preferred companies present in the
    preferred order, then the others sorted, empty names dropped. *)
Definition empresas_ordenadas (df_filtered : frame) : list string :=
  let empresas := unique_strings (empresas_de df_filtered) in
  let empresas_presentes := filter (fun e => existsb (String.eqb e) empresas) orden_preferido in
  let otras_empresas :=
    sort_strings (filter (fun e => negb (existsb (String.eqb e) orden_preferido)) empresas) in
  filter (fun e => negb (String.eqb e "")) (empresas_presentes ++ otras_empresas).

(** [score_riesgo = indice_b * 1 + indice_c * 2 + indice_d * 3 + indice_e * 5]
    of a zone. *)
Definition score_riesgo (zr : zona_row) : Q :=
  match z_indices zr with
  | [_; indice_b; indice_c; indice_d; indice_e] =>
      (indice_b * 1 + indice_c * 2 + indice_d * 3 + indice_e * 5)%Q
  | _ => 0%Q
  end.

(** [score_riesgo_normalizado = score_riesgo * factor_confianza], with
    [factor_confianza = calcular_factor_confianza(len(df_zona))]. *)
Definition score_riesgo_normalizado (df_sin_castigada : frame) (zr : zona_row) : R :=
  (Q2R (score_riesgo zr) *
   calcular_factor_confianza (Z.of_nat (List.length (rows (filtro_zona df_sin_castigada (z_zona zr))))))%R.

(** Rounding to an integer, ties to even, as the [f] presentation type does
    with the exact value of a float. *)
Definition round_half_even (q : Q) : Z :=
  let f := Qfloor q in
  match Qcompare (q - inject_Z f) (1 # 2) with
  | Lt => f
  | Gt => (f + 1)%Z
  | Eq => if Z.even f then f else (f + 1)%Z
  end.

(** The [,] option: a comma between groups of three digits, from the
    right; the argument is the reversed digit list. *)
Fixpoint agrupar_miles (l : list ascii) : list ascii :=
  match l with
  | a :: b :: c :: ((_ :: _) as r) => a :: b :: c :: ","%char :: agrupar_miles r
  | _ => l
  end.

Definition con_miles (digits : string) : string :=
  string_of_list_ascii (rev (agrupar_miles (rev (list_ascii_of_string digits)))).

(** [format_currency(value)] of a finite float [value]: [f"${value:,.0f}"];
    the sign is the value's, so a negative value that rounds to 0 prints
    as [-0]. *)
Definition format_currency (value : Q) : string :=
  "$" ++ (if Qle_bool 0 value then "" else "-") ++
  con_miles (string_of_Z (Z.abs (round_half_even value))).

Definition hex_val (a : ascii) : option Z :=
  let n := nat_of_ascii a in
  if Nat.leb 48 n && Nat.leb n 57 then Some (Z.of_nat (n - 48))
  else if Nat.leb 97 n && Nat.leb n 102 then Some (Z.of_nat (n - 87))
  else if Nat.leb 65 n && Nat.leb n 70 then Some (Z.of_nat (n - 55))
  else None.

(** Hexadecimal digits with single underscores between them. *)
Fixpoint py_hexdigits (prev_digit : bool) (acc : Z) (s : string) : option Z :=
  match s with
  | EmptyString => if prev_digit then Some acc else None
  | String a r =>
      match hex_val a with
      | Some v => py_hexdigits true (acc * 16 + v)%Z r
      | None =>
          if Ascii.eqb a "_" then
            match r with
            | String b _ => if prev_digit && match hex_val b with Some _ => true | None => false end then py_hexdigits false acc r
                            else None
            | EmptyString => None
            end
          else None
      end
  end.

(** The digits after an optional [0x] / [0X] prefix, which may be
    followed by one underscore. *)
Definition py_hex_body (s : string) : option Z :=
  match s with
  | String "0" (String x r) =>
      if Ascii.eqb x "x" || Ascii.eqb x "X" then
        match r with
        | String "_" r' => py_hexdigits false 0 r'
        | _ => py_hexdigits false 0 r
        end
      else py_hexdigits false 0 s
  | _ => py_hexdigits false 0 s
  end.

(** [int(s, 16)]; [None] when Python raises [ValueError]. *)
Definition py_int16 (s : string) : option Z :=
  match strip s with
  | String "+" r => py_hex_body r
  | String "-" r => option_map Z.opp (py_hex_body r)
  | t => py_hex_body t
  end.

(** [str.lstrip(c)] *)
Fixpoint lstrip_char (c : ascii) (s : string) : string :=
  match s with
  | String a r => if Ascii.eqb a c then lstrip_char c r else s
  | EmptyString => EmptyString
  end.

(** [f"{n:02x}"] for [0 <= n <= 255]: two lower-case hexadecimal digits,
    the writing of the channels in the colour constants of the page. *)
Definition hex_digit (d : Z) : ascii :=
  if (d <? 10)%Z then ascii_of_nat (48 + Z.to_nat d) else ascii_of_nat (87 + Z.to_nat d).

Definition hex2 (n : Z) : string :=
  String (hex_digit (n / 16)) (String (hex_digit (n mod 16)) EmptyString).

(** [hex_to_rgb(hex_color)]; [None] when one [int(.., 16)] raises. *)
Definition hex_to_rgb (hex_color : string) : option (Z * Z * Z) :=
  let h := lstrip_char "#" hex_color in
  match py_int16 (substring 0 2 h), py_int16 (substring 2 2 h), py_int16 (substring 4 2 h) with
  | Some r, Some g, Some b => Some (r, g, b)
  | _, _, _ => None
  end.

End Presentacion.

(* ================================================================== *)
(** * Theorems *)

Module CacheFacts.
Import Cache.

Section Facts.
Context {table : Type}.
Implicit Types (s : fs table) (pf : option (table -> option table)).

Lemma is_cache_valid_spec s :
  is_cache_valid s = true <->
  exists c, cache s = Some c /\ (src_mtime s <= c_mtime c)%Z.
Proof.
  unfold is_cache_valid; destruct (cache s) as [c|]; split.
  - intros H; exists c; split; [reflexivity | now apply Z.leb_le].
  - intros [c' [Hc Hle]]; inversion Hc; subst; now apply Z.leb_le.
  - discriminate.
  - intros [c' [Hc _]]; discriminate.
Qed.

Lemma load_invalid e pf s :
  is_cache_valid s = false ->
  load_excel_with_cache e pf s = load_from_excel e pf s.
Proof. intros H; unfold load_excel_with_cache; now rewrite H. Qed.

Lemma load_from_excel_reads_source e pf s :
  In ReadSource (snd (load_from_excel e pf s)).
Proof.
  unfold load_from_excel.
  destruct (src_data s); [|simpl; auto].
  destruct (apply_processing pf t); [|simpl; auto].
  destruct (write_ok e); simpl; auto.
Qed.

Lemma load_from_excel_no_cache_read e pf s :
  ~ In ReadCache (snd (load_from_excel e pf s)).
Proof.
  unfold load_from_excel.
  destruct (src_data s); [|simpl; intuition discriminate].
  destruct (apply_processing pf t); [|simpl; intuition discriminate].
  destruct (write_ok e); simpl; intuition discriminate.
Qed.

Lemma load_from_excel_ok e pf s raw df :
  src_data s = Some raw -> apply_processing pf raw = Some df ->
  load_from_excel e pf s =
    if write_ok e
    then (Some df, mkFs (src_mtime s) (src_data s) (Some (mkCacheFile (now e) (Some df))),
          [ReadSource; WriteCache])
    else (Some df, s, [ReadSource; Warning]).
Proof. intros Hs Hp; unfold load_from_excel; now rewrite Hs, Hp. Qed.

Lemma load_from_excel_fail e pf s :
  src_data s = None -> load_from_excel e pf s = (None, s, [ReadSource; Error]).
Proof. intros Hs; unfold load_from_excel; now rewrite Hs. Qed.

(** Every run of the loader either answers from the cache without touching
    the source, or ends with the Excel branch, prefixed by the failed cache
    attempt when there was one. *)
Lemma load_cases e pf s :
  (exists c cached df, is_cache_valid s = true /\ cache s = Some c /\
     c_data c = Some cached /\ apply_processing pf cached = Some df /\
     load_excel_with_cache e pf s = (Some df, s, [ReadCache])) \/
  (is_cache_valid s = false /\ load_excel_with_cache e pf s = load_from_excel e pf s) \/
  (is_cache_valid s = true /\
     (exists c, cache s = Some c /\
        (c_data c = None \/
         exists cached, c_data c = Some cached /\ apply_processing pf cached = None)) /\
     load_excel_with_cache e pf s =
       (fst (fst (load_from_excel e pf s)), snd (fst (load_from_excel e pf s)),
        ReadCache :: Warning :: snd (load_from_excel e pf s))).
Proof.
  unfold load_excel_with_cache.
  destruct (is_cache_valid s) eqn:Hv.
  - destruct (cache s) as [c|] eqn:Hc.
    + destruct (c_data c) as [cached|] eqn:Hd.
      * destruct (apply_processing pf cached) as [df|] eqn:Hp.
        -- left; exists c, cached, df; auto.
        -- right; right; split; [reflexivity|]; split.
           ++ exists c; split; [reflexivity|]; right; exists cached; auto.
           ++ destruct (load_from_excel e pf s) as [[r s'] ev]; reflexivity.
      * right; right; split; [reflexivity|]; split.
        -- exists c; auto.
        -- destruct (load_from_excel e pf s) as [[r s'] ev]; reflexivity.
    + exfalso; unfold is_cache_valid in Hv; rewrite Hc in Hv; discriminate.
  - right; left; auto.
Qed.

End Facts.
End CacheFacts.

Module CacheClaims.
Import Cache CacheFacts.

(** A valid cache (existing, not older than the source) whose Parquet file
    is corrupt: the loader reads the cache, warns, and parses the source. *)
Definition corrupt_fresh_cache : fs nat :=
  mkFs 1%Z (Some 7) (Some (mkCacheFile 5%Z None)).

(** C2 (counterexample): the claim says a valid cache is never followed by
    a re-parse of the source; a valid but unreadable cache is. *)
Lemma C2_valid_cache_still_reparsed :
  is_cache_valid corrupt_fresh_cache = true /\
  In ReadSource (snd (load_excel_with_cache (mkEnv true 9%Z) None corrupt_fresh_cache)).
Proof. split; [reflexivity | simpl; auto]. Qed.

(** C2 (amended): the cache branch is tried exactly when the cache file
    exists with an mtime at least the source's; when the Parquet file reads
    and processes without an exception, its processed content is returned,
    nothing is written and the source is not parsed; on a missing or stale
    cache the source is parsed, processed and, when the write succeeds,
    persisted to the cache path; a valid cache that cannot be read, or
    whose processing raises, is followed by a warning and the whole
    source branch, exactly as on a missing cache. *)
Theorem C2_cache_freshness :
  forall (table : Type) (e : env) (pf : option (table -> option table)) (s : fs table),
  (is_cache_valid s = true <->
     exists c, cache s = Some c /\ (src_mtime s <= c_mtime c)%Z) /\
  (In ReadCache (snd (load_excel_with_cache e pf s)) <-> is_cache_valid s = true) /\
  (forall c cached df,
     is_cache_valid s = true -> cache s = Some c -> c_data c = Some cached ->
     apply_processing pf cached = Some df ->
     load_excel_with_cache e pf s = (Some df, s, [ReadCache])) /\
  (forall c,
     is_cache_valid s = true -> cache s = Some c ->
     (c_data c = None \/ exists cached, c_data c = Some cached /\ apply_processing pf cached = None) ->
     load_excel_with_cache e pf s =
       (fst (fst (load_from_excel e pf s)), snd (fst (load_from_excel e pf s)),
        ReadCache :: Warning :: snd (load_from_excel e pf s))) /\
  (is_cache_valid s = false ->
     In ReadSource (snd (load_excel_with_cache e pf s)) /\
     forall raw df, src_data s = Some raw -> apply_processing pf raw = Some df ->
       write_ok e = true ->
       load_excel_with_cache e pf s =
         (Some df, mkFs (src_mtime s) (src_data s) (Some (mkCacheFile (now e) (Some df))),
          [ReadSource; WriteCache])).
Proof.
  intros table e pf s.
  split; [apply is_cache_valid_spec|].
  split; [|split; [|split]].
  - destruct (load_cases e pf s)
      as [[c [cached [df [Hv [_ [_ [_ ->]]]]]]] | [[Hv ->] | [Hv [_ ->]]]].
    + split; [intros _; exact Hv | intros _; simpl; auto].
    + split; [intros H; exfalso; exact (load_from_excel_no_cache_read e pf s H)
             | rewrite Hv; discriminate].
    + split; [intros _; exact Hv | intros _; simpl; auto].
  - intros c cached df Hv Hc Hd Hp.
    unfold load_excel_with_cache; now rewrite Hv, Hc, Hd, Hp.
  - intros c Hv Hc Hf.
    unfold load_excel_with_cache; rewrite Hv, Hc.
    destruct (load_from_excel e pf s) as [[r s'] ev].
    destruct Hf as [-> | [cached [-> Hp]]]; [reflexivity|].
    now rewrite Hp.
  - intros Hv; rewrite (load_invalid e pf s Hv); split.
    + apply load_from_excel_reads_source.
    + intros raw df Hs Hp Hw; rewrite (load_from_excel_ok e pf s raw df Hs Hp), Hw.
      reflexivity.
Qed.

(** C7: failure semantics of the loader.  A valid but unreadable cache is
    reported with a warning and the source is parsed instead; when the write
    of the fresh cache fails the parsed table is still returned; when the
    source itself cannot be parsed the call reports an error, returns
    [None] and leaves the file system, cache included, as it was. *)
Theorem C7_failure_semantics :
  forall (table : Type) (e : env) (pf : option (table -> option table)) (s : fs table),
  (forall c raw df,
     is_cache_valid s = true -> cache s = Some c -> c_data c = None ->
     src_data s = Some raw -> apply_processing pf raw = Some df ->
     fst (fst (load_excel_with_cache e pf s)) = Some df /\
     In Warning (snd (load_excel_with_cache e pf s)) /\
     In ReadSource (snd (load_excel_with_cache e pf s)) /\
     ~ In Error (snd (load_excel_with_cache e pf s))) /\
  (forall raw df,
     src_data s = Some raw -> apply_processing pf raw = Some df -> write_ok e = false ->
     In ReadSource (snd (load_excel_with_cache e pf s)) ->
     fst (fst (load_excel_with_cache e pf s)) = Some df /\
     In Warning (snd (load_excel_with_cache e pf s))) /\
  (src_data s = None ->
     In ReadSource (snd (load_excel_with_cache e pf s)) ->
     fst (fst (load_excel_with_cache e pf s)) = None /\
     In Error (snd (load_excel_with_cache e pf s)) /\
     snd (fst (load_excel_with_cache e pf s)) = s).
Proof.
  intros table e pf s; split; [|split].
  - intros c raw df Hv Hc Hd Hs Hp.
    unfold load_excel_with_cache; rewrite Hv, Hc, Hd.
    rewrite (load_from_excel_ok e pf s raw df Hs Hp).
    destruct (write_ok e); simpl; intuition discriminate.
  - intros raw df Hs Hp Hw Hin.
    pose proof (load_from_excel_ok e pf s raw df Hs Hp) as Hx; rewrite Hw in Hx.
    destruct (load_cases e pf s)
      as [[c [cached [df' [_ [_ [_ [_ Hl]]]]]]] | [[_ Hl] | [_ [_ Hl]]]];
      rewrite Hl in *; [simpl in Hin; intuition discriminate | |];
      rewrite Hx; simpl; intuition.
  - intros Hs Hin.
    pose proof (load_from_excel_fail e pf s Hs) as Hx.
    destruct (load_cases e pf s)
      as [[c [cached [df' [_ [_ [_ [_ Hl]]]]]]] | [[_ Hl] | [_ [_ Hl]]]];
      rewrite Hl in *; [simpl in Hin; intuition discriminate | |];
      rewrite Hx; simpl; intuition.
Qed.

(** C10: a miss persists [f (parse source)]; the next call on the unchanged
    source hits that cache and applies [f] once more, so it returns
    [f (f (parse source))], and the two calls agree exactly when [f] maps
    its own output to itself. *)
Theorem C10_miss_then_hit_reapplies (table : Type) (e1 e2 : env)
    (f : table -> option table) (s0 : fs table) (p r r' : table)
    (Hmiss : is_cache_valid s0 = false) (Hsrc : src_data s0 = Some p)
    (Hf1 : f p = Some r) (Hw : write_ok e1 = true)
    (Hclock : (src_mtime s0 <= now e1)%Z) (Hf2 : f r = Some r') :
  let s1 := snd (fst (load_excel_with_cache e1 (Some f) s0)) in
  fst (fst (load_excel_with_cache e1 (Some f) s0)) = Some r /\
  cache s1 = Some (mkCacheFile (now e1) (Some r)) /\
  load_excel_with_cache e2 (Some f) s1 = (Some r', s1, [ReadCache]) /\
  (fst (fst (load_excel_with_cache e1 (Some f) s0)) =
     fst (fst (load_excel_with_cache e2 (Some f) s1)) <-> r' = r).
Proof.
  cbv zeta.
  rewrite (load_invalid e1 (Some f) s0 Hmiss).
  rewrite (load_from_excel_ok e1 (Some f) s0 p r Hsrc Hf1), Hw; simpl.
  assert (Hv : is_cache_valid (mkFs (src_mtime s0) (src_data s0)
                 (Some (mkCacheFile (now e1) (Some r)))) = true)
    by (unfold is_cache_valid; simpl; now apply Z.leb_le).
  assert (Hl : load_excel_with_cache e2 (Some f)
                 (mkFs (src_mtime s0) (src_data s0) (Some (mkCacheFile (now e1) (Some r))))
               = (Some r', mkFs (src_mtime s0) (src_data s0)
                             (Some (mkCacheFile (now e1) (Some r))), [ReadCache]))
    by (unfold load_excel_with_cache; rewrite Hv; simpl; now rewrite Hf2).
  rewrite Hl; simpl.
  split; [reflexivity|]; split; [reflexivity|]; split; [reflexivity|].
  split; [intros H; inversion H; reflexivity | intros ->; reflexivity].
Qed.

Lemma C10_miss_then_hit_reapplies_witness :
  let s0 := mkFs 1%Z (Some 5) None in
  let f := fun n : nat => Some (S n) in
  is_cache_valid s0 = false /\
  fst (fst (load_excel_with_cache (mkEnv true 2%Z) (Some f) s0)) = Some 6 /\
  load_excel_with_cache (mkEnv true 3%Z) (Some f)
     (snd (fst (load_excel_with_cache (mkEnv true 2%Z) (Some f) s0)))
   = (Some 7, snd (fst (load_excel_with_cache (mkEnv true 2%Z) (Some f) s0)), [ReadCache]).
Proof.
  intros s0 f.
  destruct (C10_miss_then_hit_reapplies nat (mkEnv true 2%Z) (mkEnv true 3%Z) f s0 5 6 7
              eq_refl eq_refl eq_refl eq_refl ltac:(simpl; lia) eq_refl)
    as [H1 [_ [H3 _]]].
  split; [reflexivity|]; split; [exact H1 | exact H3].
Defined.

End CacheClaims.

Module ClasificacionFacts.
Import Py Clasificacion.

Ltac split_ifs :=
  repeat match goal with
         | |- context [if ?b then _ else _] => destruct b
         | |- context [match ?o with Some _ => _ | None => _ end] => destruct o
         end.

Lemma clasificar_str_in cs : In (clasificar_str cs) categorias.
Proof. unfold clasificar_str, categorias; split_ifs; simpl; tauto. Qed.

Lemma clasificar_str_unparsed cs :
  py_int cs = None -> clasificar_str cs = "Otras".
Proof.
  intros H; unfold clasificar_str.
  destruct (existsb (String.eqb cs) soluciones_integrales_codes) eqn:Hs.
  { apply existsb_exists in Hs as [x [Hx Heq]].
    apply String.eqb_eq in Heq; subst x.
    simpl in Hx; repeat destruct Hx as [Hx|Hx]; subst; try discriminate; contradiction. }
  repeat match goal with
         | |- (if String.eqb cs ?k then _ else _) = _ =>
             destruct (String.eqb_spec cs k); [subst; discriminate|]
         end.
  now rewrite H.
Qed.

(** C5 (counterexample): a non-null text that is not an integer is not
    "Sin Clasificar" but "Otras". *)
Lemma C5_unparseable_is_otras :
  clasificar_empresa (CStr "abc") = "Otras" /\
  clasificar_empresa (CStr "abc") <> "Sin Clasificar".
Proof. split; [reflexivity | discriminate]. Qed.

(** C5 (amended): [clasificar_empresa] is a total function into the nine
    categories; "130505013" is "Motofacil"; every code of
    139905000..139905005, as text or as an int, is "Cartera Castigada"; a
    null is "Sin Clasificar"; a non-null input whose cleaned text
    ([str(int(x))] for a float, [str(x).strip()] otherwise, without '.',
    ' ' and ',') is not a Python integer literal, an infinite float, and
    "999999999" are "Otras". *)
Theorem C5_clasificar_amended :
  (forall c, In (clasificar_empresa c) categorias) /\
  clasificar_empresa (CStr "130505013") = "Motofacil" /\
  (forall n, (139905000 <= n <= 139905005)%Z ->
     clasificar_empresa (CStr (string_of_Z n)) = "Cartera Castigada" /\
     clasificar_empresa (CInt n) = "Cartera Castigada") /\
  clasificar_empresa CNull = "Sin Clasificar" /\
  (forall c, isna c = false ->
     py_int (match c with
             | CFloat q => limpiar (string_of_Z (float_trunc q))
             | _ => limpiar (strip (cell_str c))
             end) = None ->
     clasificar_empresa c = "Otras") /\
  clasificar_empresa CFloatInf = "Otras" /\
  clasificar_empresa (CStr "999999999") = "Otras".
Proof.
  split; [|split; [reflexivity|split; [|split; [reflexivity|split]]]].
  - intros c; unfold clasificar_empresa.
    destruct (isna c); [simpl; tauto|].
    destruct c; try apply clasificar_str_in; simpl; tauto.
  - intros n Hn.
    assert (n = 139905000 \/ n = 139905001 \/ n = 139905002 \/ n = 139905003 \/
            n = 139905004 \/ n = 139905005)%Z as Hc by lia.
    repeat destruct Hc as [Hc|Hc]; subst; split; vm_compute; reflexivity.
  - intros c Hna H; unfold clasificar_empresa; rewrite Hna.
    destruct c; try (apply clasificar_str_unparsed; exact H); reflexivity.
  - split; reflexivity.
Qed.

End ClasificacionFacts.

Module CarteraFacts.
Import Py Cartera PrimFloat.

Lemma Qpos_b_true q : Qpos_b q = true -> (0 < q)%Q.
Proof.
  unfold Qpos_b; intros H; apply negb_true_iff in H.
  apply Qnot_le_lt; intros Hle; apply Qle_bool_iff in Hle; congruence.
Qed.

Lemma Qpos_b_false q : Qpos_b q = false -> (q <= 0)%Q.
Proof.
  unfold Qpos_b; intros H; apply negb_false_iff in H; now apply Qle_bool_iff.
Qed.

Lemma Qpos_b_lt q : (0 < q)%Q -> Qpos_b q = true.
Proof.
  intros H; destruct (Qpos_b q) eqn:E; [reflexivity|].
  apply Qpos_b_false in E; exfalso; apply (Qlt_not_le _ _ H E).
Qed.

Lemma Qpos_b_le q : (q <= 0)%Q -> Qpos_b q = false.
Proof.
  intros H; destruct (Qpos_b q) eqn:E; [|reflexivity].
  apply Qpos_b_true in E; exfalso; apply (Qlt_not_le _ _ E H).
Qed.

(** C1 (counterexample): one record whose Total Cuota (100) is not the sum
    of its buckets (50): the five company percentages add up to 50, and so
    do the zone ones.  Every value involved is exact in binary floating
    point: computed in binary64 the indices are 50, 0, 0, 0 and 0, whose
    sum is 50, so the program shows these same numbers. *)
Definition todas_columnas : list string :=
  ["Empresa"; "Zona"; "Total Cuota"; "Por Vencer"; "Dias30"; "Dias60"; "Dias90"; "Dias Mas90"].

Definition cartera_inconsistente : frame :=
  mkFrame todas_columnas [mkRow (CStr "130505013") "Motofacil" (Some "Norte") 100 50 0 0 0 0]%Q.

Lemma C1_percentages_need_not_sum_100 :
  Qpos_b (m_total (metricas_empresa cartera_inconsistente "Motofacil")) = true /\
  (sum_Q (m_indices (metricas_empresa cartera_inconsistente "Motofacil")) == 50)%Q /\
  ~ (sum_Q (m_indices (metricas_empresa cartera_inconsistente "Motofacil")) == 100)%Q /\
  match zonas_data cartera_inconsistente with
  | [zr] => (sum_Q (z_indices zr) == 50)%Q
  | _ => False
  end /\
  CarteraFloat.indices_float 100 50 0 0 0 0 = [50; 0; 0; 0; 0]%float /\
  (50 + 0 + 0 + 0 + 0 = 50)%float.
Proof.
  split; [reflexivity|]; split; [reflexivity|]; split.
  - vm_compute; discriminate.
  - split; [vm_compute; reflexivity|split; vm_compute; reflexivity].
Qed.

(** C1 (amended): for a company group or a zone, the total is the summed
    Total Cuota field and each bucket is its own summed column; when that
    total is positive each of the five percentages is its bucket's sum
    divided by the total and multiplied by 100 (the denominator is the
    Total Cuota field, not the sum of the buckets); otherwise the five
    percentages are all 0. *)
Theorem C1_indices_over_total_cuota :
  (forall df,
     let m := obtener_metricas df in
     m_total m = sum_col df "Total Cuota" total_cuota /\
     m_por_vencer m = sum_col df "Por Vencer" por_vencer /\
     m_dias30 m = sum_col df "Dias30" dias30 /\
     m_dias60 m = sum_col df "Dias60" dias60 /\
     m_dias90 m = sum_col df "Dias90" dias90 /\
     m_dias_mas90 m = sum_col df "Dias Mas90" dias_mas90 /\
     (Qpos_b (m_total m) = true ->
        m_indices m =
        [m_por_vencer m / m_total m * 100; m_dias30 m / m_total m * 100;
         m_dias60 m / m_total m * 100; m_dias90 m / m_total m * 100;
         m_dias_mas90 m / m_total m * 100]%Q) /\
     (Qpos_b (m_total m) = false -> m_indices m = [0; 0; 0; 0; 0]%Q)) /\
  (forall df z zr,
     let dz := filtro_zona df z in
     zona_metricas df z = Some zr ->
     z_total zr = sum_col dz "Total Cuota" total_cuota /\
     (Qpos_b (z_total zr) = true ->
        z_indices zr =
        [sum_col dz "Por Vencer" por_vencer / z_total zr * 100;
         sum_col dz "Dias30" dias30 / z_total zr * 100;
         sum_col dz "Dias60" dias60 / z_total zr * 100;
         sum_col dz "Dias90" dias90 / z_total zr * 100;
         sum_col dz "Dias Mas90" dias_mas90 / z_total zr * 100]%Q) /\
     (Qpos_b (z_total zr) = false -> z_indices zr = [0; 0; 0; 0; 0]%Q)).
Proof.
  split.
  - intros df m; subst m; unfold obtener_metricas;
    cbn [m_total m_indices m_por_vencer m_dias30 m_dias60 m_dias90 m_dias_mas90].
    do 6 (split; [reflexivity|]).
    destruct (Qpos_b (sum_col df "Total Cuota" total_cuota)); split;
      solve [reflexivity | discriminate].
  - intros df z zr dz Hz; subst dz; unfold zona_metricas in Hz.
    destruct (is_empty (filtro_zona df z)); [discriminate|].
    destruct (Qpos_b (sum_col (filtro_zona df z) "Total Cuota" total_cuota)) eqn:Hp;
      injection Hz as <-; cbn [z_total z_indices]; rewrite Hp;
      (split; [reflexivity|]); split; solve [reflexivity | discriminate].
Qed.

End CarteraFacts.

Module CompareFacts.
Import Py Cartera CarteraFacts.

Lemma In_insert_sorted x y l : In y (insert_sorted x l) <-> x = y \/ In y l.
Proof.
  induction l as [|z l IH]; simpl; [tauto|].
  destruct (String.leb x z); simpl; [tauto|].
  rewrite IH; tauto.
Qed.

Lemma In_sort_strings y l : In y (sort_strings l) <-> In y l.
Proof.
  induction l as [|x l IH]; simpl; [tauto|].
  rewrite In_insert_sorted, IH; intuition.
Qed.

Lemma In_unique_strings y l : In y (unique_strings l) <-> In y l.
Proof.
  induction l as [|x l IH]; simpl; [tauto|].
  rewrite filter_In, <- IH.
  destruct (String.eqb_spec x y); subst; simpl; intuition.
Qed.

Lemma buscar_map (g : string -> comparacion) e es c :
  (forall x, c_empresa (g x) = x) ->
  buscar e (map g es) = Some c -> c = g e /\ In e es.
Proof.
  intros Hg; induction es as [|x es IH]; simpl; [discriminate|].
  rewrite Hg; destruct (String.eqb_spec x e) as [->|Hne].
  - intros H; injection H as <-; auto.
  - intros H; destruct (IH H); auto.
Qed.

Lemma buscar_map_in (g : string -> comparacion) e es :
  (forall x, c_empresa (g x) = x) -> In e es -> buscar e (map g es) = Some (g e).
Proof.
  intros Hg; induction es as [|x es IH]; simpl; [tauto|].
  rewrite Hg; destruct (String.eqb_spec x e) as [->|Hne]; [reflexivity|].
  intros [->|H]; [contradiction|auto].
Qed.

Lemma compare_some d1 d2 f l :
  compare_cartera_periods (Some d1) (Some d2) f = Some l ->
  l = map (comparar_empresa (add_empresa f d1) (add_empresa f d2))
          (sort_strings (unique_strings (empresas_de (add_empresa f d1) ++
                                         empresas_de (add_empresa f d2)))).
Proof.
  unfold compare_cartera_periods.
  destruct (is_empty d1 || is_empty d2); [discriminate|].
  intros H; now injection H as <-.
Qed.

Lemma compare_grupo d1 d2 f l e c :
  compare_cartera_periods (Some d1) (Some d2) f = Some l ->
  buscar e l = Some c ->
  c = comparar_empresa (add_empresa f d1) (add_empresa f d2) e /\
  In e (empresas_de (add_empresa f d1) ++ empresas_de (add_empresa f d2)).
Proof.
  intros Hl Hc; rewrite (compare_some _ _ _ _ Hl) in Hc.
  apply buscar_map in Hc as [-> Hin]; [|reflexivity].
  split; [reflexivity|].
  now apply In_unique_strings, In_sort_strings.
Qed.

Lemma compare_in d1 d2 f l c :
  compare_cartera_periods (Some d1) (Some d2) f = Some l -> In c l ->
  exists e, c = comparar_empresa (add_empresa f d1) (add_empresa f d2) e.
Proof.
  intros Hl Hc; rewrite (compare_some _ _ _ _ Hl) in Hc.
  apply in_map_iff in Hc as [e [<- _]]; eauto.
Qed.

Lemma grupo_ausente df e :
  ~ In e (empresas_de df) -> is_empty (grupo df e) = true.
Proof.
  unfold empresas_de, grupo; destruct (has_col df "Empresa"); [|reflexivity].
  intros Hn; unfold is_empty; simpl.
  destruct (filter (fun r => String.eqb (empresa r) e) (rows df)) as [|r rs] eqn:Hf;
    [reflexivity|].
  exfalso; apply Hn.
  assert (Hr : In r (filter (fun r => String.eqb (empresa r) e) (rows df)))
    by (rewrite Hf; left; reflexivity).
  apply filter_In in Hr as [Hr He]; apply String.eqb_eq in He.
  apply in_map_iff; eauto.
Qed.

Lemma sum_col_ne_empty df name sel : is_empty df = true -> sum_col_ne df name sel = 0%Q.
Proof.
  unfold sum_col_ne; intros ->; now rewrite andb_false_r.
Qed.

(** C4 (counterexample): a group with base total 0 and a negative
    comparison total gets percentage delta 0, not 100. *)
Definition periodo_a : frame :=
  mkFrame todas_columnas [mkRow CNull "Z" None 10 0 0 0 0 0]%Q.

Definition periodo_b_negativo : frame :=
  mkFrame todas_columnas [mkRow CNull "Y" None (-500) 0 0 0 0 0]%Q.

Lemma C4_negative_comparison_total :
  match compare_cartera_periods (Some periodo_a) (Some periodo_b_negativo) None with
  | Some l =>
      match buscar "Y" l with
      | Some c => (c_total1 c == 0)%Q /\ ~ (c_total2 c == 0)%Q /\
                  ~ (c_var_porcentaje c == 100)%Q /\ (c_var_porcentaje c == 0)%Q
      | None => False
      end
  | None => False
  end.
Proof. vm_compute; repeat split; discriminate. Qed.

(** C4 (amended): in every row of the comparison the absolute delta is
    [total2 - total1]; the percentage delta is [(total2 - total1) / total1 *
    100] when the base total is positive, 100 when the base total is not
    positive (in particular zero) and the comparison total is positive, and
    0 when neither is positive; a group absent from period A has base total
    0, so with a total of 500 in period B it gets delta 500 and 100%. *)
Theorem C4_var_porcentaje (d1 d2 : frame) (f : option (cell -> string))
    (l : list comparacion)
    (Hl : compare_cartera_periods (Some d1) (Some d2) f = Some l) :
  (forall c, In c l ->
     (c_var_total c == c_total2 c - c_total1 c)%Q /\
     ((0 < c_total1 c)%Q ->
        (c_var_porcentaje c == (c_total2 c - c_total1 c) / c_total1 c * 100)%Q) /\
     ((c_total1 c <= 0)%Q -> (0 < c_total2 c)%Q -> (c_var_porcentaje c == 100)%Q) /\
     ((c_total1 c <= 0)%Q -> (c_total2 c <= 0)%Q -> (c_var_porcentaje c == 0)%Q)) /\
  (forall e c, buscar e l = Some c ->
     ~ In e (empresas_de (add_empresa f d1)) -> (c_total2 c == 500)%Q ->
     (c_total1 c == 0)%Q /\ (c_var_total c == 500)%Q /\ (c_var_porcentaje c == 100)%Q).
Proof.
  split.
  - intros c Hc; destruct (compare_in _ _ _ _ _ Hl Hc) as [e ->].
    unfold comparar_empresa; cbn [c_var_total c_total1 c_total2 c_var_porcentaje].
    split; [reflexivity|]; split; [|split].
    + intros Hp; now rewrite (Qpos_b_lt _ Hp).
    + intros H1 H2; now rewrite (Qpos_b_le _ H1), (Qpos_b_lt _ H2).
    + intros H1 H2; now rewrite (Qpos_b_le _ H1), (Qpos_b_le _ H2).
  - intros e c He Hn H500.
    destruct (compare_grupo _ _ _ _ _ _ Hl He) as [-> _].
    revert H500; unfold comparar_empresa; cbn [c_var_total c_total1 c_total2 c_var_porcentaje].
    rewrite (sum_col_ne_empty _ _ _ (grupo_ausente _ _ Hn)).
    intros H500; split; [reflexivity|]; split.
    + rewrite H500; ring.
    + assert (Hp : (0 < sum_col_ne (grupo (add_empresa f d2) e) "Total Cuota" total_cuota)%Q)
        by (rewrite H500; reflexivity).
      rewrite (Qpos_b_lt _ Hp); reflexivity.
Qed.

Definition periodo_b : frame :=
  mkFrame todas_columnas [mkRow CNull "Y" None 500 500 0 0 0 0]%Q.

Lemma C4_var_porcentaje_witness :
  compare_cartera_periods (Some periodo_a) (Some periodo_b) None =
    Some (map (comparar_empresa periodo_a periodo_b) ["Y"; "Z"]) /\
  (c_var_porcentaje (comparar_empresa periodo_a periodo_b "Y") == 100)%Q.
Proof.
  split; [reflexivity|].
  destruct (C4_var_porcentaje periodo_a periodo_b None _ eq_refl) as [_ H].
  refine (proj2 (proj2 (H "Y" _ eq_refl _ _))).
  - simpl; intros [E|[]]; discriminate.
  - reflexivity.
Defined.

(** C8: the two comparisons cover the same groups, and for each of them the
    absolute total delta of [compare(B, A)] is the additive inverse of the
    one of [compare(A, B)]: the base and comparison totals are swapped. *)
Theorem C8_comparator_antisymmetric (dA dB : frame) (f : option (cell -> string))
    (lAB lBA : list comparacion)
    (HAB : compare_cartera_periods (Some dA) (Some dB) f = Some lAB)
    (HBA : compare_cartera_periods (Some dB) (Some dA) f = Some lBA) :
  forall e c1, buscar e lAB = Some c1 ->
  exists c2, buscar e lBA = Some c2 /\
    c_total1 c2 = c_total2 c1 /\ c_total2 c2 = c_total1 c1 /\
    (c_var_total c2 == - c_var_total c1)%Q.
Proof.
  intros e c1 H1.
  destruct (compare_grupo _ _ _ _ _ _ HAB H1) as [-> Hin].
  exists (comparar_empresa (add_empresa f dB) (add_empresa f dA) e).
  split.
  - rewrite (compare_some _ _ _ _ HBA).
    apply buscar_map_in; [reflexivity|].
    apply In_sort_strings, In_unique_strings.
    apply in_app_or in Hin; apply in_or_app; tauto.
  - unfold comparar_empresa; cbn [c_total1 c_total2 c_var_total].
    split; [reflexivity|]; split; [reflexivity|]; ring.
Qed.

Lemma C8_comparator_antisymmetric_witness :
  exists c2, buscar "Y" (map (comparar_empresa periodo_b periodo_a) ["Y"; "Z"]) = Some c2 /\
    (c_var_total c2 == - c_var_total (comparar_empresa periodo_a periodo_b "Y"))%Q.
Proof.
  destruct (C8_comparator_antisymmetric periodo_a periodo_b None _ _ eq_refl eq_refl
              "Y" (comparar_empresa periodo_a periodo_b "Y") eq_refl)
    as [c2 [Hc2 [_ [_ Hv]]]].
  exists c2; split; [exact Hc2 | exact Hv].
Defined.

End CompareFacts.

Module ConfianzaFacts.
Import Confianza.
Local Open Scope R_scope.

Lemma ln_pos x : 1 < x -> 0 < ln x.
Proof. intros H; rewrite <- ln_1; apply ln_increasing; lra. Qed.

Lemma ln_le_mono x y : 0 < x -> x <= y -> ln x <= ln y.
Proof.
  intros Hx [H|H]; [left; now apply ln_increasing | right; now subst].
Qed.

Lemma ratio_log10 x : log10 x / log10 100 = ln x / ln 100.
Proof.
  unfold log10.
  assert (0 < ln 10) by (apply ln_pos; lra).
  assert (0 < ln 100) by (apply ln_pos; lra).
  field; lra.
Qed.

(** C9: for [n <= 0] the factor is 0.3; for [n > 0] it is
    [min(1, 0.3 + 0.7 * log10(n+1) / log10(100))]; it always lies in
    [0.3, 1], and it is 1 from 100 records on. *)
Theorem C9_factor_confianza :
  forall n : Z,
  ((n <= 0)%Z -> calcular_factor_confianza n = 0.3) /\
  ((0 < n)%Z ->
     calcular_factor_confianza n =
     Rmin 1 (0.3 + 0.7 * log10 (IZR (n + 1)) / log10 100)) /\
  (0.3 <= calcular_factor_confianza n <= 1) /\
  ((100 <= n)%Z -> calcular_factor_confianza n = 1).
Proof.
  intros n; unfold calcular_factor_confianza.
  destruct (Z.leb_spec n 0) as [Hn|Hn].
  - split; [reflexivity|]; split; [lia|]; split; [lra|lia].
  - assert (Hn1 : 1 < IZR (n + 1)) by (apply IZR_lt; lia).
    assert (H100 : 0 < ln 100) by (apply ln_pos; lra).
    assert (Hr : 0 < ln (IZR (n + 1)) / ln 100)
      by (apply Rdiv_lt_0_compat; [apply ln_pos|]; lra).
    rewrite ratio_log10.
    split; [lia|]; split.
    + intros _; f_equal; unfold Rdiv.
      replace (0.7 * log10 (IZR (n + 1)) * / log10 100)
        with (log10 (IZR (n + 1)) / log10 100 * 0.7) by (unfold Rdiv; ring).
      rewrite ratio_log10; reflexivity.
    + split.
      * split; [apply Rmin_glb; lra | apply Rmin_l].
      * intros H; apply Rmin_left.
        assert (Hge : 1 <= ln (IZR (n + 1)) / ln 100).
        { apply (Rmult_le_reg_r (ln 100)); [lra|].
          unfold Rdiv; rewrite Rmult_assoc, Rinv_l, Rmult_1_r by lra.
          rewrite Rmult_1_l; apply ln_le_mono; [lra|].
          apply IZR_le; lia. }
        lra.
Qed.

End ConfianzaFacts.

Module TablaFacts.
Import Py Tabla.

Section Columna.
Variable col : string.

(** No record holds a null in [col]. *)
Definition sin_nulos (df : dframe) : Prop :=
  forall r, In r (drows df) -> r col <> CNull.

(** [col] is still to be coerced, or it already holds no null. *)
Definition pendiente_o_limpia (df : dframe) : Prop :=
  (has_dcol df col = true /\ is_numeric_dtype df col = false) \/ sin_nulos df.

Lemma has_dcol_set_column df name f :
  has_dcol df col = true -> has_dcol (set_column df name f) col = true.
Proof.
  unfold set_column, has_dcol; cbn [dcols]; intros H.
  destruct (existsb (String.eqb name) (dcols df)); [exact H|].
  rewrite existsb_app, H; reflexivity.
Qed.

Lemma set_column_other_values df name f :
  name <> col ->
  map (fun r => r col) (drows (set_column df name f)) = map (fun r => r col) (drows df).
Proof.
  intros Hne; unfold set_column; simpl; rewrite map_map.
  apply map_ext; intros r.
  destruct (String.eqb_spec col name); [congruence | reflexivity].
Qed.

Lemma is_numeric_dtype_values df1 df2 :
  map (fun r => r col) (drows df1) = map (fun r => r col) (drows df2) ->
  is_numeric_dtype df1 col = is_numeric_dtype df2 col.
Proof.
  unfold is_numeric_dtype; generalize (drows df2); generalize (drows df1).
  induction l as [|r l IH]; intros [|r' l'] H; simpl in H; try discriminate; [reflexivity|].
  injection H as Hr Hl; simpl; rewrite Hr, (IH l' Hl); reflexivity.
Qed.

Lemma sin_nulos_values df1 df2 :
  map (fun r => r col) (drows df1) = map (fun r => r col) (drows df2) ->
  sin_nulos df2 -> sin_nulos df1.
Proof.
  intros H H2 r Hr Hn.
  assert (Hin : In (r col) (map (fun r => r col) (drows df2)))
    by (rewrite <- H; exact (in_map (fun r0 => r0 col) _ _ Hr)).
  apply in_map_iff in Hin as [r' [Hr' Hin']].
  apply (H2 r' Hin'); congruence.
Qed.

Lemma fillna0_not_null c : fillna0 c <> CNull.
Proof. destruct c; discriminate. Qed.

Lemma convertir_col_limpia df :
  pendiente_o_limpia df -> sin_nulos (convertir_columna true df col).
Proof.
  intros Hp; unfold convertir_columna.
  destruct (has_dcol df col && negb (is_numeric_dtype df col)) eqn:Hc.
  - intros r Hr; unfold set_column in Hr; simpl in Hr.
    apply in_map_iff in Hr as [r0 [<- _]].
    rewrite String.eqb_refl; apply fillna0_not_null.
  - destruct Hp as [[H1 H2]|Hs]; [|exact Hs].
    rewrite H1, H2 in Hc; discriminate.
Qed.

Lemma convertir_otra df name :
  name <> col ->
  map (fun r => r col) (drows (convertir_columna true df name)) = map (fun r => r col) (drows df) /\
  (has_dcol df col = true -> has_dcol (convertir_columna true df name) col = true).
Proof.
  intros Hne; unfold convertir_columna.
  destruct (has_dcol df name && negb (is_numeric_dtype df name)); [|tauto].
  split; [now apply set_column_other_values | apply has_dcol_set_column].
Qed.

Lemma convertir_preserva df name :
  pendiente_o_limpia df -> pendiente_o_limpia (convertir_columna true df name).
Proof.
  intros Hp; destruct (String.eqb_spec name col) as [->|Hne].
  - right; now apply convertir_col_limpia.
  - destruct (convertir_otra df name Hne) as [Hv Hh].
    destruct Hp as [[H1 H2]|Hs].
    + left; split; [now apply Hh|].
      now rewrite (is_numeric_dtype_values _ _ Hv).
    + right; exact (sin_nulos_values _ _ Hv Hs).
Qed.

Lemma convertir_numericas_limpia cols df :
  pendiente_o_limpia df -> In col cols -> sin_nulos (convertir_numericas true cols df).
Proof.
  unfold convertir_numericas; revert df.
  induction cols as [|name cols IH]; simpl; [tauto|].
  intros df Hp [->|Hin].
  - assert (Hs : sin_nulos (convertir_columna true df col)) by now apply convertir_col_limpia.
    clear IH; generalize (convertir_columna true df col) Hs; clear df Hp Hs.
    induction cols as [|n cols IH']; simpl; intros df Hs; [exact Hs|].
    apply IH'; destruct (String.eqb_spec n col) as [->|Hne].
    + apply convertir_col_limpia; now right.
    + exact (sin_nulos_values _ _ (proj1 (convertir_otra df n Hne)) Hs).
  - apply IH; [now apply convertir_preserva | exact Hin].
Qed.

End Columna.

(** The recaudo frame of the failing input: one text that is not a number
    in [POR_VENCER]. *)
Definition recaudo_no_numerico : dframe :=
  mkDF ["POR_VENCER"] [fun k => if String.eqb k "POR_VENCER" then CStr "abc" else CNull].

(** C6: in [process_cartera_data] every designated column that gets
    coerced ends without a null, since the coerced values go through
    [.fillna(0)]; [process_recaudo_data] has no [.fillna(0)], so a text
    that does not parse stays [NaN] in [POR_VENCER]. *)
Theorem C6_monetary_coercion :
  (forall df col,
     In col numeric_columns_cartera ->
     has_dcol df col = true -> is_numeric_dtype df col = false ->
     forall r, In r (drows (convertir_numericas true numeric_columns_cartera df)) ->
     r col <> CNull) /\
  (forall to_datetime : cell -> cell,
     map (fun r => r "POR_VENCER") (drows (process_recaudo_data to_datetime recaudo_no_numerico))
     = [CNull]).
Proof.
  split.
  - intros df col Hin Hh Hn.
    apply convertir_numericas_limpia; [left; split; assumption | exact Hin].
  - intros td; reflexivity.
Qed.

End TablaFacts.

Module DedupFacts.
Import Py Tabla Dedup.

Section Claves.
Variable key : (string -> cell) -> string.

Lemma existsb_eqb_false k seen :
  existsb (String.eqb k) seen = false <-> ~ In k seen.
Proof.
  induction seen as [|x seen IH]; simpl; [tauto|].
  rewrite orb_false_iff, IH; destruct (String.eqb_spec k x); subst; intuition congruence.
Qed.

Lemma drop_dup_first_fresh seen l r :
  In r (drop_dup_first key seen l) -> ~ In (key r) seen.
Proof.
  revert seen; induction l as [|x l IH]; simpl; intros seen; [tauto|].
  destruct (existsb (String.eqb (key x)) seen) eqn:Hx; [apply IH|].
  intros [<-|Hin]; [now apply existsb_eqb_false|].
  intros Hs; apply (IH _ Hin); right; exact Hs.
Qed.

Lemma drop_dup_first_nodup seen l : NoDup (map key (drop_dup_first key seen l)).
Proof.
  revert seen; induction l as [|x l IH]; simpl; intros seen; [constructor|].
  destruct (existsb (String.eqb (key x)) seen); [apply IH|].
  simpl; constructor; [|apply IH].
  intros Hin; apply in_map_iff in Hin as [r [Hk Hr]].
  apply (drop_dup_first_fresh _ _ _ Hr); rewrite Hk; left; reflexivity.
Qed.

Lemma sin_duplicados_nodup l : hay_duplicados key l = false -> NoDup (map key l).
Proof.
  induction l as [|x l IH]; simpl; intros H; [constructor|].
  apply orb_false_iff in H as [H1 H2]; constructor; [|now apply IH].
  intros Hin; apply in_map_iff in Hin as [r [Hk Hr]].
  assert (Hex : existsb (fun r' => String.eqb (key x) (key r')) l = true)
    by (apply existsb_exists; exists r; split; [exact Hr | apply String.eqb_eq; congruence]).
  congruence.
Qed.

(** The first record of each key is kept. *)
Lemma drop_dup_first_keeps_first seen l1 r l2 :
  (forall r', In r' l1 -> key r' <> key r) -> ~ In (key r) seen ->
  In r (drop_dup_first key seen (l1 ++ r :: l2)).
Proof.
  revert seen; induction l1 as [|x l1 IH]; simpl; intros seen Hl1 Hs.
  - apply existsb_eqb_false in Hs; rewrite Hs; left; reflexivity.
  - destruct (existsb (String.eqb (key x)) seen).
    + apply IH; auto.
    + right; apply IH; [auto|].
      intros [E|E]; [exact (Hl1 x (or_introl eq_refl) E) | exact (Hs E)].
Qed.

Variable R : (string -> cell) -> (string -> cell) -> Prop.
Hypothesis R_refl : forall x, R x x.

(** On a list sorted by [R], every key keeps a record that comes [R]-before
    each record of that key. *)
Lemma drop_dup_first_best seen l r' :
  StronglySorted R l -> In r' l -> ~ In (key r') seen ->
  exists r, In r (drop_dup_first key seen l) /\ key r = key r' /\ R r r'.
Proof.
  revert seen; induction l as [|x l IH]; simpl; intros seen Hs Hin Hn; [tauto|].
  apply StronglySorted_inv in Hs as [Hs Hx].
  destruct (existsb (String.eqb (key x)) seen) eqn:Hk.
  - destruct Hin as [<-|Hin].
    + exfalso; apply existsb_eqb_false in Hn; congruence.
    + now apply IH.
  - destruct (String.eqb_spec (key x) (key r')) as [E|E].
    + exists x; split; [left; reflexivity|]; split; [exact E|].
      destruct Hin as [<-|Hin]; [apply R_refl|].
      exact (proj1 (Forall_forall _ _) Hx r' Hin).
    + destruct Hin as [<-|Hin]; [congruence|].
      destruct (IH (key x :: seen) Hs Hin) as [r [Hr Hrk]].
      * intros [E'|E']; [exact (E E') | exact (Hn E')].
      * exists r; split; [right; exact Hr | exact Hrk].
Qed.

End Claves.

Definition R_antes (col : string) (a b : string -> cell) : Prop :=
  antes (a col) (b col) = true.

(** A cell of a column holding values of kind [k] only: missing, or of
    kind [k]. *)
Definition compat (k : clase) (c : cell) : Prop := clase_de c = Falta \/ clase_de c = k.

Lemma isna_falta c : isna c = true <-> clase_de c = Falta.
Proof. destruct c; simpl; split; congruence. Qed.

Lemma clase_eqb_eq a b : clase_eqb a b = true -> a = b.
Proof. destruct a, b; simpl; congruence. Qed.

Lemma leb_refl_dedup s : String.leb s s = true.
Proof. destruct (String.leb_total s s); assumption. Qed.

Lemma leb_trans_dedup a : forall b c,
  String.leb a b = true -> String.leb b c = true -> String.leb a c = true.
Proof.
  induction a as [|x a IH]; intros b c H1 H2; [destruct c; reflexivity|].
  destruct b as [|y b]; [discriminate|]; destruct c as [|z c]; [discriminate|].
  unfold String.leb in *; simpl in *; unfold Ascii.compare in *.
  destruct (N.compare_spec (N_of_ascii x) (N_of_ascii y)) as [E1|E1|E1];
    destruct (N.compare_spec (N_of_ascii y) (N_of_ascii z)) as [E2|E2|E2];
    try discriminate.
  - rewrite E1, E2, N.compare_refl; exact (IH b c H1 H2).
  - rewrite (proj2 (N.compare_lt_iff _ _)) by lia; reflexivity.
  - rewrite (proj2 (N.compare_lt_iff _ _)) by lia; reflexivity.
  - rewrite (proj2 (N.compare_lt_iff _ _)) by lia; reflexivity.
Qed.

Lemma leb_total_dedup a b : String.leb a b = false -> String.leb b a = true.
Proof. destruct (String.leb_total a b); congruence. Qed.

Lemma fecha_le_iff y m d y' m' d' :
  fecha_le y m d y' m' d' = true <->
  (y < y' \/ (y = y' /\ (m < m' \/ (m = m' /\ d <= d'))))%Z.
Proof.
  unfold fecha_le.
  rewrite orb_true_iff, andb_true_iff, orb_true_iff, andb_true_iff,
          Z.ltb_lt, Z.eqb_eq, Z.ltb_lt, Z.eqb_eq, Z.leb_le.
  tauto.
Qed.

Lemma fecha_le_false y m d y' m' d' :
  fecha_le y m d y' m' d' = false ->
  ~ (y < y' \/ (y = y' /\ (m < m' \/ (m = m' /\ d <= d'))))%Z.
Proof. intros H H'; apply fecha_le_iff in H'; congruence. Qed.

Lemma Qle_bool_total x y : Qle_bool x y = false -> Qle_bool y x = true.
Proof.
  intros H; apply Qle_bool_iff.
  destruct (Qlt_le_dec x y) as [Hl|Hl]; [|exact Hl].
  apply Qlt_le_weak, Qle_bool_iff in Hl; congruence.
Qed.

Lemma menor_igual_refl a : clase_de a <> Falta -> menor_igual a a = true.
Proof.
  destruct a; simpl; intros H; try congruence; try reflexivity;
    try (apply Qle_bool_iff, Qle_refl); try apply leb_refl_dedup.
  apply fecha_le_iff; lia.
Qed.

Lemma menor_igual_trans a b c :
  menor_igual a b = true -> menor_igual b c = true -> menor_igual a c = true.
Proof.
  destruct a, b, c; simpl; intros H1 H2; try discriminate; try reflexivity;
    try (apply Qle_bool_iff; apply Qle_bool_iff in H1, H2; eapply Qle_trans; eassumption);
    try (eapply leb_trans_dedup; eassumption);
    try (apply fecha_le_iff; apply fecha_le_iff in H1, H2; lia).
Qed.

Lemma menor_igual_total a b :
  clase_de a = clase_de b -> clase_de a <> Falta ->
  menor_igual a b = false -> menor_igual b a = true.
Proof.
  destruct a, b; simpl; intros Hk Hf H; try congruence; try reflexivity;
    try (apply Qle_bool_total; exact H);
    try (apply leb_total_dedup; exact H).
  apply fecha_le_false in H; apply fecha_le_iff; lia.
Qed.

Lemma antes_refl c : antes c c = true.
Proof.
  unfold antes; destruct (isna c) eqn:E; [reflexivity|].
  apply menor_igual_refl; intros F; apply isna_falta in F; congruence.
Qed.

Lemma compat_presente k c : compat k c -> isna c = false -> clase_de c = k /\ k <> Falta.
Proof.
  intros [H|H] Hn; [apply isna_falta in H; congruence|].
  split; [exact H|]; intros ->; apply isna_falta in H; congruence.
Qed.

Lemma antes_trans k a b c :
  compat k a -> compat k b -> compat k c ->
  antes a b = true -> antes b c = true -> antes a c = true.
Proof.
  intros Ha Hb Hc; unfold antes.
  destruct (isna a), (isna b), (isna c); simpl; try congruence.
  intros H1 H2; exact (menor_igual_trans _ _ _ H2 H1).
Qed.

Lemma antes_total k a b :
  compat k a -> compat k b -> antes a b = false -> antes b a = true.
Proof.
  intros Ha Hb; unfold antes.
  destruct (isna a) eqn:Ea, (isna b) eqn:Eb; simpl; try congruence.
  destruct (compat_presente _ _ Ha Ea) as [Ka Kf], (compat_presente _ _ Hb Eb) as [Kb _].
  apply menor_igual_total; congruence.
Qed.

Lemma ordenable_compat col l :
  ordenable col l = true -> exists k, forall r, In r l -> compat k (r col).
Proof.
  unfold ordenable.
  destruct (filter (fun c => negb (isna c)) (map (fun r => r col) l)) as [|c cs] eqn:Hf.
  - intros _; exists Falta; intros r Hr; left.
    destruct (isna (r col)) eqn:Hn; [now apply isna_falta|].
    assert (Hin : In (r col) (filter (fun c => negb (isna c)) (map (fun r => r col) l)))
      by (apply filter_In; split; [apply (in_map (fun r0 : string -> cell => r0 col)); exact Hr | now rewrite Hn]).
    rewrite Hf in Hin; destruct Hin.
  - intros Hall; exists (clase_de c); intros r Hr.
    destruct (isna (r col)) eqn:Hn; [left; now apply isna_falta|right].
    assert (Hin : In (r col) (filter (fun c => negb (isna c)) (map (fun r => r col) l)))
      by (apply filter_In; split; [apply (in_map (fun r0 : string -> cell => r0 col)); exact Hr | now rewrite Hn]).
    rewrite Hf in Hin; destruct Hin as [<-|Hin]; [reflexivity|].
    apply clase_eqb_eq; exact (proj1 (forallb_forall _ _) Hall _ Hin).
Qed.

(** On a column of one kind, a list sorted pairwise is sorted throughout. *)
Lemma sorted_fuerte col k l :
  (forall r, In r l -> compat k (r col)) ->
  Sorted (R_antes col) l -> StronglySorted (R_antes col) l.
Proof.
  induction l as [|a l IH]; intros Hc Hs; [constructor|].
  apply Sorted_inv in Hs as [Hs Hh].
  assert (Hss : StronglySorted (R_antes col) l) by (apply IH; [intros r Hr; apply Hc; now right | exact Hs]).
  constructor; [exact Hss|].
  destruct l as [|b l]; [constructor|].
  apply HdRel_inv in Hh.
  apply StronglySorted_inv in Hss as [_ Hb].
  constructor; [exact Hh|].
  apply Forall_forall; intros x Hx.
  apply (antes_trans k _ (b col)); [apply Hc; left; reflexivity | apply Hc; right; left; reflexivity
                                   | apply Hc; right; right; exact Hx | exact Hh
                                   | exact (proj1 (Forall_forall _ _) Hb x Hx)].
Qed.

(** What a sort meeting [ordena] returns, on a column it can sort. *)
Lemma ordena_fuerte srt col l :
  ordena srt -> ordenable col l = true ->
  StronglySorted (R_antes col) (srt col l) /\ (forall r, In r (srt col l) <-> In r l).
Proof.
  intros H Ho; destruct (H col l Ho) as [Hp Hs].
  destruct (ordenable_compat _ _ Ho) as [k Hk].
  split.
  - apply (sorted_fuerte col k); [|exact Hs].
    intros r Hr; apply Hk; exact (Permutation_in _ Hp Hr).
  - intros r; split; apply Permutation_in; [exact Hp | symmetry; exact Hp].
Qed.

Lemma In_insert_desc col x y l : In y (insert_desc col x l) <-> x = y \/ In y l.
Proof.
  induction l as [|z l IH]; simpl; [tauto|].
  destruct (antes (x col) (z col)); simpl; [tauto|].
  rewrite IH; tauto.
Qed.

Lemma In_sort_desc col y l : In y (sort_desc col l) <-> In y l.
Proof.
  induction l as [|x l IH]; simpl; [tauto|].
  rewrite In_insert_desc, IH; tauto.
Qed.

Lemma insert_desc_perm col x l : Permutation (insert_desc col x l) (x :: l).
Proof.
  induction l as [|y l IH]; simpl; [reflexivity|].
  destruct (antes (x col) (y col)); [reflexivity|].
  transitivity (y :: x :: l); [now constructor | apply perm_swap].
Qed.

Lemma sort_desc_perm col l : Permutation (sort_desc col l) l.
Proof.
  induction l as [|x l IH]; [reflexivity|].
  unfold sort_desc in *; simpl.
  rewrite insert_desc_perm; now constructor.
Qed.

Lemma insert_desc_sorted col k x l :
  compat k (x col) -> (forall r, In r l -> compat k (r col)) ->
  StronglySorted (R_antes col) l -> StronglySorted (R_antes col) (insert_desc col x l).
Proof.
  induction l as [|y l IH]; simpl; intros Hx Hl Hs.
  - constructor; constructor.
  - apply StronglySorted_inv in Hs as [Hs Hy].
    destruct (antes (x col) (y col)) eqn:Hxy.
    + constructor; [constructor; assumption|].
      constructor; [exact Hxy|].
      apply Forall_forall; intros z Hz.
      apply (antes_trans k _ (y col)); auto.
      exact (proj1 (Forall_forall _ _) Hy z Hz).
    + constructor; [apply IH; auto|].
      apply Forall_forall; intros z Hz; apply In_insert_desc in Hz as [<-|Hz].
      * apply (antes_total k); auto.
      * exact (proj1 (Forall_forall _ _) Hy z Hz).
Qed.

Lemma sort_desc_sorted col k l :
  (forall r, In r l -> compat k (r col)) -> StronglySorted (R_antes col) (sort_desc col l).
Proof.
  induction l as [|x l IH]; simpl; intros Hl; [constructor|].
  apply (insert_desc_sorted col k); [auto| |auto].
  intros r Hr; apply In_sort_desc in Hr; auto.
Qed.

(** Insertion sort is one of the sorts [ordena] describes. *)
Lemma sort_desc_ordena : ordena sort_desc.
Proof.
  intros col l Ho; destruct (ordenable_compat _ _ Ho) as [k Hk].
  split; [apply sort_desc_perm|].
  apply StronglySorted_Sorted, (sort_desc_sorted col k), Hk.
Qed.

(** The full-key branch with an update-date column the sort accepts. *)
Lemma deduplicar_con_fecha srt df rc pc c cs :
  find_col possible_razon_names df = Some rc ->
  find_col possible_placa_names df = Some pc ->
  has_dcol df "Vencimiento" = true ->
  hay_duplicados (unique_key rc pc) (drows df) = true ->
  date_cols df = c :: cs -> ordenable c (drows df) = true ->
  deduplicar srt df =
    Some (let kept := drop_dup_first (unique_key rc pc) [] (srt c (drows df)) in
          let removed := (List.length (drows df) - List.length kept)%nat in
          (mkDF (dcols df) kept,
           if Nat.ltb 0 removed && Nat.ltb (List.length (drows df)) (100 * removed)
           then [InfoDedup] else [])).
Proof.
  intros Hr Hp Hv Hd Hc Ho; unfold deduplicar; rewrite Hr, Hp, Hv; cbv zeta.
  now rewrite Hd, Hc, Ho.
Qed.

(** Two records of the same due date whose company and plate texts differ
    but contain an underscore, so that the joined keys coincide. *)
Definition fila (venc : cell) (razon placa : string) : string -> cell :=
  fun k => if String.eqb k "Vencimiento" then venc
           else if String.eqb k "Razón Social" then CStr razon
           else if String.eqb k "Placa" then CStr placa
           else CNull.

Definition cartera_guion_bajo : dframe :=
  mkDF ["Vencimiento"; "Razón Social"; "Placa"]
       [fila (CDate 2024 1 31) "A_B" "C"; fila (CDate 2024 1 31) "A" "B_C"].

(** Two records of one key whose update dates are texts (day/month/year):
    [31/01/2024] is the older date but the larger text. *)
Definition fila_act (act : string) : string -> cell :=
  fun k => if String.eqb k "Fecha Actualizacion" then CStr act
           else fila (CDate 2024 1 31) "ACME" "XYZ123" k.

Definition cartera_fecha_texto : dframe :=
  mkDF ["Vencimiento"; "Razón Social"; "Placa"; "Fecha Actualizacion"]
       [fila_act "01/02/2024"; fila_act "31/01/2024"].

(** C3: the key joins the three texts with "_", so the two records of
    [cartera_guion_bajo], which differ on Razón Social and on Placa,
    collide and one of them is dropped, whatever the sort.  With the three
    key columns present: the call raises (the sort's [TypeError]) exactly
    when there are duplicates and the update-date column mixes kinds of
    values; otherwise no two kept records share a key, without an
    update-date column the first record of each key is kept, and with one
    every key keeps a record whose update value is the largest of that key
    (missing values last) in pandas' order, which for texts is the order of
    the characters: of [cartera_fecha_texto] the record updated
    [31/01/2024], the older one, is kept.  With Razón Social or Placa
    missing a warning is reported and only the due date is used (keeping
    the last record); with the due date missing a warning naming it is
    reported and nothing is removed. *)
Theorem C3_dedup :
  (norm_text (fila (CDate 2024 1 31) "A_B" "C" "Razón Social") <>
     norm_text (fila (CDate 2024 1 31) "A" "B_C" "Razón Social") /\
   norm_text (fila (CDate 2024 1 31) "A_B" "C" "Placa") <>
     norm_text (fila (CDate 2024 1 31) "A" "B_C" "Placa") /\
   forall srt,
     option_map (fun p => List.length (drows (fst p)))
       (process_cartera_data (fun c => c) srt cartera_guion_bajo true) = Some 1%nat) /\
  (forall srt, ordena srt ->
     deduplicar srt cartera_fecha_texto =
       Some (mkDF (dcols cartera_fecha_texto) [fila_act "31/01/2024"], [InfoDedup])) /\
  (forall srt df rc pc,
     find_col possible_razon_names df = Some rc ->
     find_col possible_placa_names df = Some pc ->
     has_dcol df "Vencimiento" = true ->
     (deduplicar srt df = None <->
        hay_duplicados (unique_key rc pc) (drows df) = true /\
        exists c cs, date_cols df = c :: cs /\ ordenable c (drows df) = false) /\
     (ordena srt -> forall df' ms, deduplicar srt df = Some (df', ms) ->
        NoDup (map (unique_key rc pc) (drows df')) /\
        (date_cols df = [] ->
           forall l1 r l2, drows df = (l1 ++ r :: l2)%list ->
           (forall r', In r' l1 -> unique_key rc pc r' <> unique_key rc pc r) ->
           In r (drows df')) /\
        (forall c cs, date_cols df = c :: cs ->
           forall r', In r' (drows df) ->
           exists r, In r (drows df') /\
             unique_key rc pc r = unique_key rc pc r' /\ antes (r c) (r' c) = true))) /\
  (forall srt df,
     has_dcol df "Vencimiento" = true ->
     (find_col possible_razon_names df = None \/ find_col possible_placa_names df = None) ->
     exists faltan,
       deduplicar srt df =
         (let vkey := fun r : string -> cell => venc_str (r "Vencimiento") in
          if hay_duplicados vkey (drows df)
          then Some (mkDF (dcols df) (drop_dup_last vkey (drows df)),
                     [AvisoColumnas faltan; InfoParcial])
          else Some (df, [AvisoColumnas faltan]))) /\
  (forall srt df,
     has_dcol df "Vencimiento" = false ->
     exists faltan, In "Vencimiento" faltan /\
       deduplicar srt df = Some (df, [AvisoColumnas faltan])).
Proof.
  split; [split; [discriminate|split; [discriminate|intros srt; reflexivity]]|].
  split; [|split; [|split]].
  - (* text update dates *)
    intros srt Hsrt.
    set (r1 := fila_act "01/02/2024"); set (r2 := fila_act "31/01/2024").
    assert (Ho : ordenable "Fecha Actualizacion" [r1; r2] = true) by reflexivity.
    assert (Hs : srt "Fecha Actualizacion" [r1; r2] = [r2; r1]).
    { destruct (Hsrt _ _ Ho) as [Hp Hsort].
      destruct (Permutation_length_2_inv (Permutation_sym Hp)) as [E|E]; rewrite E in *; [|reflexivity].
      apply Sorted_inv in Hsort as [_ Hh]; apply HdRel_inv in Hh.
      vm_compute in Hh; discriminate. }
    rewrite (deduplicar_con_fecha srt cartera_fecha_texto "Razón Social" "Placa"
               "Fecha Actualizacion" []) by reflexivity.
    cbn [drows cartera_fecha_texto]; fold r1 r2; rewrite Hs.
    reflexivity.
  - intros srt df rc pc Hr Hp Hv.
    unfold deduplicar; rewrite Hr, Hp, Hv; cbv zeta.
    destruct (hay_duplicados (unique_key rc pc) (drows df)) eqn:Hd.
    + destruct (date_cols df) as [|c cs] eqn:Hc.
      * split; [split; [discriminate|intros [_ (c & cs & E & _)]; discriminate]|].
        intros _ df' ms E; injection E as <- <-; cbn [drows].
        split; [apply drop_dup_first_nodup|split].
        -- intros _ l1 r l2 Hl Hl1; rewrite Hl.
           now apply drop_dup_first_keeps_first.
        -- intros c cs E; discriminate.
      * destruct (ordenable c (drows df)) eqn:Ho.
        -- split; [split; [discriminate|intros [_ (c' & cs' & E & Ho')]; injection E as <- <-; congruence]|].
           intros Hsrt df' ms E; injection E as <- <-; cbn [drows].
           split; [apply drop_dup_first_nodup|split; [discriminate|]].
           intros c' cs' E r' Hr'; injection E as <- <-.
           destruct (ordena_fuerte srt c (drows df) Hsrt Ho) as [Hss Hin].
           apply (drop_dup_first_best _ (R_antes c)); [intros x; apply antes_refl|exact Hss|now apply Hin|tauto].
        -- split; [split; [intros _; split; [reflexivity|exists c, cs; split; [reflexivity|exact Ho]]|reflexivity]|].
           intros _ df' ms E; discriminate.
    + split; [split; [discriminate|intros [E _]; discriminate]|].
      intros _ df' ms E; injection E as <- <-.
      split; [now apply sin_duplicados_nodup|split].
      * intros _ l1 r l2 ->; intros _; apply in_or_app; right; left; reflexivity.
      * intros c cs _ r' Hr'; exists r'; split; [exact Hr'|split; [reflexivity|apply antes_refl]].
  - intros srt df Hv Hm.
    unfold deduplicar; rewrite Hv; cbv zeta.
    destruct Hm as [E|E]; rewrite E;
      [|destruct (find_col possible_razon_names df)]; eexists; reflexivity.
  - intros srt df Hv; unfold deduplicar; rewrite Hv; cbv zeta.
    destruct (find_col possible_razon_names df), (find_col possible_placa_names df);
      (eexists; split; [|reflexivity]; left; reflexivity).
Qed.

End DedupFacts.

Module OrdenFacts.
Import Archivos.

Section Estable.
Context {A : Type} (ge : A -> A -> bool).
Hypothesis ge_total : forall a b, ge a b = false -> ge b a = true.
Hypothesis ge_trans : forall a b c, ge a b = true -> ge b c = true -> ge a c = true.

Let R (a b : A) : Prop := ge a b = true.

Lemma ge_refl a : ge a a = true.
Proof. pose proof (ge_total a a) as H; destruct (ge a a); auto. Qed.

Lemma filter_nil (p : A -> bool) l : (forall z, In z l -> p z = false) -> filter p l = [].
Proof.
  induction l as [|y r IH]; intros H; simpl; [reflexivity|].
  rewrite (H y (or_introl eq_refl)); apply IH; intros z Hz; apply H; now right.
Qed.

Lemma insertar_perm x l : Permutation (insertar ge x l) (x :: l).
Proof.
  induction l as [|y r IH]; simpl; [reflexivity|].
  destruct (ge y x); [|reflexivity].
  rewrite IH; apply perm_swap.
Qed.

Lemma ordenar_perm_aux l acc :
  Permutation (fold_left (fun acc x => insertar ge x acc) l acc) (l ++ acc).
Proof.
  revert acc; induction l as [|x l IH]; intros acc; simpl; [reflexivity|].
  rewrite IH, insertar_perm. apply Permutation_sym, Permutation_middle.
Qed.

Lemma ordenar_perm l : Permutation (ordenar_desc ge l) l.
Proof. unfold ordenar_desc; rewrite ordenar_perm_aux, app_nil_r; reflexivity. Qed.

Lemma In_ordenar x l : In x (ordenar_desc ge l) <-> In x l.
Proof. split; apply Permutation_in; [|symmetry]; apply ordenar_perm. Qed.

Lemma insertar_ss x l : StronglySorted R l -> StronglySorted R (insertar ge x l).
Proof.
  induction l as [|y r IH]; intros H; simpl.
  - repeat constructor.
  - inversion H as [|? ? Hr Hy]; subst.
    destruct (ge y x) eqn:E.
    + constructor; [now apply IH|].
      apply Forall_forall; intros z Hz.
      apply (Permutation_in _ (insertar_perm x r)) in Hz as [<-|Hz]; [exact E|].
      now apply (proj1 (Forall_forall _ _) Hy).
    + constructor; [assumption|].
      constructor; [now apply ge_total|].
      apply Forall_forall; intros z Hz.
      apply (ge_trans _ y); [now apply ge_total|].
      now apply (proj1 (Forall_forall _ _) Hy).
Qed.

Lemma ordenar_ss_aux l acc :
  StronglySorted R acc -> StronglySorted R (fold_left (fun acc x => insertar ge x acc) l acc).
Proof.
  revert acc; induction l as [|x l IH]; intros acc H; simpl; [exact H|].
  apply IH, insertar_ss, H.
Qed.

Lemma ordenar_ss l : StronglySorted R (ordenar_desc ge l).
Proof. apply ordenar_ss_aux; constructor. Qed.

(** Elements of one key class keep their relative order. *)
Lemma insertar_estable (p : A -> bool) x l :
  (forall a b, p a = true -> p b = true -> ge a b = true) ->
  StronglySorted R l ->
  filter p (insertar ge x l) = (filter p l ++ filter p [x])%list.
Proof.
  intros Hp; induction l as [|y r IH]; intros H; simpl; [now destruct (p x)|].
  inversion H as [|? ? Hr Hy]; subst.
  destruct (ge y x) eqn:E; simpl.
  - rewrite IH by assumption. now destruct (p y).
  - destruct (p x) eqn:Px.
    + assert (Hn : forall z, In z (y :: r) -> p z = false).
      { intros z Hz; destruct (p z) eqn:Pz; [|reflexivity]; exfalso.
        assert (Hyz : ge y z = true).
        { destruct Hz as [<-|Hz]; [apply ge_refl|].
          now apply (proj1 (Forall_forall _ _) Hy). }
        assert (ge y x = true) by (apply (ge_trans _ z); [exact Hyz| now apply Hp]).
        congruence. }
      rewrite (Hn y (or_introl eq_refl)), (filter_nil p r (fun z Hz => Hn z (or_intror Hz))).
      reflexivity.
    + now rewrite app_nil_r.
Qed.

Lemma ordenar_estable_aux (p : A -> bool) l acc :
  (forall a b, p a = true -> p b = true -> ge a b = true) ->
  StronglySorted R acc ->
  filter p (fold_left (fun acc x => insertar ge x acc) l acc) = (filter p acc ++ filter p l)%list.
Proof.
  intros Hp; revert acc; induction l as [|x l IH]; intros acc H; simpl.
  - now rewrite app_nil_r.
  - rewrite IH by now apply insertar_ss.
    rewrite insertar_estable by assumption.
    rewrite <- app_assoc; simpl; now destruct (p x).
Qed.

Lemma ordenar_estable (p : A -> bool) l :
  (forall a b, p a = true -> p b = true -> ge a b = true) ->
  filter p (ordenar_desc ge l) = filter p l.
Proof. intros Hp; unfold ordenar_desc; rewrite ordenar_estable_aux; auto; constructor. Qed.

End Estable.

End OrdenFacts.

Module ArchivosFacts.
Import Py Archivos OrdenFacts.

Lemma ruta_eqb_eq p q : ruta_eqb p q = true <-> p = q.
Proof.
  destruct p as [c1 n1], q as [c2 n2]; unfold ruta_eqb; simpl.
  rewrite andb_true_iff, !String.eqb_eq; split; [intros [-> ->]; reflexivity|].
  intros H; injection H as -> ->; auto.
Qed.

Lemma clave_ge_total a b : clave_ge a b = false -> clave_ge b a = true.
Proof.
  unfold clave_ge; rewrite !orb_false_iff, !orb_true_iff, !andb_true_iff, !andb_false_iff,
    !Z.ltb_lt, !Z.ltb_ge, !Z.eqb_eq, !Z.eqb_neq, !Z.leb_le, !Z.leb_gt; lia.
Qed.

Lemma clave_ge_trans a b c : clave_ge a b = true -> clave_ge b c = true -> clave_ge a c = true.
Proof.
  unfold clave_ge; rewrite !orb_true_iff, !andb_true_iff, !Z.ltb_lt, !Z.eqb_eq, !Z.leb_le; lia.
Qed.

Lemma mtime_ge_total (a b : string * Z) :
  (snd b <=? snd a)%Z = false -> (snd a <=? snd b)%Z = true.
Proof. rewrite Z.leb_gt, Z.leb_le; lia. Qed.

Lemma mtime_ge_trans (a b c : string * Z) :
  (snd b <=? snd a)%Z = true -> (snd c <=? snd b)%Z = true -> (snd c <=? snd a)%Z = true.
Proof. rewrite !Z.leb_le; lia. Qed.

Lemma In_get_excel_files dir c pre p :
  In p (get_excel_files dir c pre) <->
  exists l t, dir = Some l /\ In (nombre p, t) l /\ carpeta p = c /\
              glob_match pre ".xlsx" (nombre p) = true.
Proof.
  unfold get_excel_files; destruct dir as [l|].
  - rewrite in_map_iff; split.
    + intros [[n t] [<- Hin]].
      apply In_ordenar in Hin; apply filter_In in Hin as [Hin Hg].
      exists l, t; simpl; auto.
    + intros (l' & t & Hl & Hin & Hc & Hg); injection Hl as <-.
      exists (nombre p, t); split; [destruct p; simpl in *; now subst|].
      apply In_ordenar, filter_In; auto.
  - split; [intros []|intros (l & t & H & _); discriminate].
Qed.

Lemma Forall_get_excel_files dir c pre :
  Forall (fun p => carpeta p = c) (get_excel_files dir c pre).
Proof.
  apply Forall_forall; intros p Hp; apply In_get_excel_files in Hp as (? & ? & ? & ? & ? & ?); auto.
Qed.

(** What the loops require of an entry built from a file. *)
Definition bien_formada (label : Z -> Z -> string) (e : entrada) : Prop :=
  parse_filename_date (nombre (e_ruta e)) = Some (e_año e, e_mes e) /\
  e_mes_str e = label (e_año e) (e_mes e).

Lemma bien_formada_unica label e e' :
  bien_formada label e -> bien_formada label e' -> e_ruta e = e_ruta e' -> e = e'.
Proof.
  destruct e as [s a m f], e' as [s' a' m' f']; unfold bien_formada; simpl.
  intros [H1 H2] [H1' H2'] <-; rewrite H1 in H1'; injection H1' as <- <-; congruence.
Qed.

Lemma In_entradas_raw label files e :
  In e (entradas_raw label files) <-> In (e_ruta e) files /\ bien_formada label e.
Proof.
  unfold entradas_raw, bien_formada; rewrite in_flat_map; split.
  - intros [f [Hf He]].
    destruct (parse_filename_date (nombre f)) as [[a m]|] eqn:Hp; [|destruct He].
    destruct He as [<-|[]]; simpl; auto.
  - intros [Hf [Hp Hl]]; exists (e_ruta e); split; [exact Hf|].
    rewrite Hp; left; destruct e; simpl in *; now subst.
Qed.

Lemma In_agregar_raiz label rf :
  forall rf' acc,
  (forall f, In f rf' -> In f rf) ->
  (forall e, In e acc -> In (e_ruta e) rf -> bien_formada label e) ->
  forall e, In e (agregar_raiz label acc rf') <->
            In e acc \/ (In (e_ruta e) rf' /\ bien_formada label e).
Proof.
  unfold agregar_raiz.
  induction rf' as [|f rf' IH]; intros acc Hinc Hacc e; simpl.
  - intuition.
  - assert (Hinc' : forall f', In f' rf' -> In f' rf) by (intros; apply Hinc; now right).
    destruct (parse_filename_date (nombre f)) as [[a m]|] eqn:Hp.
    + destruct (existsb (fun e0 => ruta_eqb (e_ruta e0) f) acc) eqn:Hx.
      * rewrite (IH acc) by auto. split; [intuition|].
        intros [H|[[Hf|Hf] Hb]]; auto.
        left. apply existsb_exists in Hx as [e0 [He0 Hr]]; apply ruta_eqb_eq in Hr.
        assert (Hb0 : bien_formada label e0) by (apply Hacc; [exact He0| rewrite Hr; apply Hinc; now left]).
        assert (Heq : e = e0) by (apply (bien_formada_unica label); auto; congruence).
        now subst e.
      * rewrite (IH (acc ++ [mkEntrada (label a m) a m f])%list).
        -- rewrite in_app_iff; simpl; split.
           ++ intros [[H|[<-|[]]]|[H1 H2]].
              ** now left.
              ** right; split; [now left|]. unfold bien_formada; simpl; auto.
              ** right; split; [now right|exact H2].
           ++ intros [H|[[Hf|Hf] Hb]]; auto.
              left; right; left.
              destruct Hb as [Hb1 Hb2]; destruct e as [s a' m' f']; simpl in *; subst f'.
              rewrite Hp in Hb1; injection Hb1 as <- <-; now subst.
        -- auto.
        -- intros e0 He0; apply in_app_iff in He0 as [He0|[<-|[]]]; [now apply Hacc|].
           intros _; unfold bien_formada; simpl; auto.
    + rewrite (IH acc) by auto; split; [intuition|].
      intros [H|[[Hf|Hf] Hb]]; auto.
      exfalso; destruct Hb as [Hb _]; rewrite <- Hf, Hp in Hb; discriminate.
Qed.

Lemma digit_val_rango c : is_digit c = true -> (0 <= digit_val c <= 9)%Z.
Proof.
  unfold is_digit, digit_val; intros Hc; apply andb_true_iff in Hc as [_ Hc];
    apply Nat.leb_le in Hc; lia.
Qed.

Lemma match_fecha_rango s y m : match_fecha s = Some (y, m) -> (0 <= y <= 9999)%Z.
Proof.
  unfold match_fecha.
  destruct s as [|a1 [|a2 [|a3 [|a4 [|g [|m1 r]]]]]]; try discriminate.
  destruct (is_digit a1) eqn:D1, (is_digit a2) eqn:D2, (is_digit a3) eqn:D3,
           (is_digit a4) eqn:D4; simpl; try discriminate.
  apply digit_val_rango in D1, D2, D3, D4.
  destruct (Ascii.eqb g "-" && is_digit m1); [|discriminate].
  destruct r as [|m2 r]; [|destruct (is_digit m2)]; intros H.
  all: injection H as <- <-; lia.
Qed.

Lemma buscar_fecha_rango s y m : buscar_fecha s = Some (y, m) -> (0 <= y <= 9999)%Z.
Proof.
  induction s as [|a r IH]; intros H; [discriminate|].
  change (match match_fecha (String a r) with
          | Some p => Some p
          | None => buscar_fecha r
          end = Some (y, m)) in H.
  destruct (match_fecha (String a r)) as [[y1 m1]|] eqn:Hm.
  - injection H as <- <-; eapply match_fecha_rango; eauto.
  - exact (IH H).
Qed.

Lemma parse_rango name y m :
  parse_filename_date name = Some (y, m) -> (1 <= m <= 12 /\ 0 <= y <= 9999)%Z.
Proof.
  unfold parse_filename_date.
  destruct (buscar_fecha (stem name)) as [[a b]|] eqn:E; [|discriminate].
  destruct ((1 <=? b)%Z && (b <=? 12)%Z) eqn:Hr; [|discriminate].
  intros H; injection H as <- <-; apply andb_true_iff in Hr as [H1 H2].
  apply Z.leb_le in H1, H2; split; [lia|]; eapply buscar_fecha_rango; eauto.
Qed.

Lemma raw_ne_root : CARTERA_RAW_DIR <> ROOT_DIR.
Proof. discriminate. Qed.

Lemma In_detect_cartera raw root e :
  In e (detect_cartera_files raw root) <->
  ((exists l t, raw = Some l /\ In (nombre (e_ruta e), t) l /\ carpeta (e_ruta e) = CARTERA_RAW_DIR) \/
   (exists l t, root = Some l /\ In (nombre (e_ruta e), t) l /\ carpeta (e_ruta e) = ROOT_DIR)) /\
  glob_match "cartera-" ".xlsx" (nombre (e_ruta e)) = true /\
  parse_filename_date (nombre (e_ruta e)) = Some (e_año e, e_mes e) /\
  e_mes_str e = mes_str_es (e_año e) (e_mes e).
Proof.
  unfold detect_cartera_files; rewrite In_ordenar.
  rewrite (In_agregar_raiz _ (get_excel_files root ROOT_DIR "cartera-")); auto.
  - rewrite In_entradas_raw, !In_get_excel_files; unfold bien_formada.
    split.
    + intros [[(l & t & H1 & H2 & H3 & H4) [H5 H6]]|[(l & t & H1 & H2 & H3 & H4) [H5 H6]]];
        repeat split; auto; [left|right]; eauto.
    + intros [[(l & t & H1 & H2 & H3)|(l & t & H1 & H2 & H3)] [H4 [H5 H6]]];
        [left|right]; repeat split; eauto 7.
  - intros e0 He0 _; now apply In_entradas_raw in He0 as [_ ?].
Qed.

Lemma ordenado_detect_cartera raw root :
  StronglySorted (fun a b => clave_ge a b = true) (detect_cartera_files raw root).
Proof. apply ordenar_ss; [apply clave_ge_total|apply clave_ge_trans]. Qed.

Lemma agregar_raiz_app label rf : forall acc,
  exists extra, agregar_raiz label acc rf = (acc ++ extra)%list /\
                forall e, In e extra -> In (e_ruta e) rf.
Proof.
  unfold agregar_raiz.
  induction rf as [|f rf IH]; intros acc; simpl.
  - exists []; split; [now rewrite app_nil_r|intros _ []].
  - destruct (parse_filename_date (nombre f)) as [[a m]|];
      [destruct (existsb (fun e => ruta_eqb (e_ruta e) f) acc)|].
    + destruct (IH acc) as [x [-> Hx]]; exists x; split; [reflexivity|]; intros e He; right; auto.
    + destruct (IH (acc ++ [mkEntrada (label a m) a m f])%list) as [x [-> Hx]].
      exists (mkEntrada (label a m) a m f :: x); split; [now rewrite <- app_assoc|].
      intros e [<-|He]; [now left|right; auto].
    + destruct (IH acc) as [x [-> Hx]]; exists x; split; [reflexivity|]; intros e He; right; auto.
Qed.

(** The files of one month, before the final sort: the raw-directory ones
    first, then the root ones. *)
Lemma filtro_mes_detect raw root y m :
  let p := fun e => (e_año e =? y)%Z && (e_mes e =? m)%Z in
  exists l1 l2,
    filter p (detect_cartera_files raw root) = (l1 ++ l2)%list /\
    Forall (fun e => carpeta (e_ruta e) = CARTERA_RAW_DIR) l1 /\
    Forall (fun e => carpeta (e_ruta e) = ROOT_DIR) l2 /\
    (forall e, In e (detect_cartera_files raw root) -> p e = true ->
       carpeta (e_ruta e) = CARTERA_RAW_DIR -> In e l1) /\
    (forall e, In e (detect_cartera_files raw root) -> p e = true ->
       carpeta (e_ruta e) = ROOT_DIR -> In e l2).
Proof.
  intros p.
  set (rawE := entradas_raw mes_str_es (get_excel_files raw CARTERA_RAW_DIR "cartera-")).
  set (rf := get_excel_files root ROOT_DIR "cartera-").
  destruct (agregar_raiz_app mes_str_es rf rawE) as [extra [Hx Hex]].
  assert (Hd : detect_cartera_files raw root = ordenar_desc clave_ge (rawE ++ extra)%list)
    by (unfold detect_cartera_files; fold rawE rf; now rewrite Hx).
  assert (Hs : filter p (detect_cartera_files raw root) = filter p (rawE ++ extra)%list).
  { rewrite Hd; apply ordenar_estable; [apply clave_ge_total|apply clave_ge_trans|].
    intros a b Ha Hb; unfold p, clave_ge in *.
    apply andb_true_iff in Ha as [Ha1 Ha2], Hb as [Hb1 Hb2].
    apply Z.eqb_eq in Ha1, Ha2, Hb1, Hb2.
    rewrite Ha1, Hb1, Ha2, Hb2, Z.eqb_refl, Z.leb_refl; apply orb_true_r. }
  assert (Hraw : forall e, In e rawE -> carpeta (e_ruta e) = CARTERA_RAW_DIR).
  { intros e He; apply In_entradas_raw in He as [He _].
    apply In_get_excel_files in He as (? & ? & ? & ? & ? & ?); auto. }
  assert (Hroot : forall e, In e extra -> carpeta (e_ruta e) = ROOT_DIR).
  { intros e He; apply Hex, In_get_excel_files in He as (? & ? & ? & ? & ? & ?); auto. }
  exists (filter p rawE), (filter p extra); repeat split.
  - now rewrite Hs, filter_app.
  - apply Forall_forall; intros e He; apply filter_In in He as [He _]; auto.
  - apply Forall_forall; intros e He; apply filter_In in He as [He _]; auto.
  - intros e He Pe Hc; rewrite Hd, In_ordenar, in_app_iff in He.
    destruct He as [He|He]; [now apply filter_In|].
    exfalso; apply raw_ne_root; rewrite <- Hc; auto.
  - intros e He Pe Hc; rewrite Hd, In_ordenar, in_app_iff in He.
    destruct He as [He|He]; [|now apply filter_In].
    exfalso; apply raw_ne_root; rewrite <- (Hraw e He); auto.
Qed.

Lemma find_filter {A : Type} (p : A -> bool) l : find p l = hd_error (filter p l).
Proof. induction l as [|x l IH]; simpl; [reflexivity|]; destruct (p x); auto. Qed.

Lemma fold_ultimo {A B : Type} (p : A -> bool) (g : A -> B) l a :
  fold_left (fun acc x => if p x then Some (g x) else acc) l a =
  match rev (filter p l) with x :: _ => Some (g x) | [] => a end.
Proof.
  revert a; induction l as [|x l IH]; intros a; simpl; [reflexivity|].
  rewrite IH; destruct (p x) eqn:Px; simpl; [|reflexivity].
  destruct (rev (filter p l)); reflexivity.
Qed.

Lemma fold_comparacion_fst l y1 m1 y2 m2 a b :
  fst (fold_left (fun '(f1, f2) e =>
          (if (e_año e =? y1)%Z && (e_mes e =? m1)%Z then Some (e_ruta e) else f1,
           if (e_año e =? y2)%Z && (e_mes e =? m2)%Z then Some (e_ruta e) else f2)) l (a, b)) =
  fold_left (fun acc e => if (e_año e =? y1)%Z && (e_mes e =? m1)%Z then Some (e_ruta e) else acc) l a.
Proof. revert a b; induction l as [|x l IH]; intros a b; simpl; auto. Qed.

Lemma clave_ge_refl e : clave_ge e e = true.
Proof. unfold clave_ge; rewrite Z.eqb_refl, Z.leb_refl; apply orb_true_r. Qed.

Lemma cabeza_maxima raw root pr rest :
  detect_cartera_files raw root = pr :: rest ->
  forall e, In e (detect_cartera_files raw root) -> clave_ge pr e = true.
Proof.
  intros Hd e He; pose proof (ordenado_detect_cartera raw root) as Hs; rewrite Hd in Hs, He.
  apply StronglySorted_inv in Hs as [_ Hf].
  destruct He as [<-|He]; [apply clave_ge_refl|].
  exact (proj1 (Forall_forall _ _) Hf e He).
Qed.

(** [detect_cartera_files] lists the files newest period first, every one
    with a month in 1..12 and a four-digit year; an entry is listed exactly
    when its file is a [cartera-*.xlsx] of [data/cartera/raw] or of the root
    directory whose name carries that period, labelled [mes_str_es]. *)
Theorem detect_cartera_files_spec raw root :
  StronglySorted (fun a b => clave_ge a b = true) (detect_cartera_files raw root) /\
  (forall e, In e (detect_cartera_files raw root) ->
     (1 <= e_mes e <= 12)%Z /\ (0 <= e_año e <= 9999)%Z) /\
  (forall e, In e (detect_cartera_files raw root) <->
    ((exists l t, raw = Some l /\ In (nombre (e_ruta e), t) l /\ carpeta (e_ruta e) = CARTERA_RAW_DIR) \/
     (exists l t, root = Some l /\ In (nombre (e_ruta e), t) l /\ carpeta (e_ruta e) = ROOT_DIR)) /\
    glob_match "cartera-" ".xlsx" (nombre (e_ruta e)) = true /\
    parse_filename_date (nombre (e_ruta e)) = Some (e_año e, e_mes e) /\
    e_mes_str e = mes_str_es (e_año e) (e_mes e)).
Proof.
  split; [apply ordenado_detect_cartera|split; [|apply In_detect_cartera]].
  intros e He; apply In_detect_cartera in He as (_ & _ & Hp & _).
  exact (parse_rango _ _ _ Hp).
Qed.

(** A period whose file is both in [data/cartera/raw] and in the root
    directory: [load_cartera_data] picks the raw-directory copy without a
    warning, while [load_cartera_for_comparison], which keeps the last match
    of its loop, picks the root copy as the first period's file. *)
Theorem raw_y_raiz_mismo_periodo raw root l1 l2 n1 t1 n2 t2 y m y2 m2 :
  raw = Some l1 -> root = Some l2 -> In (n1, t1) l1 -> In (n2, t2) l2 ->
  glob_match "cartera-" ".xlsx" n1 = true -> glob_match "cartera-" ".xlsx" n2 = true ->
  parse_filename_date n1 = Some (y, m) -> parse_filename_date n2 = Some (y, m) ->
  y <> 0%Z ->
  (exists p, load_cartera_data_archivo (detect_cartera_files raw root) (Some y) (Some m)
               = Some (p, false) /\ carpeta p = CARTERA_RAW_DIR) /\
  (forall p1 p2, load_cartera_for_comparison_archivos (detect_cartera_files raw root) y m y2 m2
                   = Elegidos p1 p2 -> carpeta p1 = ROOT_DIR).
Proof.
  intros Hr Hro H1 H2 G1 G2 P1 P2 Hy.
  set (e1 := mkEntrada (mes_str_es y m) y m (mkRuta CARTERA_RAW_DIR n1)).
  set (e2 := mkEntrada (mes_str_es y m) y m (mkRuta ROOT_DIR n2)).
  assert (He1 : In e1 (detect_cartera_files raw root))
    by (apply In_detect_cartera; simpl; repeat split; auto; left; eauto).
  assert (He2 : In e2 (detect_cartera_files raw root))
    by (apply In_detect_cartera; simpl; repeat split; auto; right; eauto).
  assert (Hm : m <> 0%Z) by (destruct (parse_rango _ _ _ P1); lia).
  destruct (filtro_mes_detect raw root y m) as (k1 & k2 & Hf & F1 & F2 & I1 & I2).
  assert (Pe : forall e, e_año e = y -> e_mes e = m ->
                 (e_año e =? y)%Z && (e_mes e =? m)%Z = true)
    by (intros e -> ->; now rewrite !Z.eqb_refl).
  split.
  - specialize (I1 e1 He1 (Pe e1 eq_refl eq_refl) eq_refl).
    destruct k1 as [|h k1]; [destruct I1|].
    exists (e_ruta h); split; [|exact (proj1 (Forall_forall _ _) F1 h (or_introl eq_refl))].
    unfold load_cartera_data_archivo.
    destruct (detect_cartera_files raw root) as [|pr rest] eqn:Hd; [destruct He1|].
    replace (negb (y =? 0)%Z && negb (m =? 0)%Z) with true
      by (symmetry; apply andb_true_iff; split; apply negb_true_iff, Z.eqb_neq; auto).
    rewrite find_filter, Hf; reflexivity.
  - intros p1 p2; unfold load_cartera_for_comparison_archivos.
    destruct (fold_left _ (detect_cartera_files raw root) (None, None)) as [f1 f2] eqn:Hfold.
    assert (Hf1 : f1 = fst (f1, f2)) by reflexivity.
    rewrite <- Hfold, fold_comparacion_fst, fold_ultimo, Hf, rev_app_distr in Hf1.
    specialize (I2 e2 He2 (Pe e2 eq_refl eq_refl) eq_refl).
    assert (Hk : exists x r, rev k2 = x :: r /\ In x k2).
    { destruct (rev k2) as [|x r] eqn:Hk2.
      - apply (f_equal (@rev _)) in Hk2; rewrite rev_involutive in Hk2; subst k2; destruct I2.
      - exists x, r; split; [reflexivity|]; apply in_rev; rewrite Hk2; now left. }
    destruct Hk as (x & r & Hx & Inx); rewrite Hx in Hf1; simpl in Hf1; subst f1.
    destruct f2 as [q2|]; [|destruct (fecha_valida y2 m2); discriminate].
    destruct (fecha_valida y m && fecha_valida y2 m2); [|discriminate].
    intros E; injection E as <- _.
    exact (proj1 (Forall_forall _ _) F2 x Inx).
Qed.

(** [load_cartera_data] on the detected files: no file exactly when none is
    available; a requested month that is listed is the one loaded, with no
    warning; otherwise the newest period is loaded, and the warning is given
    exactly when a month was requested (non-zero year and month) but is not
    listed. *)
Theorem load_cartera_data_archivo_spec raw root a m :
  (load_cartera_data_archivo (detect_cartera_files raw root) a m = None <->
   detect_cartera_files raw root = []) /\
  (forall p w, load_cartera_data_archivo (detect_cartera_files raw root) a m = Some (p, w) ->
   exists e, In e (detect_cartera_files raw root) /\ e_ruta e = p /\
     (forall y mo, a = Some y -> m = Some mo -> y <> 0%Z -> mo <> 0%Z ->
        (exists e', In e' (detect_cartera_files raw root) /\ e_año e' = y /\ e_mes e' = mo) ->
        e_año e = y /\ e_mes e = mo /\ w = false) /\
     (w = true <-> exists y mo, a = Some y /\ m = Some mo /\ y <> 0%Z /\ mo <> 0%Z /\
        ~ (exists e', In e' (detect_cartera_files raw root) /\ e_año e' = y /\ e_mes e' = mo)) /\
     ((forall e', In e' (detect_cartera_files raw root) -> clave_ge e e' = true) \/
      (a = Some (e_año e) /\ m = Some (e_mes e) /\ e_año e <> 0%Z /\ e_mes e <> 0%Z))).
Proof.
  pose proof (cabeza_maxima raw root) as Hmax.
  unfold load_cartera_data_archivo.
  destruct (detect_cartera_files raw root) as [|pr rest] eqn:Hd.
  { split; [tauto|intros p w E; discriminate]. }
  specialize (Hmax pr rest eq_refl).
  split; [split; [destruct a as [y|], m as [mo|];
                  try destruct (_ && _); try destruct find; discriminate|discriminate]|].
  intros p w E.
  destruct a as [y|]; [destruct m as [mo|]|].
  2, 3: injection E as <- <-; exists pr;
        split; [now left|split; [reflexivity|split; [intros ? ? E1 E2; discriminate|]]];
        split; [split; [discriminate|intros (? & ? & E1 & E2 & _); discriminate]|left; exact Hmax].
  destruct (negb (y =? 0)%Z && negb (mo =? 0)%Z) eqn:Hc.
  2: { injection E as <- <-; exists pr;
       split; [now left|split; [reflexivity|split]].
       - intros ? ? E1 E2 Hy Hmo; injection E1 as <-; injection E2 as <-.
         apply Z.eqb_neq in Hy, Hmo; rewrite Hy, Hmo in Hc; discriminate.
       - split; [split; [discriminate|]|left; exact Hmax].
         intros (? & ? & E1 & E2 & Hy & Hmo & _); injection E1 as <-; injection E2 as <-.
         apply Z.eqb_neq in Hy, Hmo; rewrite Hy, Hmo in Hc; discriminate. }
  destruct (find _ (pr :: rest)) as [e|] eqn:Hf.
  - injection E as <- <-; apply find_some in Hf as [Hin Pe].
    apply andb_true_iff in Pe as [Pa Pm]; apply Z.eqb_eq in Pa, Pm.
    exists e; split; [exact Hin|split; [reflexivity|split]].
    + intros ? ? E1 E2 _ _ _; injection E1 as <-; injection E2 as <-; auto.
    + split; [split; [discriminate|]|].
      2: { right; apply andb_true_iff in Hc as [Hy Hmo].
           apply negb_true_iff, Z.eqb_neq in Hy, Hmo; subst; repeat split; auto. }
      intros (? & ? & E1 & E2 & _ & _ & Hn); injection E1 as <-; injection E2 as <-.
      exfalso; apply Hn; eauto.
  - injection E as <- <-; pose proof (find_none _ _ Hf) as Hn.
    apply andb_true_iff in Hc as [Hy Hmo]; apply negb_true_iff, Z.eqb_neq in Hy, Hmo.
    exists pr; split; [now left|split; [reflexivity|split]].
    + intros ? ? E1 E2 _ _ (e' & He' & Ea & Em); injection E1 as <-; injection E2 as <-.
      specialize (Hn e' He'); cbv beta in Hn; rewrite Ea, Em, !Z.eqb_refl in Hn; discriminate.
    + split; [split; [intros _|intros _; reflexivity]|left; exact Hmax].
      exists y, mo; repeat split; auto.
      intros (e' & He' & Ea & Em); specialize (Hn e' He'); cbv beta in Hn; rewrite Ea, Em, !Z.eqb_refl in Hn;
        discriminate.
Qed.

Lemma raw_y_raiz_mismo_periodo_witness :
  (exists p, load_cartera_data_archivo
               (detect_cartera_files (Some [("cartera-2024-03.xlsx", 5%Z)])
                                     (Some [("cartera-2024-03.xlsx", 7%Z)]))
               (Some 2024%Z) (Some 3%Z) = Some (p, false) /\ carpeta p = CARTERA_RAW_DIR) /\
  (forall p1 p2, load_cartera_for_comparison_archivos
                   (detect_cartera_files (Some [("cartera-2024-03.xlsx", 5%Z)])
                                         (Some [("cartera-2024-03.xlsx", 7%Z)]))
                   2024 3 2024 3 = Elegidos p1 p2 -> carpeta p1 = ROOT_DIR).
Proof.
  apply (raw_y_raiz_mismo_periodo (Some [("cartera-2024-03.xlsx", 5%Z)])
           (Some [("cartera-2024-03.xlsx", 7%Z)]) [("cartera-2024-03.xlsx", 5%Z)]
           [("cartera-2024-03.xlsx", 7%Z)] "cartera-2024-03.xlsx" 5 "cartera-2024-03.xlsx" 7
           2024 3 2024 3);
    first [reflexivity | now left | vm_compute; reflexivity | discriminate].
Defined.

Lemma fold_recaudo_none (g : Z -> Z -> string) rf : forall acc,
  fold_left (fun acc f =>
               match acc with
               | None => None
               | Some acc =>
                   match parse_filename_date (nombre f) with
                   | Some (año, mes) =>
                       if fecha_valida año mes then
                         if existsb (fun e => ruta_eqb (e_ruta e) f) acc then Some acc
                         else Some (acc ++ [mkEntrada (g año mes) año mes f])%list
                       else None
                   | None => Some acc
                   end
               end) rf acc = None <->
  acc = None \/ exists f a m, In f rf /\ parse_filename_date (nombre f) = Some (a, m) /\
                              fecha_valida a m = false.
Proof.
  induction rf as [|f rf IH]; intros acc; simpl.
  - split; [now left|intros [H|(? & ? & ? & [] & _)]; exact H].
  - destruct acc as [acc|].
    2: { rewrite IH; split; intros _; now left. }
    destruct (parse_filename_date (nombre f)) as [[a m]|] eqn:Hp;
      [destruct (fecha_valida a m) eqn:Hv;
       [destruct (existsb (fun e => ruta_eqb (e_ruta e) f) acc)|]|].
    1, 2, 4: rewrite IH; split;
      [intros [H|(f' & a' & m' & H1 & H2 & H3)];
         [discriminate|right; exists f', a', m'; auto]
      |intros [H|(f' & a' & m' & [<-|H1] & H2 & H3)];
         [discriminate| |right; exists f', a', m'; auto]];
      rewrite Hp in H2; try discriminate; injection H2 as <- <-; congruence.
    rewrite IH; split; [intros _; right; exists f, a, m; auto|intros _; now left].
Qed.

Lemma fecha_valida_parse n a m :
  parse_filename_date n = Some (a, m) -> fecha_valida a m = false -> a = 0%Z.
Proof.
  intros Hp Hv; destruct (parse_rango _ _ _ Hp) as [Hm Ha].
  unfold fecha_valida in Hv.
  destruct (Z.leb_spec 1 a), (Z.leb_spec a 9999), (Z.leb_spec 1 m), (Z.leb_spec m 12);
    simpl in Hv; try discriminate; lia.
Qed.

(** [detect_recaudo_files] raises (the [ValueError] of [datetime]) exactly
    when a [recaudo-*.xlsx] file of the root directory carries the year
    0000; otherwise its list is sorted newest period first. *)
Theorem detect_recaudo_files_spec g raw root :
  (detect_recaudo_files g raw root = None <->
   exists l n t m, root = Some l /\ In (n, t) l /\ glob_match "recaudo-" ".xlsx" n = true /\
                   parse_filename_date n = Some (0%Z, m)) /\
  (forall av, detect_recaudo_files g raw root = Some av ->
   StronglySorted (fun a b => clave_ge a b = true) av).
Proof.
  unfold detect_recaudo_files; split.
  - destruct (fold_left _ _ _) as [acc|] eqn:Hf; simpl.
    + split; [discriminate|intros (l & n & t & m & Hr & Hin & Hg & Hp)].
      rewrite (proj2 (fold_recaudo_none g _ _)) in Hf; [discriminate|].
      right; exists (mkRuta ROOT_DIR n), 0%Z, m.
      split; [apply In_get_excel_files; simpl; eauto 7|split; [exact Hp|reflexivity]].
    + split; [intros _|reflexivity].
      apply fold_recaudo_none in Hf as [Hf|(f & a & m & Hin & Hp & Hv)]; [discriminate|].
      pose proof (fecha_valida_parse _ _ _ Hp Hv); subst a.
      apply In_get_excel_files in Hin as (l & t & Hr & Hin & _ & Hg); eauto 8.
  - intros av H; destruct (fold_left _ _ _) as [acc|]; simpl in H; [|discriminate].
    injection H as <-; apply ordenar_ss; [apply clave_ge_total|apply clave_ge_trans].
Qed.

Lemma append_assoc_s (a b c : string) : ((a ++ b) ++ c = a ++ (b ++ c))%string.
Proof. induction a as [|x a IH]; simpl; [reflexivity|now rewrite IH]. Qed.

Lemma length_append_s (a b : string) : String.length (a ++ b) = String.length a + String.length b.
Proof. induction a as [|x a IH]; simpl; auto. Qed.

Lemma substring_append (a b : string) : substring 0 (String.length a) (a ++ b) = a.
Proof. induction a as [|x a IH]; simpl; [now destruct b|now rewrite IH]. Qed.

Lemma ultimo_punto_append (a b : string) : forall i acc,
  ultimo_punto (a ++ b) i acc = ultimo_punto b (i + String.length a) (ultimo_punto a i acc).
Proof.
  induction a as [|x a IH]; intros i acc; simpl; [now rewrite Nat.add_0_r|].
  rewrite IH; f_equal; lia.
Qed.

Lemma stem_xlsx (s : string) : s <> EmptyString -> stem (s ++ ".xlsx") = s.
Proof.
  intros Hs; unfold stem; rewrite ultimo_punto_append.
  assert (E : forall j acc, ultimo_punto ".xlsx" j acc = Some j) by reflexivity.
  rewrite E, Nat.add_0_l, length_append_s.
  change (String.length ".xlsx") with 5.
  destruct s as [|c s']; [congruence|].
  rewrite (proj2 (Nat.ltb_lt 0 _)) by (simpl; lia).
  rewrite (proj2 (Nat.ltb_lt _ (_ + 5 - 1))) by lia; simpl andb.
  apply substring_append.
Qed.

Lemma match_fecha_no_digito a r : is_digit a = false -> match_fecha (String a r) = None.
Proof.
  intros H; destruct r as [|a2 [|a3 [|a4 [|a5 [|a6 r]]]]]; try reflexivity.
  cbv beta iota zeta delta [match_fecha]; rewrite H; reflexivity.
Qed.

Lemma buscar_fecha_cons a r :
  buscar_fecha (String a r) = match match_fecha (String a r) with
                              | Some p => Some p
                              | None => buscar_fecha r
                              end.
Proof. reflexivity. Qed.

Lemma buscar_sin_digitos pre x :
  (forall a, In a (list_ascii_of_string pre) -> is_digit a = false) ->
  buscar_fecha (pre ++ x) = buscar_fecha x.
Proof.
  induction pre as [|a pre IH]; intros H; [reflexivity|].
  change ((String a pre ++ x)%string) with (String a (pre ++ x)).
  rewrite buscar_fecha_cons, match_fecha_no_digito by (apply H; now left).
  apply IH; intros b Hb; apply H; now right.
Qed.

Lemma digito_ok d : (0 <= d <= 9)%Z -> is_digit (digito d) = true /\ digit_val (digito d) = d.
Proof.
  intros Hd; unfold is_digit, digit_val, digito.
  rewrite nat_ascii_embedding by lia.
  split; [apply andb_true_iff; split; apply Nat.leb_le; lia|].
  replace (48 + Z.to_nat d - 48) with (Z.to_nat d) by lia; lia.
Qed.

Lemma match_fecha_formato y :
  (0 <= y <= 9999)%Z ->
  forall m1 r, is_digit m1 = true ->
  match_fecha (cuatro_digitos y ++ String "-" (String m1 r)) =
  Some (y, match r with
           | String m2 _ => if is_digit m2 then (digit_val m1 * 10 + digit_val m2)%Z
                            else digit_val m1
           | EmptyString => digit_val m1
           end).
Proof.
  intros Hy m1 r Hm1.
  destruct (digito_ok (y / 1000)) as [A1 B1]; [Z.div_mod_to_equations; lia|].
  destruct (digito_ok (y / 100 mod 10)) as [A2 B2]; [Z.div_mod_to_equations; lia|].
  destruct (digito_ok (y / 10 mod 10)) as [A3 B3]; [Z.div_mod_to_equations; lia|].
  destruct (digito_ok (y mod 10)) as [A4 B4]; [Z.div_mod_to_equations; lia|].
  unfold cuatro_digitos; simpl append.
  cbv beta iota zeta delta [match_fecha].
  rewrite A1, A2, A3, A4, Hm1, B1, B2, B3, B4; simpl andb.
  replace (y / 1000 * 1000 + y / 100 mod 10 * 100 + y / 10 mod 10 * 10 + y mod 10)%Z with y
    by (Z.div_mod_to_equations; lia).
  destruct r as [|m2 r]; [reflexivity|]; destruct (is_digit m2); reflexivity.
Qed.

Lemma buscar_fecha_match s p : match_fecha s = Some p -> buscar_fecha s = Some p.
Proof. intros H; destruct s as [|a r]; [discriminate|now rewrite buscar_fecha_cons, H]. Qed.

(** The names the loaders expect: after a digit-free prefix such as
    [cartera-], [YYYY-MM] (or [YYYY-M] followed by a non-digit) then
    anything up to [.xlsx].  The first date decides: its month is returned
    when it lies in 1..12 and the file is rejected otherwise, whatever
    follows. *)
Theorem parse_filename_date_formato pre y m rest :
  (forall a, In a (list_ascii_of_string pre) -> is_digit a = false) ->
  (0 <= y <= 9999)%Z ->
  ((0 <= m <= 99)%Z ->
   parse_filename_date (pre ++ cuatro_digitos y ++ "-" ++ dos_digitos m ++ rest ++ ".xlsx") =
   if (1 <=? m)%Z && (m <=? 12)%Z then Some (y, m) else None) /\
  ((0 <= m <= 9)%Z -> (forall c r, rest = String c r -> is_digit c = false) ->
   parse_filename_date (pre ++ cuatro_digitos y ++ "-" ++ String (digito m) (rest ++ ".xlsx")) =
   if (1 <=? m)%Z then Some (y, m) else None).
Proof.
  intros Hpre Hy; split.
  - intros Hm; unfold parse_filename_date.
    replace (pre ++ cuatro_digitos y ++ "-" ++ dos_digitos m ++ rest ++ ".xlsx")%string
      with ((pre ++ cuatro_digitos y ++ "-" ++ dos_digitos m ++ rest) ++ ".xlsx")%string
      by (rewrite !append_assoc_s; reflexivity).
    rewrite stem_xlsx by (destruct pre; discriminate).
    rewrite buscar_sin_digitos by exact Hpre.
    destruct (digito_ok (m / 10)) as [A1 B1]; [Z.div_mod_to_equations; lia|].
    destruct (digito_ok (m mod 10)) as [A2 B2]; [Z.div_mod_to_equations; lia|].
    change (("-" ++ dos_digitos m ++ rest)%string)
      with (String "-" (String (digito (m / 10)) (String (digito (m mod 10)) rest))).
    rewrite (buscar_fecha_match _ _ (match_fecha_formato y Hy _ _ A1)), A2, B1, B2.
    replace (m / 10 * 10 + m mod 10)%Z with m by (Z.div_mod_to_equations; lia).
    reflexivity.
  - intros Hm Hr; unfold parse_filename_date.
    replace (pre ++ cuatro_digitos y ++ "-" ++ String (digito m) (rest ++ ".xlsx"))%string
      with ((pre ++ cuatro_digitos y ++ String "-" (String (digito m) rest)) ++ ".xlsx")%string
      by (rewrite !append_assoc_s; reflexivity).
    rewrite stem_xlsx by (destruct pre; discriminate).
    rewrite buscar_sin_digitos by exact Hpre.
    destruct (digito_ok m) as [A1 B1]; [lia|].
    rewrite (buscar_fecha_match _ _ (match_fecha_formato y Hy _ _ A1)), B1.
    destruct rest as [|c r]; [|rewrite (Hr c r eq_refl)];
      destruct (Z.leb_spec 1 m); simpl; try reflexivity;
      rewrite (proj2 (Z.leb_le m 12)) by lia; reflexivity.
Qed.

Lemma parse_filename_date_formato_witness :
  parse_filename_date ("cartera-" ++ cuatro_digitos 2024 ++ "-" ++ dos_digitos 3 ++ "" ++ ".xlsx")
    = Some (2024%Z, 3%Z).
Proof.
  refine (eq_trans (proj1 (parse_filename_date_formato "cartera-" 2024 3 "" _ _) _) _).
  - intros a H; repeat (destruct H as [<-|H]; [reflexivity|]); destruct H.
  - lia.
  - lia.
  - reflexivity.
Defined.

End ArchivosFacts.

Module DiscoFacts.
Import Cache Archivos Disco ArchivosFacts.

(** The raw-directory file and the root file of the same name share one
    cache file: once the first has been loaded and its cache written, a
    load of the second (not newer than that cache) returns the first one's
    cached table, processed again, and never reads its own Excel file. *)
Theorem cache_compartido {table : Type} (e1 e2 : env)
    (pf : option (table -> option table)) dir (d : disco table) p1 p2 t1 raw1 df1 df2 t2 dat2 :
  nombre p1 = nombre p2 ->
  excel d p1 = Some (t1, Some raw1) -> excel d p2 = Some (t2, dat2) ->
  parquet d (get_cache_path p1 dir) = None ->
  apply_processing pf raw1 = Some df1 -> apply_processing pf df1 = Some df2 ->
  write_ok e1 = true -> (t2 <= now e1)%Z ->
  exists d', load_ruta e1 pf dir d p1 = Some (Some df1, d', [ReadSource; WriteCache]) /\
             exists d'', load_ruta e2 pf dir d' p2 = Some (Some df2, d'', [ReadCache]) /\
             excel d'' = excel d /\ forall q, parquet d'' q = parquet d' q.
Proof.
  intros Hn H1 H2 Hc P1 P2 Hw Ht.
  assert (Hcp : get_cache_path p2 dir = get_cache_path p1 dir)
    by (unfold get_cache_path; now rewrite Hn).
  unfold load_ruta at 1; rewrite H1, Hc.
  unfold load_excel_with_cache, load_from_excel, is_cache_valid; simpl.
  rewrite P1, Hw.
  eexists; split; [reflexivity|].
  unfold load_ruta; simpl; rewrite H2, Hcp.
  assert (E : ruta_eqb (get_cache_path p1 dir) (get_cache_path p1 dir) = true)
    by (apply ruta_eqb_eq; reflexivity).
  rewrite E; unfold load_excel_with_cache, is_cache_valid; simpl.
  rewrite (proj2 (Z.leb_le _ _) Ht), P2.
  eexists; split; [reflexivity|split; [reflexivity|]].
  intros q; simpl; destruct (ruta_eqb q (get_cache_path p1 dir)); reflexivity.
Qed.

Lemma cache_compartido_witness :
  let p1 := mkRuta CARTERA_RAW_DIR "cartera-2024-03.xlsx" in
  let p2 := mkRuta ROOT_DIR "cartera-2024-03.xlsx" in
  let d := mkDisco (fun q => if ruta_eqb q p1 then Some (1%Z, Some 10)
                             else if ruta_eqb q p2 then Some (2%Z, Some 50) else None)
                   (fun _ => None) in
  let pf := Some (fun x : nat => Some (S x)) in
  exists d', load_ruta (mkEnv true 5) pf "data/cartera/cache" d p1
               = Some (Some 11, d', [ReadSource; WriteCache]) /\
    exists d'', load_ruta (mkEnv true 6) pf "data/cartera/cache" d' p2
                  = Some (Some 12, d'', [ReadCache]) /\
    excel d'' = excel d /\ forall q, parquet d'' q = parquet d' q.
Proof.
  intros p1 p2 d pf.
  apply (cache_compartido (mkEnv true 5) (mkEnv true 6) pf "data/cartera/cache" d p1 p2
           1 10 11 12 2 (Some 50)); first [reflexivity | vm_compute; reflexivity | simpl; lia].
Defined.

End DiscoFacts.

Module CompareExtra.
Import Py Cartera CompareFacts.

Lemma leb_false_true a b : String.leb a b = false -> String.leb b a = true.
Proof. intros H; destruct (String.leb_total a b) as [H'|H']; congruence. Qed.

Lemma insert_sorted_sorted x l :
  Sorted (fun a b => String.leb a b = true) l ->
  Sorted (fun a b => String.leb a b = true) (insert_sorted x l).
Proof.
  induction l as [|y r IH]; intros Hs; simpl; [repeat constructor|].
  destruct (String.leb x y) eqn:Hxy; [constructor; auto|].
  apply Sorted_inv in Hs as [Hr Hh].
  constructor; [now apply IH|].
  destruct r as [|z r]; simpl; [constructor; now apply leb_false_true|].
  destruct (String.leb x z); constructor; [now apply leb_false_true|].
  now apply HdRel_inv in Hh.
Qed.

Lemma insert_sorted_perm x l : Permutation (insert_sorted x l) (x :: l).
Proof.
  induction l as [|y r IH]; simpl; [reflexivity|].
  destruct (String.leb x y); [reflexivity|].
  rewrite IH; apply perm_swap.
Qed.

Lemma sort_strings_sorted l : Sorted (fun a b => String.leb a b = true) (sort_strings l).
Proof. induction l as [|x l IH]; simpl; [constructor|now apply insert_sorted_sorted]. Qed.

Lemma sort_strings_perm l : Permutation (sort_strings l) l.
Proof.
  induction l as [|x l IH]; simpl; [reflexivity|].
  rewrite insert_sorted_perm; now constructor.
Qed.

Lemma unique_strings_nodup l : NoDup (unique_strings l).
Proof.
  induction l as [|x l IH]; simpl; constructor.
  - intros Hin; apply filter_In in Hin as [_ H]; rewrite String.eqb_refl in H; discriminate.
  - apply NoDup_filter, IH.
Qed.

(** The rows of [compare_cartera_periods] come one per company, in
    ascending order of the company name, and the companies are exactly
    those of either period (after the [Empresa] column is added); each row
    is the comparison of its own company. *)
Theorem compare_cartera_periods_empresas d1 d2 f l :
  compare_cartera_periods (Some d1) (Some d2) f = Some l ->
  Sorted (fun a b => String.leb a b = true) (map c_empresa l) /\
  NoDup (map c_empresa l) /\
  (forall e, In e (map c_empresa l) <->
             In e (empresas_de (add_empresa f d1)) \/ In e (empresas_de (add_empresa f d2))) /\
  (forall c, In c l -> c = comparar_empresa (add_empresa f d1) (add_empresa f d2) (c_empresa c)).
Proof.
  intros Hl; rewrite (compare_some _ _ _ _ Hl), map_map; simpl.
  rewrite map_id.
  split; [apply sort_strings_sorted|split; [|split]].
  - eapply Permutation_NoDup; [symmetry; apply sort_strings_perm|apply unique_strings_nodup].
  - intros e; rewrite In_sort_strings, In_unique_strings, in_app_iff; reflexivity.
  - intros c Hc; apply in_map_iff in Hc as [e [<- _]]; reflexivity.
Qed.

Lemma compare_cartera_periods_empresas_witness :
  exists l,
  compare_cartera_periods
    (Some (mkFrame ["Empresa"; "Total Cuota"]
             [mkRow CNull "B" None 10 0 0 0 0 0; mkRow CNull "A" None 5 0 0 0 0 0]%Q))
    (Some (mkFrame ["Empresa"; "Total Cuota"] [mkRow CNull "C" None 1 0 0 0 0 0]%Q)) None
  = Some l /\
  Sorted (fun a b => String.leb a b = true) (map c_empresa l) /\ NoDup (map c_empresa l).
Proof.
  eexists; split; [reflexivity|].
  destruct (compare_cartera_periods_empresas
              (mkFrame ["Empresa"; "Total Cuota"]
                 [mkRow CNull "B" None 10 0 0 0 0 0; mkRow CNull "A" None 5 0 0 0 0 0]%Q)
              (mkFrame ["Empresa"; "Total Cuota"] [mkRow CNull "C" None 1 0 0 0 0 0]%Q)
              None _ eq_refl) as [H1 [H2 _]].
  split; [exact H1|exact H2].
Defined.

End CompareExtra.

Module PresentacionFacts.
Import Py Cartera Confianza Presentacion CompareFacts CompareExtra.

Lemma leb_trans_s a : forall b c,
  String.leb a b = true -> String.leb b c = true -> String.leb a c = true.
Proof.
  induction a as [|x a IH]; intros b c H1 H2; [destruct c; reflexivity|].
  destruct b as [|y b]; [discriminate|]; destruct c as [|z c]; [discriminate|].
  unfold String.leb in *; simpl in *; unfold Ascii.compare in *.
  destruct (N.compare_spec (N_of_ascii x) (N_of_ascii y)) as [E1|E1|E1];
    destruct (N.compare_spec (N_of_ascii y) (N_of_ascii z)) as [E2|E2|E2];
    try discriminate.
  - rewrite E1, E2, N.compare_refl; exact (IH b c H1 H2).
  - rewrite (proj2 (N.compare_lt_iff _ _)) by lia; reflexivity.
  - rewrite (proj2 (N.compare_lt_iff _ _)) by lia; reflexivity.
  - rewrite (proj2 (N.compare_lt_iff _ _)) by lia; reflexivity.
Qed.

Lemma ss_filter {A : Type} (R : A -> A -> Prop) (p : A -> bool) l :
  StronglySorted R l -> StronglySorted R (filter p l).
Proof.
  induction 1 as [|x l Hs IH Hf]; simpl; [constructor|].
  destruct (p x); [|exact IH].
  constructor; [exact IH|].
  apply Forall_forall; intros y Hy; apply filter_In in Hy as [Hy _].
  exact (proj1 (Forall_forall _ _) Hf y Hy).
Qed.

Lemma sorted_filter_s (p : string -> bool) l :
  Sorted (fun a b => String.leb a b = true) l ->
  Sorted (fun a b => String.leb a b = true) (filter p l).
Proof.
  intros Hs; apply StronglySorted_Sorted, ss_filter, Sorted_StronglySorted; [|exact Hs].
  intros a b c; apply leb_trans_s.
Qed.

Lemma filter_todos {A : Type} (q : A -> bool) l :
  (forall x, In x l -> q x = true) -> filter q l = l.
Proof.
  induction l as [|x l IH]; intros H; simpl; [reflexivity|].
  rewrite (H x (or_introl eq_refl)), IH; auto; intros y Hy; apply H; now right.
Qed.

Lemma existsb_eqb_In e l : existsb (String.eqb e) l = true <-> In e l.
Proof.
  rewrite existsb_exists; split.
  - intros [x [Hx He]]; apply String.eqb_eq in He; now subst.
  - intros H; exists e; split; [exact H|apply String.eqb_refl].
Qed.

Lemma existsb_unique e l :
  existsb (String.eqb e) (unique_strings l) = existsb (String.eqb e) l.
Proof.
  apply Bool.eq_iff_eq_true; rewrite !existsb_eqb_In; apply In_unique_strings.
Qed.

Lemma orden_preferido_nodup : NoDup orden_preferido.
Proof.
  unfold orden_preferido; repeat constructor; simpl;
    intros H; repeat (destruct H as [H|H]; [discriminate|]); exact H.
Qed.

Lemma orden_preferido_no_vacio e : In e orden_preferido -> e <> EmptyString.
Proof.
  unfold orden_preferido; simpl; intros H; repeat (destruct H as [<-|H]; [discriminate|]);
    destruct H.
Qed.

(** The company order of the Cartera page: no company twice, exactly the
    non-empty company names of the data, first the preferred companies
    present (in the preferred order), then all the others, sorted. *)
Theorem empresas_ordenadas_spec df :
  NoDup (empresas_ordenadas df) /\
  (forall e, In e (empresas_ordenadas df) <-> In e (empresas_de df) /\ e <> EmptyString) /\
  exists l1 l2, empresas_ordenadas df = (l1 ++ l2)%list /\
    l1 = filter (fun e => existsb (String.eqb e) (empresas_de df)) orden_preferido /\
    Forall (fun e => ~ In e orden_preferido) l2 /\
    Sorted (fun a b => String.leb a b = true) l2.
Proof.
  unfold empresas_ordenadas; rewrite filter_app.
  set (U := unique_strings (empresas_de df)).
  set (l1 := filter (fun e => negb (String.eqb e ""))
               (filter (fun e => existsb (String.eqb e) U) orden_preferido)).
  set (l2 := filter (fun e => negb (String.eqb e ""))
               (sort_strings (filter (fun e => negb (existsb (String.eqb e) orden_preferido)) U))).
  assert (H1 : l1 = filter (fun e => existsb (String.eqb e) (empresas_de df)) orden_preferido).
  { unfold l1; rewrite filter_todos.
    - apply filter_ext; intros e; unfold U; apply existsb_unique.
    - intros x Hx; apply filter_In in Hx as [Hx _].
      apply negb_true_iff, String.eqb_neq, orden_preferido_no_vacio, Hx. }
  assert (H2 : forall e, In e l2 <-> In e U /\ ~ In e orden_preferido /\ e <> EmptyString).
  { intros e; unfold l2; rewrite filter_In, In_sort_strings, filter_In, negb_true_iff,
      negb_true_iff, String.eqb_neq.
    split; [intros [[Hu Hp] Hn]|intros [Hu [Hp Hn]]]; repeat split; auto.
    - intros Hin; apply existsb_eqb_In in Hin; congruence.
    - destruct (existsb (String.eqb e) orden_preferido) eqn:E; [|reflexivity].
      apply existsb_eqb_In in E; contradiction. }
  assert (H1' : forall e, In e l1 <-> In e U /\ In e orden_preferido).
  { intros e; rewrite H1, filter_In, existsb_eqb_In; unfold U; rewrite In_unique_strings; tauto. }
  split; [|split].
  - apply NoDup_app.
    + rewrite H1; apply NoDup_filter, orden_preferido_nodup.
    + unfold l2; apply NoDup_filter.
      eapply Permutation_NoDup; [symmetry; apply sort_strings_perm|].
      apply NoDup_filter, unique_strings_nodup.
    + intros a Ha Hb; apply H1' in Ha; apply H2 in Hb; tauto.
  - intros e; rewrite in_app_iff, H1', H2; unfold U; rewrite In_unique_strings.
    split; [intros [[Hu Hp]|[Hu [Hp Hn]]]; split; auto|].
    + now apply orden_preferido_no_vacio.
    + intros [Hu Hn]; destruct (In_dec string_dec e orden_preferido); tauto.
  - exists l1, l2; split; [reflexivity|split; [exact H1|split]].
    + apply Forall_forall; intros e He; apply H2 in He; tauto.
    + unfold l2; apply sorted_filter_s, sort_strings_sorted.
Qed.

End PresentacionFacts.

Module ZonaFacts.
Import Py Cartera Confianza Presentacion ConfianzaFacts CompareFacts.

Lemma razon_log x : (1 < x)%R -> (0 < log10 x / log10 100)%R.
Proof.
  intros Hx; rewrite ratio_log10.
  apply Rdiv_lt_0_compat; apply ln_pos; lra.
Qed.

Lemma factor_cotas n :
  (0.3 <= calcular_factor_confianza n <= 1)%R /\
  ((100 <= n)%Z -> calcular_factor_confianza n = 1%R).
Proof.
  unfold calcular_factor_confianza.
  destruct (Z.leb_spec n 0) as [Hn|Hn]; [split; [lra|lia]|].
  assert (Hr : (0 < log10 (IZR (n + 1)) / log10 100)%R)
    by (apply razon_log, IZR_lt; lia).
  split; [split; [apply Rmin_glb; lra|apply Rmin_l]|].
  intros H; apply Rmin_left.
  assert (Hge : (1 <= ln (IZR (n + 1)) / ln 100)%R).
  { assert (H100 : (0 < ln 100)%R) by (apply ln_pos; lra).
    apply (Rmult_le_reg_r (ln 100)); [lra|].
    unfold Rdiv; rewrite Rmult_assoc, Rinv_l, Rmult_1_r by lra.
    rewrite Rmult_1_l; apply ln_le_mono; [lra|]; apply IZR_le; lia. }
  rewrite ratio_log10; lra.
Qed.

(** A zone with more records never gets a smaller confidence factor. *)
Theorem calcular_factor_confianza_monotono n m :
  (n <= m)%Z -> (calcular_factor_confianza n <= calcular_factor_confianza m)%R.
Proof.
  intros Hnm; pose proof (factor_cotas m) as [[Hm _] _].
  unfold calcular_factor_confianza in *.
  destruct (Z.leb_spec n 0) as [Hn|Hn]; [exact Hm|].
  destruct (Z.leb_spec m 0) as [Hm0|Hm0]; [lia|].
  apply Rle_min_compat_l, Rplus_le_compat_l, Rmult_le_compat_r; [lra|].
  rewrite !ratio_log10; unfold Rdiv.
  assert (H100 : (0 < ln 100)%R) by (apply ln_pos; lra).
  apply Rmult_le_compat_r; [left; apply Rinv_0_lt_compat; lra|].
  apply ln_le_mono; [apply IZR_lt; lia|apply IZR_le; lia].
Qed.

Lemma calcular_factor_confianza_monotono_witness :
  (calcular_factor_confianza 10 <= calcular_factor_confianza 50)%R.
Proof. apply calcular_factor_confianza_monotono; lia. Defined.

Lemma Qpos_b_lt_zona q : Qpos_b q = true -> (0 < q)%Q.
Proof.
  unfold Qpos_b; intros H; apply negb_true_iff in H.
  apply Qnot_le_lt; intros Hle; apply Qle_bool_iff in Hle; congruence.
Qed.

Lemma zona_metricas_forma df z zr :
  zona_metricas df z = Some zr ->
  z_zona zr = z /\ is_empty (filtro_zona df z) = false /\
  let df_zona := filtro_zona df z in
  let total := sum_col df_zona "Total Cuota" total_cuota in
  (Qpos_b total = true /\ z_total zr = total /\
     z_indices zr = [(sum_col df_zona "Por Vencer" por_vencer / total) * 100;
                     (sum_col df_zona "Dias30" dias30 / total) * 100;
                     (sum_col df_zona "Dias60" dias60 / total) * 100;
                     (sum_col df_zona "Dias90" dias90 / total) * 100;
                     (sum_col df_zona "Dias Mas90" dias_mas90 / total) * 100]%Q /\
     z_mora_total zr = (((sum_col df_zona "Dias30" dias30 + sum_col df_zona "Dias60" dias60 +
                          sum_col df_zona "Dias90" dias90 + sum_col df_zona "Dias Mas90" dias_mas90)
                         / total) * 100)%Q) \/
  (Qpos_b total = false /\ z_total zr = total /\ z_indices zr = [0; 0; 0; 0; 0]%Q /\
   z_mora_total zr = 0%Q).
Proof.
  unfold zona_metricas; destruct (is_empty (filtro_zona df z)) eqn:He; [discriminate|].
  destruct (Qpos_b _) eqn:Hp; intros H; injection H as <-; simpl;
    repeat split; auto.
Qed.

Lemma sum_Q_nonneg l : Forall (fun q => 0 <= q)%Q l -> (0 <= sum_Q l)%Q.
Proof.
  induction 1 as [|x l Hx Hl IH]; unfold sum_Q in *; cbn [fold_right]; [apply Qle_refl|].
  apply (Qle_trans _ (0 + 0)); [compute; discriminate|apply Qplus_le_compat; assumption].
Qed.

Lemma sum_col_nonneg df name sel :
  (forall r, In r (rows df) -> 0 <= sel r)%Q -> (0 <= sum_col df name sel)%Q.
Proof.
  intros H; unfold sum_col; destruct (has_col df name); [|apply Qle_refl].
  apply sum_Q_nonneg, Forall_forall; intros q Hq; apply in_map_iff in Hq as [r [<- Hr]].
  now apply H.
Qed.

Lemma indice_nonneg a t : (0 <= a)%Q -> (0 < t)%Q -> (0 <= (a / t) * 100)%Q.
Proof.
  intros Ha Ht; apply Qmult_le_0_compat; [|discriminate].
  apply Qmult_le_0_compat; [exact Ha|].
  apply Qinv_le_0_compat, Qlt_le_weak, Ht.
Qed.

Lemma Q2R_entero (p : positive) : Q2R (Zpos p # 1) = IZR (Zpos p).
Proof. unfold Q2R; simpl; field. Qed.

Lemma Q2R_0 : Q2R 0 = 0%R.
Proof. unfold Q2R; simpl; lra. Qed.

(** With non-negative overdue buckets, a zone's risk score is
    non-negative, and its normalized score lies between 0.3 times and
    1 times the score, reaching the score itself from 100 records on. *)
Theorem score_riesgo_normalizado_cotas df z zr :
  zona_metricas df z = Some zr ->
  (forall r, In r (rows (filtro_zona df z)) ->
     0 <= dias30 r /\ 0 <= dias60 r /\ 0 <= dias90 r /\ 0 <= dias_mas90 r)%Q ->
  (0 <= score_riesgo zr)%Q /\
  (0.3 * Q2R (score_riesgo zr) <= score_riesgo_normalizado df zr <= Q2R (score_riesgo zr))%R /\
  ((100 <= Z.of_nat (List.length (rows (filtro_zona df z))))%Z ->
   score_riesgo_normalizado df zr = Q2R (score_riesgo zr)).
Proof.
  intros H Hb.
  assert (Hs : (0 <= score_riesgo zr)%Q).
  { destruct (zona_metricas_forma _ _ _ H) as (_ & _ & [(Hp & _ & Hi & _)|(_ & _ & Hi & _)]);
      unfold score_riesgo; rewrite Hi; [|compute; discriminate].
    apply Qpos_b_lt_zona in Hp.
    assert (N : forall name sel, (forall r, In r (rows (filtro_zona df z)) -> 0 <= sel r)%Q ->
              (0 <= (sum_col (filtro_zona df z) name sel /
                     sum_col (filtro_zona df z) "Total Cuota" total_cuota) * 100)%Q)
      by (intros name sel Hsel; apply indice_nonneg; [apply sum_col_nonneg, Hsel|exact Hp]).
    apply Rle_Qle; rewrite Q2R_0, !Q2R_plus, !Q2R_mult.
    assert (B := N "Dias30" dias30 (fun r Hr => proj1 (Hb r Hr))).
    assert (C := N "Dias60" dias60 (fun r Hr => proj1 (proj2 (Hb r Hr)))).
    assert (D := N "Dias90" dias90 (fun r Hr => proj1 (proj2 (proj2 (Hb r Hr))))).
    assert (E := N "Dias Mas90" dias_mas90 (fun r Hr => proj2 (proj2 (proj2 (Hb r Hr))))).
    apply Qle_Rle in B, C, D, E; rewrite Q2R_0, Q2R_mult, Q2R_entero in B, C, D, E.
    rewrite !Q2R_entero; lra. }
  destruct (zona_metricas_forma _ _ _ H) as [Hz _].
  unfold score_riesgo_normalizado; rewrite Hz.
  pose proof (factor_cotas (Z.of_nat (List.length (rows (filtro_zona df z))))) as [[F1 F2] F3].
  split; [exact Hs|].
  apply Qle_Rle in Hs; rewrite Q2R_0 in Hs.
  split.
  - split; nra.
  - intros Hn; rewrite (F3 Hn); ring.
Qed.

Lemma score_riesgo_normalizado_cotas_witness :
  exists zr, zona_metricas (mkFrame ["Zona"; "Total Cuota"; "Dias30"; "Dias90"]
                              [mkRow CNull "A" (Some "Norte") 10 0 1 0 2 0]%Q) "Norte" = Some zr /\
  (0 <= score_riesgo zr)%Q /\
  (0.3 * Q2R (score_riesgo zr) <=
     score_riesgo_normalizado (mkFrame ["Zona"; "Total Cuota"; "Dias30"; "Dias90"]
                                 [mkRow CNull "A" (Some "Norte") 10 0 1 0 2 0]%Q) zr
   <= Q2R (score_riesgo zr))%R.
Proof.
  eexists; split; [reflexivity|].
  destruct (score_riesgo_normalizado_cotas
              (mkFrame ["Zona"; "Total Cuota"; "Dias30"; "Dias90"]
                 [mkRow CNull "A" (Some "Norte") 10 0 1 0 2 0]%Q) "Norte" _ eq_refl)
    as [H1 [H2 _]].
  - intros r Hr; vm_compute in Hr; destruct Hr as [<-|[]].
    repeat split; compute; discriminate.
  - split; [exact H1|exact H2].
Defined.

Lemma zona_metricas_some dfs z r :
  In r (rows dfs) -> zona r = Some z ->
  exists zr, zona_metricas dfs z = Some zr /\ z_zona zr = z.
Proof.
  intros Hr Hz.
  assert (He : is_empty (filtro_zona dfs z) = false).
  { unfold is_empty, filtro_zona, filter_rows; simpl.
    destruct (filter _ (rows dfs)) eqn:Hf; [|reflexivity].
    assert (Hin : In r (filter (fun r => match zona r with
                                         | Some z' => String.eqb z' z
                                         | None => false end) (rows dfs)))
      by (apply filter_In; rewrite Hz, String.eqb_refl; auto).
    rewrite Hf in Hin; destruct Hin. }
  unfold zona_metricas; rewrite He.
  destruct (Qpos_b _); eexists; split; reflexivity.
Qed.

Lemma zonas_flat_map dfs zs :
  (forall z, In z zs -> exists r, In r (rows dfs) /\ zona r = Some z) ->
  map z_zona (flat_map (fun z => match zona_metricas dfs z with
                                 | Some zr => [zr] | None => [] end) zs) = zs /\
  (forall zr, In zr (flat_map (fun z => match zona_metricas dfs z with
                                        | Some zr => [zr] | None => [] end) zs) ->
              zona_metricas dfs (z_zona zr) = Some zr).
Proof.
  induction zs as [|z zs IH]; intros H; simpl; [split; [reflexivity|intros _ []]|].
  destruct (H z (or_introl eq_refl)) as (r & Hr & Hz).
  destruct (zona_metricas_some _ _ _ Hr Hz) as (zr & Hm & Hzr); rewrite Hm.
  destruct IH as [IH1 IH2]; [intros z' Hz'; apply H; now right|].
  simpl; rewrite IH1, Hzr; split; [reflexivity|].
  intros zr' [<-|Hin]; [now rewrite Hzr|auto].
Qed.

(** The zone table of the risk ranking: one row per distinct zone that a
    record outside the excluded companies carries (none when there is no
    [Zona] column), each row being the metrics of its own zone. *)
Theorem zonas_data_spec df :
  NoDup (map z_zona (zonas_data df)) /\
  (forall zr, In zr (zonas_data df) ->
     zona_metricas (filter_rows df (fun r => negb (existsb (String.eqb (empresa r)) empresas_excluidas)))
                   (z_zona zr) = Some zr) /\
  (forall z, In z (map z_zona (zonas_data df)) <->
     has_col df "Zona" = true /\
     exists r, In r (rows df) /\ ~ In (empresa r) empresas_excluidas /\ zona r = Some z).
Proof.
  unfold zonas_data.
  set (dfs := filter_rows df (fun r => negb (existsb (String.eqb (empresa r)) empresas_excluidas))).
  set (zonas := unique_strings (flat_map (fun r => match zona r with Some z => [z] | None => [] end)
                                         (rows dfs))).
  assert (Hrows : forall r, In r (rows dfs) <-> In r (rows df) /\ ~ In (empresa r) empresas_excluidas).
  { intros r; unfold dfs, filter_rows; cbn [rows]; rewrite filter_In, negb_true_iff.
    split; intros [Hr He]; split; auto.
    - intros Hin; apply PresentacionFacts.existsb_eqb_In in Hin; congruence.
    - destruct (existsb _ _) eqn:E; [|reflexivity].
      apply PresentacionFacts.existsb_eqb_In in E; contradiction. }
  assert (Hz : forall z, In z zonas <-> exists r, In r (rows dfs) /\ zona r = Some z).
  { intros z; unfold zonas; rewrite In_unique_strings, in_flat_map.
    split; intros [r [Hr Hz]]; exists r; split; auto.
    - destruct (zona r); [destruct Hz as [<-|[]]; reflexivity|destruct Hz].
    - rewrite Hz; now left. }
  destruct (zonas_flat_map dfs zonas (fun z H => proj1 (Hz z) H)) as [H1 H2].
  assert (Hcol : has_col dfs "Zona" = has_col df "Zona") by reflexivity.
  destruct (has_col dfs "Zona" && negb (is_empty dfs)) eqn:Hc.
  - apply andb_true_iff in Hc as [Hc _].
    rewrite H1; split; [apply CompareExtra.unique_strings_nodup|split; [exact H2|]].
    intros z; rewrite Hz; split.
    + intros (r & Hr & Hzr); apply Hrows in Hr as [Hr He].
      split; [congruence|exists r; auto].
    + intros [_ (r & Hr & He & Hzr)]; exists r; split; auto; now apply Hrows.
  - split; [constructor|split; [intros _ []|]].
    intros z; split; [intros []|intros [Hh (r & Hr & He & Hzr)]].
    rewrite Hcol, Hh in Hc; simpl in Hc.
    unfold is_empty in Hc; destruct (rows dfs) eqn:Hd; [|discriminate].
    exact (proj2 (Hrows r) (conj Hr He)).
Qed.

End ZonaFacts.

Module FormatoFacts.
Import Py Presentacion PresentacionFacts.

Lemma Q2R_inject_Z z : Q2R (inject_Z z) = IZR z.
Proof. unfold Q2R, inject_Z; simpl; field. Qed.

Lemma Q2R_medio : Q2R (1 # 2) = (1 / 2)%R.
Proof. unfold Q2R; simpl; field. Qed.

(** [round_half_even] is a nearest integer, and on a tie (a value exactly
    half-way between two integers) it is the even one. *)
Theorem round_half_even_spec q :
  (- (1 # 2) <= q - inject_Z (round_half_even q) <= 1 # 2)%Q /\
  ((q - inject_Z (round_half_even q) == 1 # 2)%Q \/
   (q - inject_Z (round_half_even q) == - (1 # 2))%Q ->
   Z.even (round_half_even q) = true).
Proof.
  unfold round_half_even; set (f := Qfloor q).
  assert (HF : (IZR f <= Q2R q)%R)
    by (rewrite <- Q2R_inject_Z; apply Qle_Rle, Qfloor_le).
  assert (HF1 : (Q2R q < IZR f + 1)%R)
    by (rewrite <- plus_IZR, <- Q2R_inject_Z; apply Qlt_Rlt, Qlt_floor).
  assert (Hr : forall r : Z, (- (1 # 2) <= q - inject_Z r <= 1 # 2)%Q <->
                             (- (1 / 2) <= Q2R q - IZR r <= 1 / 2)%R).
  { intros r; split.
    - intros [H1 H2]; apply Qle_Rle in H1, H2.
      rewrite Q2R_minus, Q2R_inject_Z in H1, H2; rewrite Q2R_opp, Q2R_medio in H1;
      rewrite Q2R_medio in H2; lra.
    - intros [H1 H2]; split; apply Rle_Qle;
        rewrite Q2R_minus, ?Q2R_opp, Q2R_medio, Q2R_inject_Z; lra. }
  assert (Ht : forall r : Z, (q - inject_Z r == 1 # 2)%Q \/ (q - inject_Z r == - (1 # 2))%Q ->
                             (Q2R q - IZR r = 1 / 2)%R \/ (Q2R q - IZR r = - (1 / 2))%R).
  { intros r [E|E]; apply Qeq_eqR in E; rewrite Q2R_minus, ?Q2R_opp, Q2R_medio, Q2R_inject_Z in E;
      [left|right]; exact E. }
  destruct (Qcompare (q - inject_Z f) (1 # 2)) eqn:Hc.
  - apply Qeq_alt, Qeq_eqR in Hc; rewrite Q2R_minus, Q2R_medio, Q2R_inject_Z in Hc.
    destruct (Z.even f) eqn:Ev.
    + split; [apply Hr; lra|intros _; exact Ev].
    + split; [apply Hr; rewrite plus_IZR; lra|intros _].
      rewrite Z.even_add, Ev; reflexivity.
  - apply Qlt_alt, Qlt_Rlt in Hc; rewrite Q2R_minus, Q2R_medio, Q2R_inject_Z in Hc.
    split; [apply Hr; lra|intros H; apply Ht in H; exfalso; lra].
  - apply Qgt_alt, Qlt_Rlt in Hc; rewrite Q2R_minus, Q2R_medio, Q2R_inject_Z in Hc.
    split; [apply Hr; rewrite plus_IZR; lra|intros H; apply Ht in H; rewrite plus_IZR in H].
    exfalso; lra.
Qed.

Definition no_coma (a : ascii) : bool := negb (Ascii.eqb a ",").

Lemma remove_char_list c l :
  remove_char c (string_of_list_ascii l) =
  string_of_list_ascii (filter (fun a => negb (Ascii.eqb a c)) l).
Proof.
  induction l as [|a l IH]; simpl; [reflexivity|].
  destruct (Ascii.eqb a c); simpl; now rewrite IH.
Qed.

Lemma filter_rev {A : Type} (p : A -> bool) l : filter p (rev l) = rev (filter p l).
Proof.
  induction l as [|a l IH]; simpl; [reflexivity|].
  rewrite filter_app, IH; simpl; destruct (p a); simpl; [reflexivity|apply app_nil_r].
Qed.

Lemma filter_agrupar n : forall l, List.length l <= n ->
  filter no_coma (agrupar_miles l) = filter no_coma l.
Proof.
  induction n as [|n IH]; intros l Hl.
  - destruct l; [reflexivity|simpl in Hl; lia].
  - destruct l as [|a [|b [|c [|d r]]]]; try reflexivity.
    change (agrupar_miles (a :: b :: c :: d :: r))
      with (a :: b :: c :: ","%char :: agrupar_miles (d :: r)).
    change (a :: b :: c :: ","%char :: agrupar_miles (d :: r))
      with ((a :: b :: c :: []) ++ ","%char :: agrupar_miles (d :: r))%list.
    change (a :: b :: c :: d :: r) with ((a :: b :: c :: []) ++ d :: r)%list.
    rewrite !filter_app.
    change (filter no_coma (","%char :: agrupar_miles (d :: r)))
      with (filter no_coma (agrupar_miles (d :: r))).
    rewrite IH by (simpl in *; lia); reflexivity.
Qed.

Lemma digit_char_no_coma d : (0 <= d <= 9)%Z -> no_coma (digit_char d) = true.
Proof.
  intros Hd; unfold no_coma, digit_char.
  destruct (Ascii.eqb_spec (ascii_of_nat (48 + Z.to_nat d)) ","%char) as [E|E]; [|reflexivity].
  apply (f_equal nat_of_ascii) in E; rewrite nat_ascii_embedding in E by lia.
  change (nat_of_ascii ","%char) with 44 in E; lia.
Qed.

Lemma digits_aux_no_coma fuel : forall n acc,
  forallb no_coma (list_ascii_of_string acc) = true ->
  forallb no_coma (list_ascii_of_string (digits_aux fuel n acc)) = true.
Proof.
  induction fuel as [|f IH]; intros n acc H; cbn [digits_aux]; [exact H|].
  assert (Hd : no_coma (digit_char (n mod 10)) = true)
    by (apply digit_char_no_coma; pose proof (Z.mod_pos_bound n 10); lia).
  assert (H' : forallb no_coma (list_ascii_of_string (String (digit_char (n mod 10)) acc)) = true)
    by (cbn [list_ascii_of_string forallb]; now rewrite Hd, H).
  destruct (n <? 10)%Z; [exact H'|apply IH, H'].
Qed.

Lemma string_of_Z_no_coma z : forallb no_coma (list_ascii_of_string (string_of_Z z)) = true.
Proof.
  unfold string_of_Z.
  pose proof (digits_aux_no_coma (S (Z.to_nat (Z.log2 (Z.abs z)))) (Z.abs z) EmptyString eq_refl)
    as Hd.
  destruct (z <? 0)%Z; exact Hd.
Qed.

(** [format_currency]: a dollar sign, a minus sign exactly when the value
    is negative (also when it rounds to 0), then the rounded absolute
    value in decimal; the thousands separators only insert commas, so
    removing them leaves [str(abs(round(value)))]. *)
Theorem format_currency_sin_comas q :
  exists digitos,
    format_currency q = ("$" ++ (if Qle_bool 0 q then "" else "-") ++ digitos)%string /\
    remove_char ","%char digitos = string_of_Z (Z.abs (round_half_even q)).
Proof.
  exists (con_miles (string_of_Z (Z.abs (round_half_even q)))); split; [reflexivity|].
  unfold con_miles; rewrite remove_char_list; fold no_coma.
  rewrite filter_rev, filter_agrupar with (n := List.length (rev (list_ascii_of_string
            (string_of_Z (Z.abs (round_half_even q)))))) by lia.
  rewrite filter_rev, rev_involutive, filter_todos.
  - apply string_of_list_ascii_of_string.
  - intros a Ha; pose proof (string_of_Z_no_coma (Z.abs (round_half_even q))) as H.
    rewrite forallb_forall in H; auto.
Qed.

Lemma hex2_tabla :
  forallb (fun k => match py_int16 (hex2 (Z.of_nat k)) with
                    | Some v => Z.eqb v (Z.of_nat k)
                    | None => false
                    end && negb (Ascii.eqb (hex_digit (Z.of_nat k / 16)) "#"))
          (seq 0 256) = true.
Proof. vm_compute; reflexivity. Qed.

Lemma hex2_byte n : (0 <= n <= 255)%Z ->
  py_int16 (hex2 n) = Some n /\ Ascii.eqb (hex_digit (n / 16)) "#" = false.
Proof.
  intros Hn; pose proof hex2_tabla as H; rewrite forallb_forall in H.
  assert (Hin : In (Z.to_nat n) (seq 0 256)) by (apply in_seq; lia).
  specialize (H (Z.to_nat n) Hin).
  rewrite Z2Nat.id in H by lia.
  apply andb_true_iff in H as [H1 H2]; apply negb_true_iff in H2; split; [|exact H2].
  destruct (py_int16 (hex2 n)); [apply Z.eqb_eq in H1; now subst|discriminate].
Qed.

(** [hex_to_rgb] reads back the three channels of a colour written
    [#rrggbb] (or [rrggbb]) with two hexadecimal digits per channel. *)
Theorem hex_to_rgb_hex2 r g b :
  (0 <= r <= 255)%Z -> (0 <= g <= 255)%Z -> (0 <= b <= 255)%Z ->
  hex_to_rgb (String "#" (hex2 r ++ hex2 g ++ hex2 b)) = Some (r, g, b) /\
  hex_to_rgb (hex2 r ++ hex2 g ++ hex2 b) = Some (r, g, b).
Proof.
  intros Hr Hg Hb.
  destruct (hex2_byte r Hr) as [R1 R2], (hex2_byte g Hg) as [G1 _], (hex2_byte b Hb) as [B1 _].
  unfold hex2 in *.
  remember (hex_digit (r / 16)) as a1; remember (hex_digit (r mod 16)) as a2.
  remember (hex_digit (g / 16)) as a3; remember (hex_digit (g mod 16)) as a4.
  remember (hex_digit (b / 16)) as a5; remember (hex_digit (b mod 16)) as a6.
  unfold hex_to_rgb; cbn [append lstrip_char]; rewrite ?Ascii.eqb_refl; cbn [lstrip_char].
  rewrite R2; cbn [substring]; rewrite R1, G1, B1; split; reflexivity.
Qed.

Lemma hex_to_rgb_hex2_witness :
  hex_to_rgb (String "#" (hex2 149 ++ hex2 165 ++ hex2 166)) = Some (149%Z, 165%Z, 166%Z).
Proof. apply (hex_to_rgb_hex2 149 165 166); lia. Defined.

End FormatoFacts.

Module DedupExtra.
Import Py Tabla Dedup DedupFacts.

Lemma nodup_sin_duplicados (key : (string -> cell) -> string) l :
  NoDup (map key l) -> hay_duplicados key l = false.
Proof.
  induction l as [|x l IH]; simpl; intros H; [reflexivity|].
  inversion H as [|? ? Hn Hd]; subst.
  rewrite (IH Hd), orb_false_r.
  apply Bool.not_true_iff_false; intros He.
  apply existsb_exists in He as [r [Hr Hk]].
  apply String.eqb_eq in Hk; apply Hn; rewrite Hk; now apply in_map.
Qed.

Lemma drop_dup_first_incl (key : (string -> cell) -> string) seen l r :
  In r (drop_dup_first key seen l) -> In r l.
Proof.
  revert seen; induction l as [|x l IH]; simpl; intros seen; [tauto|].
  destruct (existsb (String.eqb (key x)) seen).
  - intros H; right; exact (IH _ H).
  - intros [<-|H]; [left; reflexivity | right; exact (IH _ H)].
Qed.

Lemma drop_dup_first_length (key : (string -> cell) -> string) seen l :
  (List.length (drop_dup_first key seen l) <= List.length l)%nat.
Proof.
  revert seen; induction l as [|x l IH]; simpl; intros seen; [lia|].
  destruct (existsb (String.eqb (key x)) seen); simpl.
  - specialize (IH seen); lia.
  - specialize (IH (key x :: seen)); lia.
Qed.

Lemma insert_desc_length col x l :
  List.length (insert_desc col x l) = S (List.length l).
Proof.
  induction l as [|y l IH]; simpl; [reflexivity|].
  destruct (antes (x col) (y col)); simpl; [reflexivity | now rewrite IH].
Qed.

Lemma sort_desc_length col l : List.length (sort_desc col l) = List.length l.
Proof.
  induction l as [|x l IH]; [reflexivity|].
  unfold sort_desc in *; simpl; now rewrite insert_desc_length, IH.
Qed.

Lemma drop_dup_last_nodup (key : (string -> cell) -> string) l :
  NoDup (map key (drop_dup_last key l)).
Proof.
  unfold drop_dup_last; rewrite map_rev.
  apply (Permutation_NoDup (Permutation_rev _)).
  apply drop_dup_first_nodup.
Qed.

Lemma find_col_mismas names cols rows1 rows2 :
  find_col names (mkDF cols rows1) = find_col names (mkDF cols rows2).
Proof. reflexivity. Qed.

Lemma has_dcol_mismas name cols rows1 rows2 :
  has_dcol (mkDF cols rows1) name = has_dcol (mkDF cols rows2) name.
Proof. reflexivity. Qed.

(** No duplicate for the key of the three columns, when they are there. *)
Definition sin_dup_completa (df : dframe) : Prop :=
  forall rc pc, find_col possible_razon_names df = Some rc ->
    find_col possible_placa_names df = Some pc ->
    has_dcol df "Vencimiento" = true ->
    hay_duplicados (unique_key rc pc) (drows df) = false.

(** No duplicate for the due date, when only the due date is used. *)
Definition sin_dup_parcial (df : dframe) : Prop :=
  has_dcol df "Vencimiento" = true ->
  (find_col possible_razon_names df = None \/ find_col possible_placa_names df = None) ->
  hay_duplicados (fun r => venc_str (r "Vencimiento")) (drows df) = false.

(** A frame without duplicates for the key the code uses is left as it
    is, with at most the warning about missing columns, whatever the
    sort. *)
Lemma deduplicar_sin_duplicados srt df :
  sin_dup_completa df -> sin_dup_parcial df ->
  exists ms, deduplicar srt df = Some (df, ms) /\
    (forall m, In m ms -> exists f, m = AvisoColumnas f).
Proof.
  unfold sin_dup_completa, sin_dup_parcial; intros H1 H2; unfold deduplicar.
  destruct (find_col possible_razon_names df) as [rc|] eqn:Er;
  destruct (find_col possible_placa_names df) as [pc|] eqn:Ep;
  destruct (has_dcol df "Vencimiento") eqn:Ev;
  try (rewrite (H1 _ _ eq_refl eq_refl eq_refl); exists []; split; [reflexivity | simpl; tauto]);
  try (rewrite (H2 eq_refl (or_introl eq_refl)));
  try (rewrite (H2 eq_refl (or_intror eq_refl)));
  (eexists; split; [reflexivity | intros m [<-|[]]; eexists; reflexivity]).
Qed.

(** What the first pass leaves: records of the input, no more of them,
    and no duplicate left for the key the code uses. *)
Ltac mismas cols rows :=
  repeat match goal with
  | H : context [find_col ?n (mkDF cols ?x)] |- _ =>
      tryif unify x rows then fail
      else rewrite (find_col_mismas n cols x rows) in H
  | H : context [has_dcol (mkDF cols ?x) ?n] |- _ =>
      tryif unify x rows then fail
      else rewrite (has_dcol_mismas n cols x rows) in H
  end.

Lemma deduplicar_resultado srt cols rows df1 ms1 :
  (forall col l, ordenable col l = true -> Permutation (srt col l) l) ->
  deduplicar srt (mkDF cols rows) = Some (df1, ms1) ->
  exists rows',
    df1 = mkDF cols rows' /\
    (forall r, In r rows' -> In r rows) /\
    (List.length rows' <= List.length rows)%nat /\
    sin_dup_completa (mkDF cols rows') /\ sin_dup_parcial (mkDF cols rows').
Proof.
  intros Hsrt Hd.
  unfold sin_dup_completa, sin_dup_parcial; unfold deduplicar in Hd.
  destruct (find_col possible_razon_names (mkDF cols rows)) as [rc|] eqn:Er;
  destruct (find_col possible_placa_names (mkDF cols rows)) as [pc|] eqn:Ep;
  destruct (has_dcol (mkDF cols rows) "Vencimiento") eqn:Ev;
  cbv beta iota zeta in Hd; cbn [drows dcols] in Hd.
  1: {
    destruct (hay_duplicados (unique_key rc pc) rows) eqn:Hdup.
    - assert (Hk : exists ord, (forall r, In r ord -> In r rows) /\
                     List.length ord = List.length rows /\
                     df1 = mkDF cols (drop_dup_first (unique_key rc pc) [] ord)).
      { destruct (date_cols (mkDF cols rows)) as [|c cs].
        - injection Hd as E _; exists rows; auto.
        - destruct (ordenable c rows) eqn:Ho; [|discriminate].
          injection Hd as E _; exists (srt c rows); specialize (Hsrt c rows Ho).
          split; [intros r; apply Permutation_in; exact Hsrt|].
          split; [apply Permutation_length; exact Hsrt | auto]. }
      destruct Hk as (ord & Hin & Hlen & ->).
      exists (drop_dup_first (unique_key rc pc) [] ord); repeat split.
      + intros r Hr; apply Hin; exact (drop_dup_first_incl _ _ _ _ Hr).
      + rewrite <- Hlen; apply drop_dup_first_length.
      + intros rc' pc' E1 E2 _; mismas cols rows; rewrite E1 in Er; rewrite E2 in Ep.
        injection Er as <-; injection Ep as <-.
        apply nodup_sin_duplicados, drop_dup_first_nodup.
      + intros; mismas cols rows; intuition congruence.
    - injection Hd as <- _; exists rows; repeat split; auto.
      + intros rc' pc' E1 E2 _; rewrite E1 in Er; rewrite E2 in Ep.
        injection Er as <-; injection Ep as <-; exact Hdup.
      + intros; intuition congruence. }
  all: try (injection Hd as <- _; exists rows; repeat split; auto; intros; intuition congruence).
  all: destruct (hay_duplicados (fun r => venc_str (r "Vencimiento")) rows) eqn:Hv;
    injection Hd as <- _.
  all: try (exists rows; repeat split; auto; intros; intuition congruence).
  all: exists (drop_dup_last (fun r => venc_str (r "Vencimiento")) rows); repeat split;
    [ intros r Hr; unfold drop_dup_last in Hr; apply in_rev in Hr;
      apply in_rev; exact (drop_dup_first_incl _ _ _ _ Hr)
    | unfold drop_dup_last; rewrite length_rev;
      rewrite <- (length_rev rows); apply drop_dup_first_length
    | intros; mismas cols rows; intuition congruence
    | intros; apply nodup_sin_duplicados, drop_dup_last_nodup ].
Qed.

(** When [deduplicar] returns (it raises only in the sort), it keeps the
    columns, keeps only records of its input and never adds any; applied a
    second time to its result, with a sort that permutes the records, it
    returns, changes nothing and reports nothing but the warning about
    missing columns. *)
Theorem deduplicar_idempotente srt df df1 ms1 :
  (forall col l, ordenable col l = true -> Permutation (srt col l) l) ->
  deduplicar srt df = Some (df1, ms1) ->
  dcols df1 = dcols df /\
  (forall r, In r (drows df1) -> In r (drows df)) /\
  (List.length (drows df1) <= List.length (drows df))%nat /\
  exists ms2, deduplicar srt df1 = Some (df1, ms2) /\
    (forall m, In m ms2 -> exists f, m = AvisoColumnas f).
Proof.
  intros Hsrt Hd; destruct df as [cols rows].
  destruct (deduplicar_resultado srt cols rows df1 ms1 Hsrt Hd)
    as [rows' [-> [Hin [Hlen [H1 H2]]]]].
  cbn [dcols drows].
  split; [reflexivity|split; [exact Hin|split; [exact Hlen|]]].
  exact (deduplicar_sin_duplicados srt _ H1 H2).
Qed.

Lemma deduplicar_idempotente_witness :
  deduplicar sort_desc cartera_fecha_texto =
    Some (mkDF (dcols cartera_fecha_texto) [fila_act "31/01/2024"], [InfoDedup]) /\
  exists ms2,
    deduplicar sort_desc (mkDF (dcols cartera_fecha_texto) [fila_act "31/01/2024"]) =
      Some (mkDF (dcols cartera_fecha_texto) [fila_act "31/01/2024"], ms2).
Proof.
  assert (Hd : deduplicar sort_desc cartera_fecha_texto =
                 Some (mkDF (dcols cartera_fecha_texto) [fila_act "31/01/2024"], [InfoDedup]))
    by (vm_compute; reflexivity).
  split; [exact Hd|].
  destruct (deduplicar_idempotente sort_desc cartera_fecha_texto _ _
              (fun col l _ => sort_desc_perm col l) Hd) as (_ & _ & _ & ms2 & E & _).
  exists ms2; exact E.
Defined.

End DedupExtra.
